(** * Nutrient extraction and aggregation of the micronutrient tracking page

    A shallow embedding of [fetchNutrientData] (the callback of the
    [MicronutrientTracking] component): the ten regular expressions run over
    the steps of each recipe, the grouping of the meals per calendar day in a
    JavaScript [Map], the construction of the day list, its sort, and the
    state updates around the fetch.

    Conventions of the embedding.
    - A JavaScript string is a [string]: a sequence of 8-bit characters.  The
      patterns of the page are ASCII only and, without the [u] flag, the [i]
      flag never identifies a non-ASCII code unit with an ASCII one, so a code
      unit outside ASCII behaves like any character above 127 here.
    - A JavaScript number is a [Z].  Only integers read from decimal digits
      and differences of day counts occur; the rounding of integers above
      2^53 to the nearest double is not modelled.
    - A [Date] is the record of its local-time fields.
    - The [Map] is an association list in insertion order, which is the order
      [Map.prototype.forEach] visits. *)

From Stdlib Require Import List String Ascii ZArith NArith Bool Lia.
From Stdlib Require Import Permutation DecimalString DecimalNat Sorted.
Import ListNotations.

Local Open Scope string_scope.
Local Open Scope Z_scope.

(** ** Strings and numbers of the host language *)

Module Js.

Definition code (c : ascii) : N := N_of_ascii c.

Definition isDigit (c : ascii) : bool :=
  (48 <=? code c)%N && (code c <=? 57)%N.

Definition isLower (c : ascii) : bool :=
  (97 <=? code c)%N && (code c <=? 122)%N.

(** [Canonicalize] of a pattern character under the [i] flag (no [u] flag):
    the character is upper-cased, and only ASCII letters change. *)
Definition canonicalize (c : ascii) : ascii :=
  if isLower c then ascii_of_N (code c - 32) else c.

Definition digitValue (c : ascii) : Z := Z.of_N (code c) - 48.

Fixpoint parseDigits (s : string) (acc : Z) : Z :=
  match s with
  | String c s' =>
      if isDigit c then parseDigits s' (10 * acc + digitValue c) else acc
  | EmptyString => acc
  end.

(** [parseInt] on a string that starts with decimal digits: the value of
    the leading digits.  (With no leading digit JavaScript answers [NaN];
    the page only hands it the text of a [(\d+)] group, which has one, see
    [exec_groups_digits].)  The value is the exact integer: JavaScript
    rounds an integer above 2^53 to the nearest double, which is left out
    here; the statements below hold of the rounded value as well, since
    rounding keeps the sign, zero and the order. *)
Definition parseInt (s : string) : Z := parseDigits s 0.

Fixpoint toUpperCase (s : string) : string :=
  match s with
  | String c s' => String (canonicalize c) (toUpperCase s')
  | EmptyString => EmptyString
  end.

Fixpoint allDigits (s : string) : bool :=
  match s with
  | String c s' => isDigit c && allDigits s'
  | EmptyString => true
  end.

End Js.

(** ** The regular expressions of the page

    Every pattern of the page is a sequence of literal characters and
    [(\d+)] groups, compiled with the [i] flag.  [matchHere] is the
    backtracking matcher anchored at the start of its input; [search] tries
    the start positions from left to right, as [String.prototype.match] does
    for a pattern without the [g] flag. *)

Module RegExp.

Inductive Atom : Type :=
| Char (c : ascii)   (* a literal character, compared after Canonicalize *)
| Digits.            (* the capturing group (\d+), greedy *)

Definition t : Type := list Atom.

Fixpoint chars (s : string) : t :=
  match s with
  | String c s' => Char c :: chars s'
  | EmptyString => []
  end.

(** The group [(\d+)] followed by the rest of the pattern, [rest]: one
    digit at least, then as many more as there are, giving digits back one
    at a time while the rest of the pattern fails.  The result is the text
    of the group and what [rest] returned. *)
Fixpoint digitsThen {R : Type} (rest : string -> option R) (s : string)
  : option (string * R) :=
  match s with
  | String a s' =>
      if Js.isDigit a then
        match digitsThen rest s' with
        | Some (ds, r) => Some (String a ds, r)
        | None =>
            match rest s' with
            | Some r => Some (String a EmptyString, r)
            | None => None
            end
        end
      else None
  | EmptyString => None
  end.

(** The matched text and the captured groups, or [None]. *)
Fixpoint matchHere (re : t) (s : string) {struct re}
  : option (string * list string) :=
  match re with
  | [] => Some (EmptyString, [])
  | Char c :: re' =>
      match s with
      | String a s' =>
          if Ascii.eqb (Js.canonicalize a) (Js.canonicalize c) then
            match matchHere re' s' with
            | Some (m, groups) => Some (String a m, groups)
            | None => None
            end
          else None
      | EmptyString => None
      end
  | Digits :: re' =>
      match digitsThen (matchHere re') s with
      | Some (ds, (m, groups)) => Some (ds ++ m, ds :: groups)
      | None => None
      end
  end.

Fixpoint search (re : t) (s : string) : option (string * list string) :=
  match matchHere re s with
  | Some r => Some r
  | None =>
      match s with
      | String _ s' => search re s'
      | EmptyString => None
      end
  end.

(** [s.match(re)]: the array [[whole; group1; group2; ...]] or [null]. *)
Definition exec (s : string) (re : t) : option (list string) :=
  match search re s with
  | Some (m, groups) => Some (m :: groups)
  | None => None
  end.

End RegExp.

(** ** The data of the page: the [NutrientData] interface *)

Record NutrientField : Type := {
  value : Z;
  unit : string;
  percentage : Z
}.

Record Micronutrients : Type := {
  vitamin_a : NutrientField;
  vitamin_c : NutrientField;
  calcium : NutrientField;
  iron : NutrientField;
  potassium : NutrientField;
  sodium : NutrientField
}.

Record Macronutrients : Type := {
  protein : NutrientField;
  carbs : NutrientField;
  fat : NutrientField;
  fiber : NutrientField
}.

(** The shape of [averageData], and of the two objects a recipe is read
    into. *)
Record Nutrients : Type := {
  micronutrients : Micronutrients;
  macronutrients : Macronutrients
}.

Record Meal : Type := {
  id : string;
  timestamp : string;
  mealMicronutrients : Micronutrients;
  mealMacronutrients : Macronutrients
}.

Record NutrientData : Type := {
  day : string;
  averageData : Nutrients;
  meals : list Meal
}.

(** A [Date], by its local-time fields: [month] counts from 0 as [getMonth]
    does, [date] is the day of the month.  The page builds its dates from
    the [created_at] column, a timestamp that is never null, so the invalid
    date (on which [format] throws) has no place in the type. *)
Record Date : Type := {
  year : nat;
  month : nat;
  date : nat;
  hours : nat;
  minutes : nat
}.

(** A row of the [recipes] table, as far as the page reads it; [steps] may
    be [null]. *)
Record Recipe : Type := {
  recipe_id : string;
  created_at : Date;
  steps : option (list string)
}.

(** Assignment to one property of the two nutrient objects
    ([micronutrients.vitamin_a = ...] and the like). *)

Definition set_vitamin_a (f : NutrientField) (m : Micronutrients) :=
  {| vitamin_a := f; vitamin_c := m.(vitamin_c); calcium := m.(calcium);
     iron := m.(iron); potassium := m.(potassium); sodium := m.(sodium) |}.

Definition set_vitamin_c (f : NutrientField) (m : Micronutrients) :=
  {| vitamin_a := m.(vitamin_a); vitamin_c := f; calcium := m.(calcium);
     iron := m.(iron); potassium := m.(potassium); sodium := m.(sodium) |}.

Definition set_calcium (f : NutrientField) (m : Micronutrients) :=
  {| vitamin_a := m.(vitamin_a); vitamin_c := m.(vitamin_c); calcium := f;
     iron := m.(iron); potassium := m.(potassium); sodium := m.(sodium) |}.

Definition set_iron (f : NutrientField) (m : Micronutrients) :=
  {| vitamin_a := m.(vitamin_a); vitamin_c := m.(vitamin_c);
     calcium := m.(calcium); iron := f;
     potassium := m.(potassium); sodium := m.(sodium) |}.

Definition set_potassium (f : NutrientField) (m : Micronutrients) :=
  {| vitamin_a := m.(vitamin_a); vitamin_c := m.(vitamin_c);
     calcium := m.(calcium); iron := m.(iron);
     potassium := f; sodium := m.(sodium) |}.

Definition set_sodium (f : NutrientField) (m : Micronutrients) :=
  {| vitamin_a := m.(vitamin_a); vitamin_c := m.(vitamin_c);
     calcium := m.(calcium); iron := m.(iron);
     potassium := m.(potassium); sodium := f |}.

Definition set_protein (f : NutrientField) (m : Macronutrients) :=
  {| protein := f; carbs := m.(carbs); fat := m.(fat); fiber := m.(fiber) |}.

Definition set_carbs (f : NutrientField) (m : Macronutrients) :=
  {| protein := m.(protein); carbs := f; fat := m.(fat); fiber := m.(fiber) |}.

Definition set_fat (f : NutrientField) (m : Macronutrients) :=
  {| protein := m.(protein); carbs := m.(carbs); fat := f; fiber := m.(fiber) |}.

Definition set_fiber (f : NutrientField) (m : Macronutrients) :=
  {| protein := m.(protein); carbs := m.(carbs); fat := m.(fat); fiber := f |}.

(** ** Extraction of the nutrients of one recipe *)

Module Patterns.
Import RegExp.

(* /Vitamin A: (\d+)mcg \((\d+)%\)/i *)
Definition vitaminA : RegExp.t :=
  (chars "Vitamin A: " ++ Digits :: chars "mcg (" ++ Digits :: chars "%)")%list.
(* /Vitamin C: (\d+)mg \((\d+)%\)/i *)
Definition vitaminC : RegExp.t :=
  (chars "Vitamin C: " ++ Digits :: chars "mg (" ++ Digits :: chars "%)")%list.
(* /Calcium: (\d+)mg \((\d+)%\)/i *)
Definition calcium : RegExp.t :=
  (chars "Calcium: " ++ Digits :: chars "mg (" ++ Digits :: chars "%)")%list.
(* /Iron: (\d+)mg \((\d+)%\)/i *)
Definition iron : RegExp.t :=
  (chars "Iron: " ++ Digits :: chars "mg (" ++ Digits :: chars "%)")%list.
(* /Potassium: (\d+)mg \((\d+)%\)/i *)
Definition potassium : RegExp.t :=
  (chars "Potassium: " ++ Digits :: chars "mg (" ++ Digits :: chars "%)")%list.
(* /Sodium: (\d+)mg \((\d+)%\)/i *)
Definition sodium : RegExp.t :=
  (chars "Sodium: " ++ Digits :: chars "mg (" ++ Digits :: chars "%)")%list.
(* /Protein: (\d+)g \((\d+)%\)/i *)
Definition protein : RegExp.t :=
  (chars "Protein: " ++ Digits :: chars "g (" ++ Digits :: chars "%)")%list.
(* /Carbs: (\d+)g \((\d+)%\)/i *)
Definition carbs : RegExp.t :=
  (chars "Carbs: " ++ Digits :: chars "g (" ++ Digits :: chars "%)")%list.
(* /Fat: (\d+)g \((\d+)%\)/i *)
Definition fat : RegExp.t :=
  (chars "Fat: " ++ Digits :: chars "g (" ++ Digits :: chars "%)")%list.
(* /Fiber: (\d+)g \((\d+)%\)/i *)
Definition fiber : RegExp.t :=
  (chars "Fiber: " ++ Digits :: chars "g (" ++ Digits :: chars "%)")%list.

End Patterns.

(** The two objects every recipe starts from. *)
Definition initialMicronutrients : Micronutrients :=
  {| vitamin_a := {| value := 0; unit := "mcg"; percentage := 0 |};
     vitamin_c := {| value := 0; unit := "mg"; percentage := 0 |};
     calcium := {| value := 0; unit := "mg"; percentage := 0 |};
     iron := {| value := 0; unit := "mg"; percentage := 0 |};
     potassium := {| value := 0; unit := "mg"; percentage := 0 |};
     sodium := {| value := 0; unit := "mg"; percentage := 0 |} |}.

Definition initialMacronutrients : Macronutrients :=
  {| protein := {| value := 0; unit := "g"; percentage := 0 |};
     carbs := {| value := 0; unit := "g"; percentage := 0 |};
     fat := {| value := 0; unit := "g"; percentage := 0 |};
     fiber := {| value := 0; unit := "g"; percentage := 0 |} |}.

Definition initialNutrients : Nutrients :=
  {| micronutrients := initialMicronutrients;
     macronutrients := initialMacronutrients |}.

(** [m[i]] of a match array. *)
Definition group (m : list string) (i : nat) : string := nth i m EmptyString.

(** The body of [recipe.steps.forEach]: the ten matches of one step, each
    assigning its property when it succeeds. *)
Definition processStep (acc : Nutrients) (step : string) : Nutrients :=
  let micro := acc.(micronutrients) in
  let macro := acc.(macronutrients) in
  let micro :=
    match RegExp.exec step Patterns.vitaminA with
    | Some m => set_vitamin_a {| value := Js.parseInt (group m 1);
                                 unit := "mcg";
                                 percentage := Js.parseInt (group m 2) |} micro
    | None => micro
    end in
  let micro :=
    match RegExp.exec step Patterns.vitaminC with
    | Some m => set_vitamin_c {| value := Js.parseInt (group m 1);
                                 unit := "mg";
                                 percentage := Js.parseInt (group m 2) |} micro
    | None => micro
    end in
  let micro :=
    match RegExp.exec step Patterns.calcium with
    | Some m => set_calcium {| value := Js.parseInt (group m 1);
                               unit := "mg";
                               percentage := Js.parseInt (group m 2) |} micro
    | None => micro
    end in
  let micro :=
    match RegExp.exec step Patterns.iron with
    | Some m => set_iron {| value := Js.parseInt (group m 1);
                            unit := "mg";
                            percentage := Js.parseInt (group m 2) |} micro
    | None => micro
    end in
  let micro :=
    match RegExp.exec step Patterns.potassium with
    | Some m => set_potassium {| value := Js.parseInt (group m 1);
                                 unit := "mg";
                                 percentage := Js.parseInt (group m 2) |} micro
    | None => micro
    end in
  let micro :=
    match RegExp.exec step Patterns.sodium with
    | Some m => set_sodium {| value := Js.parseInt (group m 1);
                              unit := "mg";
                              percentage := Js.parseInt (group m 2) |} micro
    | None => micro
    end in
  let macro :=
    match RegExp.exec step Patterns.protein with
    | Some m => set_protein {| value := Js.parseInt (group m 1);
                               unit := "g";
                               percentage := Js.parseInt (group m 2) |} macro
    | None => macro
    end in
  let macro :=
    match RegExp.exec step Patterns.carbs with
    | Some m => set_carbs {| value := Js.parseInt (group m 1);
                             unit := "g";
                             percentage := Js.parseInt (group m 2) |} macro
    | None => macro
    end in
  let macro :=
    match RegExp.exec step Patterns.fat with
    | Some m => set_fat {| value := Js.parseInt (group m 1);
                           unit := "g";
                           percentage := Js.parseInt (group m 2) |} macro
    | None => macro
    end in
  let macro :=
    match RegExp.exec step Patterns.fiber with
    | Some m => set_fiber {| value := Js.parseInt (group m 1);
                             unit := "g";
                             percentage := Js.parseInt (group m 2) |} macro
    | None => macro
    end in
  {| micronutrients := micro; macronutrients := macro |}.

(** [recipe.steps.forEach(step => ...)] from the two initial objects. *)
Definition extractNutrients (steps : list string) : Nutrients :=
  fold_left processStep steps initialNutrients.

(** [hasNutrientData]: some value is strictly positive. *)
Definition hasNutrientData (n : Nutrients) : bool :=
  (0 <? n.(micronutrients).(vitamin_a).(value))
  || (0 <? n.(micronutrients).(vitamin_c).(value))
  || (0 <? n.(micronutrients).(calcium).(value))
  || (0 <? n.(micronutrients).(iron).(value))
  || (0 <? n.(micronutrients).(potassium).(value))
  || (0 <? n.(micronutrients).(sodium).(value))
  || (0 <? n.(macronutrients).(protein).(value))
  || (0 <? n.(macronutrients).(carbs).(value))
  || (0 <? n.(macronutrients).(fat).(value))
  || (0 <? n.(macronutrients).(fiber).(value)).

(** ** Dates: [format] of date-fns and the [Date] constructor on a text *)

Module DateFns.

Definition decimal (n : nat) : string :=
  NilEmpty.string_of_uint (Nat.to_uint n).

Fixpoint zeros (k : nat) (s : string) : string :=
  match k with
  | O => s
  | S k' => String "0" (zeros k' s)
  end.

Definition addLeadingZeros (n targetLength : nat) : string :=
  let s := decimal n in zeros (targetLength - String.length s) s.

(** The abbreviated month names of the default (en-US) locale. *)
Definition monthNames : list string :=
  ["Jan"; "Feb"; "Mar"; "Apr"; "May"; "Jun";
   "Jul"; "Aug"; "Sep"; "Oct"; "Nov"; "Dec"].

(** The tokens of the three format strings of the page. *)
Inductive Token : Type :=
| Tyyyy | TMM | Tdd | TMMM | Td | Th | Tmm | Ta   (* yyyy MM dd MMM d h mm a *)
| Tlit (s : string).                              (* any other character *)

Definition formatToken (t : Token) (x : Date) : string :=
  match t with
  | Tyyyy => addLeadingZeros x.(year) 4
  | TMM => addLeadingZeros (x.(month) + 1) 2
  | Tdd => addLeadingZeros x.(date) 2
  | TMMM => nth x.(month) monthNames EmptyString
  | Td => decimal x.(date)
  | Th => decimal (match (x.(hours) mod 12)%nat with O => 12 | k => k end)
  | Tmm => addLeadingZeros x.(minutes) 2
  | Ta => if (12 <=? x.(hours))%nat then "PM" else "AM"
  | Tlit s => s
  end.

Fixpoint format (x : Date) (pattern : list Token) : string :=
  match pattern with
  | [] => EmptyString
  | t :: pattern' => formatToken t x ++ format x pattern'
  end.

End DateFns.

Module JsDate.

Definition msPerDay : Z := 86400000.

(** [DayFromYear], [InLeapYear] and [MakeDay] of the language
    specification; [MakeDay] carries a day number past the end of its
    month into the next one. *)
Definition DayFromYear (y : Z) : Z :=
  365 * (y - 1970) + (y - 1969) / 4 - (y - 1901) / 100 + (y - 1601) / 400.

Definition InLeapYear (y : Z) : bool :=
  ((y mod 4 =? 0) && negb (y mod 100 =? 0)) || (y mod 400 =? 0).

Definition daysBeforeMonth : list Z :=
  [0; 31; 59; 90; 120; 151; 181; 212; 243; 273; 304; 334].

Definition MakeDay (y : Z) (m : nat) (dt : Z) : Z :=
  DayFromYear y + nth m daysBeforeMonth 0
  + (if InLeapYear y && (2 <=? m)%nat then 1 else 0)
  + dt - 1.

Fixpoint splitOn (sep : ascii) (s : string) : list string :=
  match s with
  | EmptyString => [EmptyString]
  | String c s' =>
      if Ascii.eqb c sep then EmptyString :: splitOn sep s'
      else match splitOn sep s' with
           | w :: ws => String c w :: ws
           | [] => [String c EmptyString]
           end
  end.

Fixpoint monthIndex (w : string) (names : list string) (i : nat)
  : option nat :=
  match names with
  | [] => None
  | n :: names' =>
      if String.eqb (Js.toUpperCase w) (Js.toUpperCase n) then Some i
      else monthIndex w names' (S i)
  end.

Definition number (w : string) : option Z :=
  match w with
  | EmptyString => None
  | _ => if Js.allDigits w then Some (Js.parseInt w) else None
  end.

(** [new Date(text).getTime()] for the texts the page builds:
    a month name, a day number and a year, separated by single spaces.
    [None] stands for the [NaN] of an invalid date.  The time value is that
    of midnight of the day, without the offset of the local zone, which
    does not change the sign of a difference of two such values. *)
Definition parse (text : string) : option Z :=
  match splitOn " " text with
  | [mon; dy; yr] =>
      match monthIndex mon DateFns.monthNames 0, number dy, number yr with
      | Some m, Some dt, Some y =>
          if (1 <=? dt) && (dt <=? 31)
          then Some (msPerDay * MakeDay y m dt)
          else None
      | _, _, _ => None
      end
  | _ => None
  end.

End JsDate.

(** ** [Map] and [Array.prototype.sort] *)

Module JsMap.
Section WithValue.
Context {V : Type}.

Definition t : Type := list (string * V).

Fixpoint get (k : string) (m : t) : option V :=
  match m with
  | [] => None
  | (k', v) :: m' => if String.eqb k k' then Some v else get k m'
  end.

Definition has (k : string) (m : t) : bool :=
  match get k m with Some _ => true | None => false end.

(** A present key keeps its place; a new key goes last. *)
Fixpoint set (k : string) (v : V) (m : t) : t :=
  match m with
  | [] => [(k, v)]
  | (k', v') :: m' =>
      if String.eqb k k' then (k, v) :: m' else (k', v') :: set k v m'
  end.

Definition values (m : t) : list V := map snd m.

Definition keys (m : t) : list string := map fst m.

End WithValue.
Arguments t : clear implicits.
End JsMap.

Module JsArray.
Section WithElement.
Context {A : Type}.
Variable compareFn : A -> A -> Z.

(** [x] is put before the first element it must precede; on a tie it
    stays in front, so the sort is stable. *)
Fixpoint insert (x : A) (l : list A) : list A :=
  match l with
  | [] => [x]
  | y :: l' =>
      if compareFn x y <=? 0 then x :: l else y :: insert x l'
  end.

(** [sort] is stable, and on a comparison function that is a consistent
    ordering every stable sort returns the same array; insertion from the
    right is one. *)
Definition sort (l : list A) : list A := fold_right insert [] l.

End WithElement.
End JsArray.

(** ** The body of [fetchNutrientData] *)

Import DateFns.

(** The meal pushed for a recipe whose nutrients are [n]. *)
Definition mealOfRecipe (recipe : Recipe) (n : Nutrients) : Meal :=
  {| id := recipe.(recipe_id);
     timestamp := format recipe.(created_at) [Th; Tlit ":"; Tmm; Tlit " "; Ta];
     mealMicronutrients := n.(micronutrients);
     mealMacronutrients := n.(macronutrients) |}.

(** The callback of [recipesData.forEach], on the map built so far. *)
Definition processRecipe (dailyData : JsMap.t NutrientData) (recipe : Recipe)
  : JsMap.t NutrientData :=
  match recipe.(steps) with
  | None => dailyData
  | Some [] => dailyData
  | Some recipeSteps =>
      let n := extractNutrients recipeSteps in
      if negb (hasNutrientData n) then dailyData
      else
        let dt := recipe.(created_at) in
        let dayKey := format dt [Tyyyy; Tlit "-"; TMM; Tlit "-"; Tdd] in
        let dailyData :=
          if negb (JsMap.has dayKey dailyData) then
            JsMap.set dayKey
              {| day := format dt [TMMM; Tlit " "; Td];
                 averageData := {| micronutrients := n.(micronutrients);
                                   macronutrients := n.(macronutrients) |};
                 meals := [] |}
              dailyData
          else dailyData in
        match JsMap.get dayKey dailyData with
        | Some dayData =>
            JsMap.set dayKey
              {| day := dayData.(day);
                 averageData := dayData.(averageData);
                 meals := dayData.(meals) ++ [mealOfRecipe recipe n] |}
              dailyData
        | None => dailyData
        end
  end.

Definition groupByDay (recipesData : list Recipe) : JsMap.t NutrientData :=
  fold_left processRecipe recipesData [].

(** The callback of [dailyData.forEach]: what it pushes for one day. *)
Definition dayEntry (dayData : NutrientData) : list NutrientData :=
  match dayData.(meals) with
  | meal0 :: _ =>
      [ {| day := dayData.(day);
           averageData :=
             {| micronutrients := meal0.(mealMicronutrients);
                macronutrients := meal0.(mealMacronutrients) |};
           meals := dayData.(meals) |} ]
  | [] => []
  end.

Definition buildHistory (dailyData : JsMap.t NutrientData)
  : list NutrientData :=
  flat_map dayEntry (JsMap.values dailyData).

(** The comparison function of the sort; a [NaN] difference counts as 0. *)
Definition compareDays (x y : NutrientData) : Z :=
  match JsDate.parse (x.(day) ++ " 2025"), JsDate.parse (y.(day) ++ " 2025") with
  | Some dateA, Some dateB => dateB - dateA
  | _, _ => 0
  end.

(** From the fetched recipes to the array handed to [setNutrientHistory]. *)
Definition nutrientHistoryData (recipesData : list Recipe)
  : list NutrientData :=
  JsArray.sort compareDays (buildHistory (groupByDay recipesData)).

(** *** The state of the component and the run of the callback *)

(** A line of the console: the first argument of a [console.log] call (the
    other arguments, values of the run, are left out), or the message and
    the error of a [console.error] call. *)
Inductive ConsoleEntry : Type :=
| Log (message : string)
| Error (message : string) (reason : string).

Record PageState : Type := {
  loading : bool;
  nutrientHistory : list NutrientData;
  console : list ConsoleEntry
}.

Definition setLoading (b : bool) (st : PageState) : PageState :=
  {| loading := b; nutrientHistory := st.(nutrientHistory);
     console := st.(console) |}.

Definition setNutrientHistory (l : list NutrientData) (st : PageState)
  : PageState :=
  {| loading := st.(loading); nutrientHistory := l; console := st.(console) |}.

Definition consoleLog (message : string) (st : PageState) : PageState :=
  {| loading := st.(loading); nutrientHistory := st.(nutrientHistory);
     console := st.(console) ++ [Log message] |}.

Definition consoleError (message reason : string) (st : PageState)
  : PageState :=
  {| loading := st.(loading); nutrientHistory := st.(nutrientHistory);
     console := st.(console) ++ [Error message reason] |}.

(** What the awaited query settles to: the promise rejects, or it resolves
    to the pair of [data] and [error]. *)
Record Response : Type := {
  data : option (list Recipe);
  error : option string
}.

Inductive Settled : Type :=
| Rejected (reason : string)
| Fulfilled (response : Response).

Definition hasSteps (recipe : Recipe) : bool :=
  match recipe.(steps) with
  | None | Some [] => false
  | Some _ => true
  end.

(** The [try] block after the [await]: the state it leaves and the value
    thrown, if any. *)
Definition tryAfterAwait (settled : Settled) (st : PageState)
  : PageState * option string :=
  match settled with
  | Rejected reason => (st, Some reason)
  | Fulfilled response =>
      match response.(error) with
      | Some reason => (st, Some reason)
      | None =>
          let st := consoleLog "Fetched" st in
          match response.(data) with
          | None | Some [] =>
              (setLoading false (setNutrientHistory [] st), None)
          | Some recipesData =>
              let st := consoleLog "Processing recipes:" st in
              let st :=
                fold_left (fun st _ => consoleLog "Processing recipe" st)
                          (filter hasSteps recipesData) st in
              let st := consoleLog "Daily data map size:" st in
              let st := consoleLog "Processed microhistory entries:" st in
              let result := nutrientHistoryData recipesData in
              let st := setNutrientHistory result st in
              let st :=
                match result with
                | [] => st
                | _ :: _ => consoleLog "Setting averages:" st
                end in
              (consoleLog "Fetch completed successfully" st, None)
          end
      end
  end.

(** The part of the callback before the [await]; [None] when there is no
    user and the callback returns at once. *)
Definition beforeAwait (user : option string) (st : PageState)
  : option PageState :=
  match user with
  | None => None
  | Some _ =>
      let st := consoleLog "Running fetchNutrientData with refreshKey:" st in
      let st := setLoading true st in
      Some (consoleLog "Fetching nutrient data..." st)
  end.

(** [catch] and [finally]. *)
Definition afterAwait (settled : Settled) (st : PageState) : PageState :=
  let (st, thrown) := tryAfterAwait settled st in
  let st :=
    match thrown with
    | Some reason => consoleError "Error fetching nutrient data:" reason st
    | None => st
    end in
  setLoading false st.

Definition fetchNutrientData (user : option string) (settled : Settled)
  (st : PageState) : PageState :=
  match beforeAwait user st with
  | None => st
  | Some st' => afterAwait settled st'
  end.

(** ** Vocabulary of the properties

    The ten nutrients as one enumeration, so that a property can be stated
    once for all of them; what a recipe yields; and the recipes of a day. *)

Inductive NutrientKey : Type :=
| VitaminA | VitaminC | Calcium | Iron | Potassium | Sodium
| Protein | Carbs | Fat | Fiber.

Definition allKeys : list NutrientKey :=
  [VitaminA; VitaminC; Calcium; Iron; Potassium; Sodium;
   Protein; Carbs; Fat; Fiber].

Definition field (k : NutrientKey) (n : Nutrients) : NutrientField :=
  match k with
  | VitaminA => n.(micronutrients).(vitamin_a)
  | VitaminC => n.(micronutrients).(vitamin_c)
  | Calcium => n.(micronutrients).(calcium)
  | Iron => n.(micronutrients).(iron)
  | Potassium => n.(micronutrients).(potassium)
  | Sodium => n.(micronutrients).(sodium)
  | Protein => n.(macronutrients).(protein)
  | Carbs => n.(macronutrients).(carbs)
  | Fat => n.(macronutrients).(fat)
  | Fiber => n.(macronutrients).(fiber)
  end.

Definition pattern (k : NutrientKey) : RegExp.t :=
  match k with
  | VitaminA => Patterns.vitaminA
  | VitaminC => Patterns.vitaminC
  | Calcium => Patterns.calcium
  | Iron => Patterns.iron
  | Potassium => Patterns.potassium
  | Sodium => Patterns.sodium
  | Protein => Patterns.protein
  | Carbs => Patterns.carbs
  | Fat => Patterns.fat
  | Fiber => Patterns.fiber
  end.

(** The unit the specification fixes for each key. *)
Definition canonicalUnit (k : NutrientKey) : string :=
  match k with
  | VitaminA => "mcg"
  | VitaminC | Calcium | Iron | Potassium | Sodium => "mg"
  | Protein | Carbs | Fat | Fiber => "g"
  end.

(** The field a match array stands for. *)
Definition fieldOfMatch (k : NutrientKey) (m : list string) : NutrientField :=
  {| value := Js.parseInt (group m 1);
     unit := canonicalUnit k;
     percentage := Js.parseInt (group m 2) |}.

Definition zeroField (k : NutrientKey) : NutrientField :=
  {| value := 0; unit := canonicalUnit k; percentage := 0 |}.

(** The steps the page iterates over ([null] has none). *)
Definition stepsOf (recipe : Recipe) : list string :=
  match recipe.(steps) with
  | Some l => l
  | None => []
  end.

Definition nutrientsOf (recipe : Recipe) : Nutrients :=
  extractNutrients (stepsOf recipe).

(** A recipe qualifies when a value read from its steps is positive. *)
Definition qualifies (recipe : Recipe) : bool :=
  hasNutrientData (nutrientsOf recipe).

Definition dayKeyOf (recipe : Recipe) : string :=
  format recipe.(created_at) [Tyyyy; Tlit "-"; TMM; Tlit "-"; Tdd].

Definition dayLabelOf (recipe : Recipe) : string :=
  format recipe.(created_at) [TMMM; Tlit " "; Td].

Definition mealOf (recipe : Recipe) : Meal :=
  mealOfRecipe recipe (nutrientsOf recipe).

(** The qualifying recipes of the day [key], in the order of the input. *)
Definition qualifyingOn (key : string) (recipes : list Recipe) : list Recipe :=
  filter (fun r => qualifies r && String.eqb (dayKeyOf r) key) recipes.

Definition mealNutrients (m : Meal) : Nutrients :=
  {| micronutrients := m.(mealMicronutrients);
     macronutrients := m.(mealMacronutrients) |}.

Definition fieldsOf (n : Nutrients) : list NutrientField :=
  map (fun k => field k n) allKeys.

(** Every [NutrientField] of a day list: those of each [averageData] and of
    each meal. *)
Definition outputFields (history : list NutrientData) : list NutrientField :=
  flat_map
    (fun dy => fieldsOf dy.(averageData)
               ++ flat_map (fun m => fieldsOf (mealNutrients m)) dy.(meals))%list
    history.

Definition allMeals (history : list NutrientData) : list Meal :=
  flat_map meals history.

(** The matches the loop over the steps meets for the key [k]: the array
    that [step.match] returns, for each step where it is not [null], in
    the order of the steps.  A step gives one match at most. *)
Definition matchesAcrossSteps (k : NutrientKey) (recipeSteps : list string)
  : list (list string) :=
  flat_map (fun step => match RegExp.exec step (pattern k) with
                        | Some m => [m]
                        | None => []
                        end)
           recipeSteps.

Definition lastMatchAcrossSteps (k : NutrientKey) (recipeSteps : list string)
  : option (list string) :=
  last (map Some (matchesAcrossSteps k recipeSteps)) None.

Definition matchCount (k : NutrientKey) (recipeSteps : list string) : nat :=
  List.length (matchesAcrossSteps k recipeSteps).

(** Two texts that differ by the case of ASCII letters only. *)
Definition sameUpToCase (s1 s2 : string) : Prop :=
  Js.toUpperCase s1 = Js.toUpperCase s2.

(** What makes the awaited query a failure: the rejection, or the [error]
    of the response. *)
Definition failureOf (settled : Settled) : option string :=
  match settled with
  | Rejected reason => Some reason
  | Fulfilled response => response.(error)
  end.

(** Sample data of the examples. *)
Definition recipeAt (i : string) (y m dt : nat) (recipeSteps : list string)
  : Recipe :=
  {| recipe_id := i;
     created_at := {| year := y; month := m; date := dt;
                      hours := 12; minutes := 30 |};
     steps := Some recipeSteps |}.

(** Recipes dated 2025-01-03, 2025-01-01 and 2024-12-31, newest first as the
    query returns them. *)
Definition acrossNewYear : list Recipe :=
  [ recipeAt "r3" 2025 0 3 ["Protein: 30g (60%)"];
    recipeAt "r1" 2025 0 1 ["Protein: 10g (20%)"];
    recipeAt "r0" 2024 11 31 ["Protein: 5g (10%)"] ].

Definition twoMealsOneDay : list Recipe :=
  [ recipeAt "first" 2025 2 14 ["Protein: 10g (10%)"];
    recipeAt "second" 2025 2 14 ["Protein: 20g (20%)"] ].

(** One recipe with a positive value among four that have none: steps
    [null], no step, a step without annotation, an annotation of zero. *)
Definition oneMealAmongFive : list Recipe :=
  [ {| recipe_id := "null";
       created_at := {| year := 2025; month := 4; date := 2;
                        hours := 8; minutes := 0 |};
       steps := None |};
    recipeAt "empty" 2025 4 2 [];
    recipeAt "plain" 2025 4 2 ["Chop the onions"; "Protein: plenty"];
    recipeAt "kept" 2025 4 2 ["Boil"; "Iron: 3mg (17%)"];
    recipeAt "zero" 2025 4 2 ["Fat: 0g (0%)"] ].

(** The entry of a day whose qualifying recipes are [rs], the first of them
    [r0]: the record the map holds for the day, which is also the record the
    day list holds. *)
Definition entryOf (r0 : Recipe) (rs : list Recipe) : NutrientData :=
  {| day := dayLabelOf r0;
     averageData := nutrientsOf r0;
     meals := map mealOf rs |}.

(** The label of each key in the step texts, and the annotation of a value
    [v] and a percentage [p], both given by their digits. *)
Definition label (k : NutrientKey) : string :=
  match k with
  | VitaminA => "Vitamin A"
  | VitaminC => "Vitamin C"
  | Calcium => "Calcium"
  | Iron => "Iron"
  | Potassium => "Potassium"
  | Sodium => "Sodium"
  | Protein => "Protein"
  | Carbs => "Carbs"
  | Fat => "Fat"
  | Fiber => "Fiber"
  end.

Definition annotation (k : NutrientKey) (v p : string) : string :=
  label k ++ ": " ++ v ++ canonicalUnit k ++ " (" ++ p ++ "%)".

(** The bounds the specification gives for a field. *)
Definition withinDocumentedRange (f : NutrientField) : Prop :=
  0 <= f.(value) /\ 0 <= f.(percentage) <= 100.

(** The number of [(\d+)] groups of a pattern, and the texts such a group
    captures: non-empty runs of digits. *)
Definition digitGroups (re : RegExp.t) : nat :=
  List.length (filter (fun x => match x with
                                | RegExp.Digits => true
                                | RegExp.Char _ => false
                                end) re).

Definition isNumeral (g : string) : Prop :=
  g <> EmptyString /\ Js.allDigits g = true.

(** Two results of the matcher that agree on the part [proj] of them (the
    captured groups). *)
Definition sameGroups {R : Type} (proj : R -> list string)
  (r1 r2 : option R) : Prop :=
  match r1, r2 with
  | Some x1, Some x2 => proj x1 = proj x2
  | None, None => True
  | _, _ => False
  end.

(** * The rest of the pages *)

(** ** The macronutrient chart and the history tab of the tracking page *)

(** [String(n)] of an integer. *)
Definition numberToString (z : Z) : string :=
  NilEmpty.string_of_int (Z.to_int z).

(** A slice of the pie: the [MacronutrientData] interface. *)
Record MacronutrientData : Type := {
  slice_name : string;
  slice_value : Z;
  slice_percentage : Z;
  slice_color : string
}.

(** The [data] property of [MacronutrientPieChart]; [fiber] is optional. *)
Record PieData : Type := {
  pie_protein : NutrientField;
  pie_carbs : NutrientField;
  pie_fat : NutrientField;
  pie_fiber : option NutrientField
}.

(** [chartData]: three slices, and a fourth when there is fiber with a
    positive value. *)
Definition chartData (data : PieData) : list MacronutrientData :=
  let chart :=
    [ {| slice_name := "Protein"; slice_value := data.(pie_protein).(value);
         slice_percentage := data.(pie_protein).(percentage);
         slice_color := "#4ade80" |};
      {| slice_name := "Carbs"; slice_value := data.(pie_carbs).(value);
         slice_percentage := data.(pie_carbs).(percentage);
         slice_color := "#facc15" |};
      {| slice_name := "Fat"; slice_value := data.(pie_fat).(value);
         slice_percentage := data.(pie_fat).(percentage);
         slice_color := "#60a5fa" |} ] in
  match data.(pie_fiber) with
  | Some f =>
      if 0 <? f.(value) then
        (chart ++ [ {| slice_name := "Fiber"; slice_value := f.(value);
                       slice_percentage := f.(percentage);
                       slice_color := "#f59e0b" |} ])%list
      else chart
  | None => chart
  end.

(** The object the page hands to the chart: the macronutrients of an
    [averageData] or of a meal, which always hold a fiber field. *)
Definition pieDataOf (m : Macronutrients) : PieData :=
  {| pie_protein := m.(protein); pie_carbs := m.(carbs);
     pie_fat := m.(fat); pie_fiber := Some m.(fiber) |}.

(** The "Tracking History" tab, as far as it depends on the state: the
    spinner, the message of [renderNoDataMessage], or one card for each day
    with its title, its line "n meal(s) tracked", the chart of its
    [averageData] and one card for each meal.  (The radar chart of the
    micronutrients is a component of another file and is left out.) *)
Record MealCard : Type := {
  meal_title : string;
  meal_chart : list MacronutrientData
}.

Record DayCard : Type := {
  card_title : string;
  card_description : string;
  summary_chart : list MacronutrientData;
  meal_cards : list MealCard
}.

Inductive HistoryView : Type :=
| Spinner
| NoDataMessage
| DayCards (cards : list DayCard).

Definition mealsTracked (n : nat) : string :=
  numberToString (Z.of_nat n) ++ " "
  ++ (if (n =? 1)%nat then "meal" else "meals") ++ " tracked".

Definition mealCard (m : Meal) : MealCard :=
  {| meal_title := "Meal at " ++ m.(timestamp);
     meal_chart := chartData (pieDataOf m.(mealMacronutrients)) |}.

Definition dayCard (dy : NutrientData) : DayCard :=
  {| card_title := dy.(day);
     card_description := mealsTracked (List.length dy.(meals));
     summary_chart := chartData (pieDataOf dy.(averageData).(macronutrients));
     meal_cards := map mealCard dy.(meals) |}.

Definition renderHistoryTab (st : PageState) : HistoryView :=
  if st.(loading) then Spinner
  else match st.(nutrientHistory) with
       | [] => NoDataMessage
       | _ :: _ => DayCards (map dayCard st.(nutrientHistory))
       end.

(** The recipes a response carries ([null] carries none). *)
Definition recipesOf (response : Response) : list Recipe :=
  match response.(data) with
  | Some l => l
  | None => []
  end.

(** The time value the sort reads from the label of a day. *)
Definition labelTime (dy : NutrientData) : option Z :=
  JsDate.parse (dy.(day) ++ " 2025").

(** A recipe whose date has a month and a day of the month that a date can
    have. *)
Definition plausibleDay (r : Recipe) : Prop :=
  (r.(created_at).(month) < 12)%nat
  /\ (1 <= r.(created_at).(date) <= 31)%nat.

(** The day of 2025 that has the month and the day of the month of the date
    of a recipe, as a time value. *)
Definition timeIn2025 (r : Recipe) : Z :=
  JsDate.msPerDay
  * JsDate.MakeDay 2025 r.(created_at).(month)
                   (Z.of_nat r.(created_at).(date)).

(** [label_table]: whether the label of a month and a day of the month is
    read back as that day of 2025. *)
Definition labelReadBack (m dt : nat) : bool :=
  match JsDate.parse
          (format {| year := 0; month := m; date := dt;
                     hours := 0; minutes := 0 |}
                  [TMMM; Tlit " "; Td] ++ " 2025") with
  | Some t => t =? JsDate.msPerDay * JsDate.MakeDay 2025 m (Z.of_nat dt)
  | None => false
  end.

(** The number of days of each month of 2025, and a recipe whose month and
    day of the month name a day of 2025: every date does, a 29 February
    apart. *)
Definition daysInMonth2025 : list nat :=
  [31; 28; 31; 30; 31; 30; 31; 31; 30; 31; 30; 31]%nat.

Definition inCalendar2025 (r : Recipe) : Prop :=
  (r.(created_at).(month) < 12)%nat
  /\ (1 <= r.(created_at).(date)
       <= nth r.(created_at).(month) daysInMonth2025 0)%nat.

(** The month and the day of the month of [r1] come no later in a year
    than those of [r2]. *)
Definition monthDayNotAfter (r1 r2 : Recipe) : Prop :=
  (r1.(created_at).(month) < r2.(created_at).(month))%nat
  \/ (r1.(created_at).(month) = r2.(created_at).(month)
      /\ (r1.(created_at).(date) <= r2.(created_at).(date))%nat).

(** Recipes dated 2024-02-29 and 2023-03-01, newest first. *)
Definition leapDayThenMarch : list Recipe :=
  [ recipeAt "leap" 2024 1 29 ["Protein: 10g (20%)"];
    recipeAt "march" 2023 2 1 ["Protein: 12g (24%)"] ].

(** Two meals of one day: the first has protein and no fiber, the second
    has fiber. *)
Definition proteinThenFiber : list Recipe :=
  [ recipeAt "eggs" 2025 5 9 ["Protein: 12g (24%)"];
    recipeAt "oats" 2025 5 9 ["Fiber: 8g (29%)"] ].

(** Whether two recipes were created on the same calendar day. *)
Definition sameDate (r1 r2 : Recipe) : bool :=
  (r1.(created_at).(year) =? r2.(created_at).(year))%nat
  && (r1.(created_at).(month) =? r2.(created_at).(month))%nat
  && (r1.(created_at).(date) =? r2.(created_at).(date))%nat.

(** The number a text of digits stands for, leading zeros allowed. *)
Definition readNat (s : string) : option nat :=
  option_map Nat.of_uint (NilEmpty.uint_of_string s).

(** ** The flash cards of a recipe ([RecipeFlashCards]) *)

Module FlashCards.

Record RecipeCard : Type := {
  card : Z;
  content : string
}.

(** [array[i]] for an integer [i]: [None] stands for [undefined]. *)
Definition at_index {A : Type} (l : list A) (i : Z) : option A :=
  if i <? 0 then None else nth_error l (Z.to_nat i).

Definition totalCards (recipeCards : list RecipeCard) : Z :=
  Z.of_nat (List.length recipeCards).

(** The two handlers, as functions of [currentCardIndex]. *)
Definition handleNext (recipeCards : list RecipeCard) (currentCardIndex : Z)
  : Z :=
  if currentCardIndex <? totalCards recipeCards - 1
  then currentCardIndex + 1
  else currentCardIndex.

Definition handlePrevious (currentCardIndex : Z) : Z :=
  if 0 <? currentCardIndex then currentCardIndex - 1 else currentCardIndex.

Inductive Click : Type := Next | Previous.

Definition click (recipeCards : list RecipeCard) (currentCardIndex : Z)
  (c : Click) : Z :=
  match c with
  | Next => handleNext recipeCards currentCardIndex
  | Previous => handlePrevious currentCardIndex
  end.

(** What the component renders: the line "Card i of n", whether the image
    of the recipe is shown, the text of the card and whether it is set as a
    title, the [disabled] of the two buttons, and for each dot whether it is
    the highlighted one. *)
Record View : Type := {
  counter : string;
  showsImage : bool;
  text : string;
  asTitle : bool;
  previousDisabled : bool;
  nextDisabled : bool;
  dots : list bool
}.

Fixpoint mapi {A B : Type} (f : A -> Z -> B) (l : list A) (i : Z) : list B :=
  match l with
  | [] => []
  | x :: l' => f x i :: mapi f l' (i + 1)
  end.

(** The render of the component; [None] when it throws, which it does on
    [currentCard.content] when there is no card at the index. *)
Definition render (recipeCards : list RecipeCard) (recipeImage : string)
  (currentCardIndex : Z) : option View :=
  let currentCard := at_index recipeCards currentCardIndex in
  let isFirstCard := currentCardIndex =? 0 in
  let isLastCard := currentCardIndex =? totalCards recipeCards - 1 in
  match currentCard with
  | None => None
  | Some c =>
      Some {| counter := "Card " ++ numberToString (currentCardIndex + 1)
                         ++ " of "
                         ++ numberToString (totalCards recipeCards);
              showsImage :=
                isFirstCard && negb (String.eqb recipeImage EmptyString);
              text := c.(content);
              asTitle := isFirstCard;
              previousDisabled := isFirstCard;
              nextDisabled := isLastCard;
              dots := mapi (fun _ index => index =? currentCardIndex)
                           recipeCards 0 |}
  end.

(** The index after a run of clicks, from the initial index 0. *)
Definition afterClicks (recipeCards : list RecipeCard) (clicks : list Click)
  : Z :=
  fold_left (click recipeCards) clicks 0.

End FlashCards.

(** ** The goals wizard ([Goals]) *)

Module Goals.

(** The [GoalType] union; [unset] is the empty string of the initial
    state. *)
Inductive GoalType : Type := gain | lose | maintain | unset.

Inductive FormStep : Type :=
| goal_selection | basic_info | weight_details | activity_details
| dietary_details | results | meal_plan.

Record UserGoalDetails : Type := {
  goalType : GoalType;
  currentWeight : string;
  targetWeight : string;
  timeframe : string;
  age : string;
  height : string;
  activityLevel : string;
  mealsPerDay : string;
  dietaryRestrictions : string
}.

(** The [name] of the form controls of the page, which is the key
    [handleInputChange] and [handleRadioChange] assign. *)
Inductive ControlName : Type :=
| name_age | name_height | name_currentWeight | name_targetWeight
| name_timeframe | name_mealsPerDay | name_dietaryRestrictions
| name_activityLevel.

(** [{...userGoal, [name]: value}] *)
Definition assign (name : ControlName) (v : string) (g : UserGoalDetails)
  : UserGoalDetails :=
  {| goalType := g.(goalType);
     currentWeight :=
       match name with name_currentWeight => v | _ => g.(currentWeight) end;
     targetWeight :=
       match name with name_targetWeight => v | _ => g.(targetWeight) end;
     timeframe :=
       match name with name_timeframe => v | _ => g.(timeframe) end;
     age := match name with name_age => v | _ => g.(age) end;
     height := match name with name_height => v | _ => g.(height) end;
     activityLevel :=
       match name with name_activityLevel => v | _ => g.(activityLevel) end;
     mealsPerDay :=
       match name with name_mealsPerDay => v | _ => g.(mealsPerDay) end;
     dietaryRestrictions :=
       match name with
       | name_dietaryRestrictions => v
       | _ => g.(dietaryRestrictions)
       end |}.

(** [{...userGoal, goalType}] *)
Definition withGoalType (t : GoalType) (g : UserGoalDetails)
  : UserGoalDetails :=
  {| goalType := t; currentWeight := g.(currentWeight);
     targetWeight := g.(targetWeight); timeframe := g.(timeframe);
     age := g.(age); height := g.(height);
     activityLevel := g.(activityLevel); mealsPerDay := g.(mealsPerDay);
     dietaryRestrictions := g.(dietaryRestrictions) |}.

Definition initialUserGoal : UserGoalDetails :=
  {| goalType := unset; currentWeight := ""; targetWeight := "";
     timeframe := ""; age := ""; height := ""; activityLevel := "moderate";
     mealsPerDay := "3"; dietaryRestrictions := "" |}.

(** A string is falsy when it is empty. *)
Definition truthy (s : string) : bool := negb (String.eqb s EmptyString).

Definition FormStep_eqb (a b : FormStep) : bool :=
  match a, b with
  | goal_selection, goal_selection | basic_info, basic_info
  | weight_details, weight_details | activity_details, activity_details
  | dietary_details, dietary_details | results, results
  | meal_plan, meal_plan => true
  | _, _ => false
  end.

Definition isMaintain (t : GoalType) : bool :=
  match t with maintain => true | _ => false end.

(** [Array.prototype.indexOf], -1 when the element is absent. *)
Fixpoint indexOfFrom (x : FormStep) (l : list FormStep) (i : Z) : Z :=
  match l with
  | [] => -1
  | y :: l' => if FormStep_eqb y x then i else indexOfFrom x l' (i + 1)
  end.

Definition indexOf (x : FormStep) (l : list FormStep) : Z :=
  indexOfFrom x l 0.

(** The [steps] of [handleNextStep] and [handlePreviousStep]. *)
Definition steps : list FormStep :=
  [goal_selection; basic_info; weight_details; activity_details;
   dietary_details].

(** What an awaited promise settles to: it rejects, or it is fulfilled
    with a value. *)
Inductive Settled (A : Type) : Type :=
| Rejected
| Fulfilled (a : A).
Arguments Rejected {A}.
Arguments Fulfilled {A} a.

Section Page.

(** A number of the calorie service, which the page only stores, prints
    and sends on; the text of [Math.abs(Number(a) - Number(b))] for two
    texts of the form; the meal plan of the service, which the page only
    stores. *)
Context {JsNumber : Type} {MealPlan : Type}.
Variable numberText : JsNumber -> string.
Variable weightDifference : string -> string -> string.

(** The [CalorieResults] interface, as far as the handlers read it. *)
Record CalorieResults : Type := {
  daily_calories : JsNumber;
  protein_grams : JsNumber;
  carbs_grams : JsNumber;
  fat_grams : JsNumber
}.

Record State : Type := {
  loading : bool;
  calculating : bool;
  generatingMealPlan : bool;
  currentStep : FormStep;
  userGoal : UserGoalDetails;
  calorieResults : option CalorieResults;
  mealPlan : option MealPlan;
  savedGoalId : option string
}.

Definition initialState : State :=
  {| loading := true; calculating := false; generatingMealPlan := false;
     currentStep := goal_selection; userGoal := initialUserGoal;
     calorieResults := None; mealPlan := None; savedGoalId := None |}.

(** What a handler does besides setting the state. *)
Inductive Effect : Type :=
| Toast (title description : string) (destructive : bool)
| ConsoleError (message : string)
| Navigate (path : string)
| CalorieRequest (goalDescription : string)
| GoalsUpdate (userId today : string) (goals : CalorieResults)
| MealPlanRequest (requirements : string).

Definition setLoading (b : bool) (st : State) : State :=
  {| loading := b; calculating := st.(calculating);
     generatingMealPlan := st.(generatingMealPlan);
     currentStep := st.(currentStep); userGoal := st.(userGoal);
     calorieResults := st.(calorieResults); mealPlan := st.(mealPlan);
     savedGoalId := st.(savedGoalId) |}.

Definition setCalculating (b : bool) (st : State) : State :=
  {| loading := st.(loading); calculating := b;
     generatingMealPlan := st.(generatingMealPlan);
     currentStep := st.(currentStep); userGoal := st.(userGoal);
     calorieResults := st.(calorieResults); mealPlan := st.(mealPlan);
     savedGoalId := st.(savedGoalId) |}.

Definition setGeneratingMealPlan (b : bool) (st : State) : State :=
  {| loading := st.(loading); calculating := st.(calculating);
     generatingMealPlan := b;
     currentStep := st.(currentStep); userGoal := st.(userGoal);
     calorieResults := st.(calorieResults); mealPlan := st.(mealPlan);
     savedGoalId := st.(savedGoalId) |}.

Definition setCurrentStep (s : FormStep) (st : State) : State :=
  {| loading := st.(loading); calculating := st.(calculating);
     generatingMealPlan := st.(generatingMealPlan);
     currentStep := s; userGoal := st.(userGoal);
     calorieResults := st.(calorieResults); mealPlan := st.(mealPlan);
     savedGoalId := st.(savedGoalId) |}.

Definition setUserGoal (g : UserGoalDetails) (st : State) : State :=
  {| loading := st.(loading); calculating := st.(calculating);
     generatingMealPlan := st.(generatingMealPlan);
     currentStep := st.(currentStep); userGoal := g;
     calorieResults := st.(calorieResults); mealPlan := st.(mealPlan);
     savedGoalId := st.(savedGoalId) |}.

Definition setCalorieResults (r : option CalorieResults) (st : State)
  : State :=
  {| loading := st.(loading); calculating := st.(calculating);
     generatingMealPlan := st.(generatingMealPlan);
     currentStep := st.(currentStep); userGoal := st.(userGoal);
     calorieResults := r; mealPlan := st.(mealPlan);
     savedGoalId := st.(savedGoalId) |}.

Definition setMealPlan (p : option MealPlan) (st : State) : State :=
  {| loading := st.(loading); calculating := st.(calculating);
     generatingMealPlan := st.(generatingMealPlan);
     currentStep := st.(currentStep); userGoal := st.(userGoal);
     calorieResults := st.(calorieResults); mealPlan := p;
     savedGoalId := st.(savedGoalId) |}.

Definition setSavedGoalId (i : option string) (st : State) : State :=
  {| loading := st.(loading); calculating := st.(calculating);
     generatingMealPlan := st.(generatingMealPlan);
     currentStep := st.(currentStep); userGoal := st.(userGoal);
     calorieResults := st.(calorieResults); mealPlan := st.(mealPlan);
     savedGoalId := i |}.

(** *** The synchronous handlers *)

Definition handleGoalSelect (t : GoalType) (st : State) : State :=
  setCurrentStep basic_info (setUserGoal (withGoalType t st.(userGoal)) st).

Definition handleInputChange (name : ControlName) (v : string) (st : State)
  : State :=
  setUserGoal (assign name v st.(userGoal)) st.

Definition handleRadioChange (name : ControlName) (v : string) (st : State)
  : State :=
  setUserGoal (assign name v st.(userGoal)) st.

(** [setCurrentStep(steps[i])]; an index outside the array would set the
    step to [undefined], which the handlers never do
    ([next_index_in_steps]). *)
Definition setStepAt (i : Z) (st : State) : State :=
  match FlashCards.at_index steps i with
  | Some s => setCurrentStep s st
  | None => st
  end.

Definition handleNextStep (currentStepName : FormStep) (st : State) : State :=
  let currentIndex := indexOf currentStepName steps in
  if currentIndex <? Z.of_nat (List.length steps) - 1
  then setStepAt (currentIndex + 1) st
  else st.

Definition handlePreviousStep (currentStepName : FormStep) (st : State)
  : State :=
  let currentIndex := indexOf currentStepName steps in
  if 0 <? currentIndex then setStepAt (currentIndex - 1) st else st.

Definition handleGenerateGoalsAgain (st : State) : State * list Effect :=
  let st := setMealPlan None st in
  let st := setCalorieResults None st in
  let st := setCurrentStep goal_selection st in
  (st, [Toast "Ready" "Let's create new goals" false]).

(** *** The texts sent to the services *)

Definition goalDescription (g : UserGoalDetails) : string :=
  "I currently weigh " ++ g.(currentWeight) ++ "kg and want to "
  ++ (match g.(goalType) with
      | gain => "gain"
      | lose => "lose"
      | _ => "maintain"
      end)
  ++ " "
  ++ (if negb (isMaintain g.(goalType))
      then weightDifference g.(targetWeight) g.(currentWeight) ++ "kg"
      else "")
  ++ " "
  ++ (if negb (isMaintain g.(goalType))
      then "in " ++ g.(timeframe) ++ " months"
      else "")
  ++ ". I am " ++ g.(age) ++ " years old and " ++ g.(height)
  ++ "cm tall. My activity level is " ++ g.(activityLevel)
  ++ " and I prefer " ++ g.(mealsPerDay) ++ " meals per day."
  ++ (if truthy g.(dietaryRestrictions)
      then " My dietary restrictions are: " ++ g.(dietaryRestrictions)
      else "").

Definition mealPlanRequirements (st : State) : string :=
  "I need a "
  ++ (match st.(calorieResults) with
      | Some r => numberText r.(daily_calories)
      | None => "undefined"
      end)
  ++ " calorie meal plan with " ++ st.(userGoal).(mealsPerDay)
  ++ " meals throughout the day. "
  ++ (match st.(userGoal).(goalType) with
      | gain => "I am trying to gain weight and build muscle."
      | lose => "I am trying to lose weight."
      | _ => "I want to maintain my current weight."
      end)
  ++ " "
  ++ (if truthy st.(userGoal).(dietaryRestrictions)
      then "My dietary restrictions are: "
           ++ st.(userGoal).(dietaryRestrictions)
      else "").

(** *** The handlers that await a service

    Each handler is taken as a whole, from the click to the [finally]: no
    other event of the page is handled while it awaits. *)

(** The response of the update of [nutrition_data]: the rows selected and
    the error. *)
Record SaveResponse : Type := {
  saved_rows : option (list string);   (* the [id] of each row *)
  save_error : option string
}.

Definition handleSubmitGoal (user : option string) (today : string)
  (calculated : Settled CalorieResults) (saved : Settled SaveResponse)
  (st : State) : State * list Effect :=
  let st := setCalculating true st in
  let sent := [CalorieRequest (goalDescription st.(userGoal))] in
  let caught st effects :=
    (setCalculating false st,
     (effects ++ [ConsoleError "Error calculating calorie intake:";
                  Toast "Error" "Failed to calculate your calorie intake"
                        true])%list) in
  match calculated with
  | Rejected => caught st sent
  | Fulfilled result =>
      let st := setCalorieResults (Some result) st in
      match user with
      | None => (setCalculating false (setCurrentStep results st), sent)
      | Some userId =>
          let sent := (sent ++ [GoalsUpdate userId today result])%list in
          match saved with
          | Rejected => caught st sent
          | Fulfilled response =>
              let (st, sent) :=
                match response.(save_error) with
                | Some _ =>
                    (st,
                     (sent ++ [ConsoleError "Error saving goals:";
                               Toast "Error"
                                     "Failed to save your nutrition goals"
                                     true])%list)
                | None =>
                    match response.(saved_rows) with
                    | Some (row :: _) => (setSavedGoalId (Some row) st, sent)
                    | _ => (st, sent)
                    end
                end in
              (setCalculating false (setCurrentStep results st), sent)
          end
      end
  end.

Definition handleGenerateMealPlan (generated : Settled MealPlan) (st : State)
  : State * list Effect :=
  let st := setGeneratingMealPlan true st in
  let sent := [MealPlanRequest (mealPlanRequirements st)] in
  match generated with
  | Rejected =>
      (setGeneratingMealPlan false st,
       (sent ++ [ConsoleError "Error generating meal plan:";
                 Toast "Error" "Failed to generate your meal plan" true])%list)
  | Fulfilled result =>
      let st := setMealPlan (Some result) st in
      let st := setCurrentStep meal_plan st in
      (setGeneratingMealPlan false st,
       (sent ++ [Toast "Success" "Your meal plan has been generated"
                       false])%list)
  end.

(** The effect of the mount: without a user the page navigates away and
    the spinner stays; with one, [fetchExistingGoal] ends the loading
    whatever the query gives. *)
Record GoalResponse : Type := {
  goal_rows : option (list string);
  goal_error : option string
}.

Definition mount (user : option string) (fetched : Settled GoalResponse)
  (st : State) : State * list Effect :=
  match user with
  | None => (st, [Navigate "/auth"])
  | Some _ =>
      match fetched with
      | Rejected =>
          (setLoading false st, [ConsoleError "Error in fetchExistingGoal:"])
      | Fulfilled response =>
          match response.(goal_error) with
          | Some _ =>
              (setLoading false st,
               [ConsoleError "Error fetching nutrition data:"])
          | None => (setLoading false st, [])
          end
      end
  end.

(** *** The page as the user drives it

    The actions the rendered page offers: the controls of the card of the
    current step, each with the handler the page binds to it.  [offered]
    tells whether a control is rendered and not disabled. *)

Inductive Action : Type :=
| ClickGoal (t : GoalType)
| TypeInto (name : ControlName) (v : string)
| ClickBack
| ClickNext
| ClickCalculate (today : string) (calculated : Settled CalorieResults)
                 (saved : Settled SaveResponse)
| ClickGenerateMealPlan (generated : Settled MealPlan)
| ClickGenerateNewGoals
| ClickSavePlan.

Definition activityLevels : list string :=
  ["sedentary"; "light"; "moderate"; "active"; "veryActive"].

Definition offered (st : State) (a : Action) : bool :=
  if st.(loading) then false
  else
    match st.(currentStep), a with
    | goal_selection, ClickGoal t =>
        match t with unset => false | _ => true end
    | basic_info, TypeInto name _ =>
        match name with name_age | name_height => true | _ => false end
    | basic_info, ClickBack => true
    | basic_info, ClickNext =>
        negb (negb (truthy st.(userGoal).(age))
              || negb (truthy st.(userGoal).(height)))
    | weight_details, TypeInto name _ =>
        match name with
        | name_currentWeight => true
        | name_targetWeight | name_timeframe =>
            negb (isMaintain st.(userGoal).(goalType))
        | _ => false
        end
    | weight_details, ClickBack => true
    | weight_details, ClickNext =>
        negb (negb (truthy st.(userGoal).(currentWeight))
              || (negb (isMaintain st.(userGoal).(goalType))
                  && (negb (truthy st.(userGoal).(targetWeight))
                      || negb (truthy st.(userGoal).(timeframe)))))
    | activity_details, TypeInto name v =>
        match name with
        | name_activityLevel =>
            existsb (String.eqb v) activityLevels
        | _ => false
        end
    | activity_details, ClickBack => true
    | activity_details, ClickNext => true
    | dietary_details, TypeInto name _ =>
        match name with
        | name_mealsPerDay | name_dietaryRestrictions => true
        | _ => false
        end
    | dietary_details, ClickBack => true
    | dietary_details, ClickCalculate _ _ _ =>
        negb (st.(calculating) || negb (truthy st.(userGoal).(mealsPerDay)))
    | results, ClickBack =>
        match st.(calorieResults) with Some _ => true | None => false end
    | results, ClickGenerateMealPlan _ =>
        match st.(calorieResults) with
        | Some _ => negb st.(generatingMealPlan)
        | None => false
        end
    | meal_plan, (ClickBack | ClickGenerateNewGoals | ClickSavePlan) =>
        match st.(mealPlan) with Some _ => true | None => false end
    | _, _ => false
    end.

Definition perform (user : option string) (st : State) (a : Action)
  : State * list Effect :=
  match a with
  | ClickGoal t => (handleGoalSelect t st, [])
  | TypeInto name v =>
      match name with
      | name_activityLevel => (handleRadioChange name v st, [])
      | _ => (handleInputChange name v st, [])
      end
  | ClickBack =>
      match st.(currentStep) with
      | basic_info => (setCurrentStep goal_selection st, [])
      | results => (setCurrentStep dietary_details st, [])
      | meal_plan => (setCurrentStep results st, [])
      | s => (handlePreviousStep s st, [])
      end
  | ClickNext => (handleNextStep st.(currentStep) st, [])
  | ClickCalculate today calculated saved =>
      handleSubmitGoal user today calculated saved st
  | ClickGenerateMealPlan generated => handleGenerateMealPlan generated st
  | ClickGenerateNewGoals => handleGenerateGoalsAgain st
  | ClickSavePlan =>
      (st, [Toast "Success" "Your meal plan has been saved" false])
  end.

(** The states the page is in after the mount and any run of offered
    actions. *)
Inductive reachable (user : string) : State -> Prop :=
| reach_mount (fetched : Settled GoalResponse) :
    reachable user (fst (mount (Some user) fetched initialState))
| reach_action (st : State) (a : Action) :
    reachable user st -> offered st a = true ->
    reachable user (fst (perform (Some user) st a)).

(** The answers the description of a goal is made of are all given. *)
Definition answersComplete (g : UserGoalDetails) : Prop :=
  g.(goalType) <> unset
  /\ g.(age) <> EmptyString /\ g.(height) <> EmptyString
  /\ g.(currentWeight) <> EmptyString /\ g.(mealsPerDay) <> EmptyString
  /\ (g.(goalType) = maintain
      \/ (g.(targetWeight) <> EmptyString /\ g.(timeframe) <> EmptyString)).

(** What holds of the state of the page whenever it is at rest. *)
Definition wizardInvariant (st : State) : Prop :=
  st.(loading) = false /\ st.(calculating) = false
  /\ st.(generatingMealPlan) = false
  /\ (st.(currentStep) <> goal_selection ->
      st.(userGoal).(goalType) <> unset)
  /\ (st.(currentStep) <> goal_selection -> st.(currentStep) <> basic_info ->
      st.(userGoal).(age) <> EmptyString
      /\ st.(userGoal).(height) <> EmptyString)
  /\ (st.(currentStep) <> goal_selection -> st.(currentStep) <> basic_info ->
      st.(currentStep) <> weight_details ->
      st.(userGoal).(currentWeight) <> EmptyString
      /\ (st.(userGoal).(goalType) = maintain
          \/ (st.(userGoal).(targetWeight) <> EmptyString
              /\ st.(userGoal).(timeframe) <> EmptyString)))
  /\ (st.(currentStep) = results -> st.(calorieResults) <> None)
  /\ (st.(currentStep) = meal_plan ->
      st.(mealPlan) <> None /\ st.(calorieResults) <> None).

(** The card the page shows for the state: the page shows the card of
    the current step, and the cards of the results and of the meal plan
    only when the state holds the results and the meal plan. *)
Definition showsCard (st : State) : bool :=
  match st.(currentStep) with
  | results => match st.(calorieResults) with Some _ => true | None => false end
  | meal_plan => match st.(mealPlan) with Some _ => true | None => false end
  | _ => true
  end.

(** A run of actions, each of which the page must offer when its turn
    comes. *)
Fixpoint runActions (user : string) (st : State) (l : list Action)
  : option State :=
  match l with
  | [] => Some st
  | a :: l' =>
      if offered st a
      then runActions user (fst (perform (Some user) st a)) l'
      else None
  end.

(** Whether a submission ends on the results: the calculation is
    fulfilled and, with a user, the update is not rejected. *)
Definition submissionSucceeds (user : option string)
  (calculated : Settled CalorieResults) (saved : Settled SaveResponse)
  : bool :=
  match calculated, user, saved with
  | Rejected, _, _ => false
  | Fulfilled _, Some _, Rejected => false
  | Fulfilled _, _, _ => true
  end.

End Page.

End Goals.

(** A run through the wizard: a goal to lose weight, the answers of each
    card, and the calculation. *)
Definition sampleRun : list (@Goals.Action Z string) :=
  [ Goals.ClickGoal Goals.lose;
    Goals.TypeInto Goals.name_age "34";
    Goals.TypeInto Goals.name_height "172";
    Goals.ClickNext;
    Goals.TypeInto Goals.name_currentWeight "81";
    Goals.TypeInto Goals.name_targetWeight "75";
    Goals.TypeInto Goals.name_timeframe "4";
    Goals.ClickNext;
    Goals.TypeInto Goals.name_activityLevel "light";
    Goals.ClickNext ].

(** An instance of [weightDifference] for the examples: for two whole
    numbers written in digits (below 2^53), the text that
    [Math.abs(Number(a) - Number(b))] prints.  The weights of the examples
    are such numbers; texts with a sign, a decimal point or an exponent are
    outside this instance, and the theorems hold for every
    [weightDifference]. *)
Definition sampleDifference (a b : string) : string :=
  numberToString (Z.abs (Js.parseInt a - Js.parseInt b)).

Definition afterSampleRun : @Goals.State Z string :=
  {| Goals.loading := false; Goals.calculating := false;
     Goals.generatingMealPlan := false;
     Goals.currentStep := Goals.dietary_details;
     Goals.userGoal :=
       {| Goals.goalType := Goals.lose; Goals.currentWeight := "81";
          Goals.targetWeight := "75"; Goals.timeframe := "4";
          Goals.age := "34"; Goals.height := "172";
          Goals.activityLevel := "light"; Goals.mealsPerDay := "3";
          Goals.dietaryRestrictions := "" |};
     Goals.calorieResults := None; Goals.mealPlan := None;
     Goals.savedGoalId := None |}.


Definition sampleResults : @Goals.CalorieResults Z :=
  {| Goals.daily_calories := 2150; Goals.protein_grams := 160;
     Goals.carbs_grams := 215; Goals.fat_grams := 72 |}.

Definition afterSampleResults : @Goals.State Z string :=
  {| Goals.loading := false; Goals.calculating := false;
     Goals.generatingMealPlan := false;
     Goals.currentStep := Goals.results;
     Goals.userGoal := afterSampleRun.(Goals.userGoal);
     Goals.calorieResults := Some sampleResults; Goals.mealPlan := None;
     Goals.savedGoalId := None |}.

(** ** The landing page ([Index]): from a photo to the recipe cards *)

Module Landing.

(** The value a promise rejects with or a [throw] throws: an [Error] with
    its message, or something that is no [Error]. *)
Inductive Thrown : Type :=
| ErrorInstance (message : string)
| OtherValue.

(** The [ApiResponse] interface. *)
Record ApiResponse : Type := {
  ingredients : list string;
  cards : list FlashCards.RecipeCard;
  recipe_image : string
}.

Record State : Type := {
  isLoading : bool;
  file : option string;          (* the chosen file, by its name *)
  previewUrl : option string;
  recipeData : option ApiResponse;
  showFlashcards : bool;
  currentCardIndex : Z
}.

Definition initialState : State :=
  {| isLoading := false; file := None; previewUrl := None;
     recipeData := None; showFlashcards := false; currentCardIndex := 0 |}.

(** The image appended to the form data. *)
Inductive Image : Type :=
| UploadedFile (name : string)
| DemoBlob.

Inductive Effect : Type :=
| Toast (title description : string) (destructive : bool)
| ConsoleLog (message : string)
| ConsoleError (message : string)
| FetchImage (url : string)
| PostRecipe (image : option Image).   (* the form data, with its image *)

Definition setIsLoading (b : bool) (st : State) : State :=
  {| isLoading := b; file := st.(file); previewUrl := st.(previewUrl);
     recipeData := st.(recipeData); showFlashcards := st.(showFlashcards);
     currentCardIndex := st.(currentCardIndex) |}.

Definition setFile (f : option string) (st : State) : State :=
  {| isLoading := st.(isLoading); file := f; previewUrl := st.(previewUrl);
     recipeData := st.(recipeData); showFlashcards := st.(showFlashcards);
     currentCardIndex := st.(currentCardIndex) |}.

Definition setPreviewUrl (u : option string) (st : State) : State :=
  {| isLoading := st.(isLoading); file := st.(file); previewUrl := u;
     recipeData := st.(recipeData); showFlashcards := st.(showFlashcards);
     currentCardIndex := st.(currentCardIndex) |}.

Definition setRecipeData (d : option ApiResponse) (st : State) : State :=
  {| isLoading := st.(isLoading); file := st.(file);
     previewUrl := st.(previewUrl);
     recipeData := d; showFlashcards := st.(showFlashcards);
     currentCardIndex := st.(currentCardIndex) |}.

Definition setShowFlashcards (b : bool) (st : State) : State :=
  {| isLoading := st.(isLoading); file := st.(file);
     previewUrl := st.(previewUrl);
     recipeData := st.(recipeData); showFlashcards := b;
     currentCardIndex := st.(currentCardIndex) |}.

Definition setCurrentCardIndex (i : Z) (st : State) : State :=
  {| isLoading := st.(isLoading); file := st.(file);
     previewUrl := st.(previewUrl);
     recipeData := st.(recipeData); showFlashcards := st.(showFlashcards);
     currentCardIndex := i |}.

Definition demoImageUrl : string :=
  "https://www.cameronskitchen.com.au/app/uploads/2020/11/The-Importance-of-Healthy-High-Quality-Ingredients-In-Your-Diet.jpeg".

(** [handleFileChange]: the file of the event, if there is one, becomes
    the file of the state; its preview arrives later, when the reader has
    loaded it ([fileLoaded]). *)
Definition handleFileChange (selectedFile : option string) (st : State)
  : State :=
  match selectedFile with
  | Some f => setFile (Some f) st
  | None => st
  end.

Definition fileLoaded (dataUrl : string) (st : State) : State :=
  setPreviewUrl (Some dataUrl) st.

Definition handleDemoImage (st : State) : State * list Effect :=
  (setPreviewUrl (Some demoImageUrl) st,
   [Toast "Demo image selected"
          "We've loaded a sample image for you to try." false]).

Definition handleNextCard (st : State) : State :=
  match st.(recipeData) with
  | Some d =>
      if st.(currentCardIndex) <? Z.of_nat (List.length d.(cards)) - 1
      then setCurrentCardIndex (st.(currentCardIndex) + 1) st
      else st
  | None => st
  end.

Definition handlePrevCard (st : State) : State :=
  if 0 <? st.(currentCardIndex)
  then setCurrentCardIndex (st.(currentCardIndex) - 1) st
  else st.

Definition closeFlashcards (st : State) : State :=
  setCurrentCardIndex 0 (setShowFlashcards false st).

(** What the awaited calls of [handleSubmit] give.  The demo image is
    fetched and read as a blob, or one of the two fails.  The request to the
    service rejects, or answers with [ok] false and a body, or answers with
    [ok] true and a body.  The body of a refusal cannot be read as JSON, or
    is read as a value without properties ([null]), or is read as an object
    whose [error] has the given text, empty when it is missing or falsy.
    The body of a success is parsed or its parsing rejects. *)
Inductive DemoOutcome : Type := DemoFetched | DemoFailed.

Inductive ErrorBody : Type :=
| BodyUnreadable
| BodyNull
| BodyObject (errorText : string).

Inductive Parsed : Type :=
| ParseRejected (t : Thrown)
| ParsedData (d : ApiResponse).

Inductive ApiOutcome : Type :=
| ApiRejected (t : Thrown)
| ApiNotOk (body : ErrorBody)
| ApiOk (body : Parsed).

Definition truthyUrl (u : option string) : bool :=
  match u with
  | Some s => negb (String.eqb s EmptyString)
  | None => false
  end.

(** The [try] block of [handleSubmit] from the request on: the state it
    leaves, what it did, and the value thrown, if any. *)
Definition postImage (image : option Image) (api : ApiOutcome) (st : State)
  (done : list Effect) : State * list Effect * option Thrown :=
  let done :=
    (done ++ [ConsoleLog "Sending request to API..."; PostRecipe image])%list in
  match api with
  | ApiRejected t => (st, done, Some t)
  | ApiNotOk body =>
      let errorMessage := "Failed to generate recipe" in
      match body with
      | BodyUnreadable =>
          (st, (done ++ [ConsoleError "Error parsing error response:"])%list,
           Some (ErrorInstance errorMessage))
      | BodyNull =>
          (st,
           (done ++ [ConsoleError "API error:";
                     ConsoleError "Error parsing error response:"])%list,
           Some (ErrorInstance errorMessage))
      | BodyObject errorText =>
          (st, (done ++ [ConsoleError "API error:"])%list,
           Some (ErrorInstance
                   (if negb (String.eqb errorText EmptyString)
                    then errorText else errorMessage)))
      end
  | ApiOk body =>
      let done :=
        (done ++ [ConsoleLog "API response received, parsing..."])%list in
      match body with
      | ParseRejected t => (st, done, Some t)
      | ParsedData d =>
          let st := setRecipeData (Some d) st in
          let st := setShowFlashcards true st in
          (st,
           (done ++ [ConsoleLog "API response parsed:";
                     Toast "Recipe generated!"
                           "Check out your personalized recipe cards."
                           false])%list,
           None)
      end
  end.

Definition trySubmit (demo : DemoOutcome) (api : ApiOutcome) (st : State)
  : State * list Effect * option Thrown :=
  let done :=
    [Toast "Processing your ingredients"
           "Our AI is analyzing your fridge contents... This may take up to 30 seconds."
           false] in
  match st.(file) with
  | Some f => postImage (Some (UploadedFile f)) api st done
  | None =>
      match st.(previewUrl) with
      | Some url =>
          if negb (String.eqb url EmptyString) then
            let done := (done ++ [FetchImage url])%list in
            match demo with
            | DemoFailed =>
                (st,
                 (done ++ [ConsoleError
                             "Error converting demo image to blob:"])%list,
                 Some (ErrorInstance "Failed to process demo image"))
            | DemoFetched => postImage (Some DemoBlob) api st done
            end
          else postImage None api st done
      | None => postImage None api st done
      end
  end.

Definition handleSubmit (demo : DemoOutcome) (api : ApiOutcome) (st : State)
  : State * list Effect :=
  if negb (match st.(file) with Some _ => true | None => false end)
     && negb (truthyUrl st.(previewUrl))
  then
    (st,
     [Toast "No image selected"
            "Please upload a photo of your fridge or use our demo image."
            true])
  else
    let st := setIsLoading true st in
    match trySubmit demo api st with
    | (st, done, Some thrown) =>
        (setIsLoading false st,
         (done ++ [ConsoleError "Error in handleSubmit:";
                   Toast "Error"
                         (match thrown with
                          | ErrorInstance message => message
                          | OtherValue =>
                              "Failed to process your image. Please try again."
                          end)
                         true])%list)
    | (st, done, None) => (setIsLoading false st, done)
    end.

(** The image a state has to send, if any: the chosen file, and only
    without one the image of the preview. *)
Definition hasImage (st : State) : bool :=
  match st.(file) with
  | Some _ => true
  | None => truthyUrl st.(previewUrl)
  end.

End Landing.

(** * Proofs *)

(** ** Characters, case and digits *)

Section Characters.

Lemma isDigit_canonicalize (c : ascii) :
  Js.isDigit (Js.canonicalize c) = Js.isDigit c.
Proof.
  destruct c as [b0 b1 b2 b3 b4 b5 b6 b7].
  destruct b0, b1, b2, b3, b4, b5, b6, b7; reflexivity.
Qed.

Lemma canonicalize_digit (c : ascii) :
  Js.isDigit c = true -> Js.canonicalize c = c.
Proof.
  destruct c as [b0 b1 b2 b3 b4 b5 b6 b7].
  destruct b0, b1, b2, b3, b4, b5, b6, b7; intro H;
    first [ reflexivity | discriminate H ].
Qed.

Lemma canonicalize_idem (c : ascii) :
  Js.canonicalize (Js.canonicalize c) = Js.canonicalize c.
Proof.
  destruct c as [b0 b1 b2 b3 b4 b5 b6 b7].
  destruct b0, b1, b2, b3, b4, b5, b6, b7; reflexivity.
Qed.

Lemma digitValue_nonneg (c : ascii) :
  Js.isDigit c = true -> 0 <= Js.digitValue c.
Proof.
  unfold Js.isDigit, Js.digitValue. intro H.
  apply andb_true_iff in H. destruct H as [H _].
  apply N.leb_le in H. lia.
Qed.

(** A digit is identified with no other character by the [i] flag. *)
Lemma canonicalize_digit_inj (a b : ascii) :
  Js.canonicalize a = Js.canonicalize b -> Js.isDigit a = true -> a = b.
Proof.
  intros E Ha.
  assert (Hb : Js.isDigit b = true).
  { rewrite <- isDigit_canonicalize, <- E, isDigit_canonicalize. exact Ha. }
  rewrite <- (canonicalize_digit a Ha), <- (canonicalize_digit b Hb).
  exact E.
Qed.

Lemma toUpperCase_idem (s : string) :
  Js.toUpperCase (Js.toUpperCase s) = Js.toUpperCase s.
Proof.
  induction s as [|c s IH]; simpl; [reflexivity|].
  now rewrite canonicalize_idem, IH.
Qed.

Lemma sameUpToCase_upper (s : string) : sameUpToCase (Js.toUpperCase s) s.
Proof. apply toUpperCase_idem. Qed.

Lemma sameUpToCase_cons_inv (a : ascii) (s1 s2 : string) :
  sameUpToCase (String a s1) s2 ->
  exists b s2', s2 = String b s2'
                /\ Js.canonicalize a = Js.canonicalize b
                /\ sameUpToCase s1 s2'.
Proof.
  unfold sameUpToCase. destruct s2 as [|b s2']; simpl; intro H.
  - discriminate H.
  - injection H as Hc Hs. now exists b, s2'.
Qed.

Lemma sameUpToCase_nil_inv (s2 : string) :
  sameUpToCase EmptyString s2 -> s2 = EmptyString.
Proof.
  unfold sameUpToCase. destruct s2; simpl; [reflexivity | discriminate].
Qed.

Lemma parseDigits_nonneg (s : string) :
  forall acc, 0 <= acc -> 0 <= Js.parseDigits s acc.
Proof.
  induction s as [|c s IH]; cbn [Js.parseDigits]; intros acc Hacc;
    [exact Hacc|].
  destruct (Js.isDigit c) eqn:Hd; [|exact Hacc].
  apply IH. pose proof (digitValue_nonneg c Hd). lia.
Qed.

Lemma parseInt_nonneg (s : string) : 0 <= Js.parseInt s.
Proof. apply parseDigits_nonneg. lia. Qed.

End Characters.

(** ** The matcher *)

Section Matcher.

Lemma digitsThen_sameUpToCase
  (rest : string -> option (string * list string)) :
  (forall s1 s2, sameUpToCase s1 s2 -> sameGroups snd (rest s1) (rest s2)) ->
  forall s1 s2, sameUpToCase s1 s2 ->
    sameGroups (fun r => fst r :: snd (snd r))
               (RegExp.digitsThen rest s1) (RegExp.digitsThen rest s2).
Proof.
  intros Hrest s1.
  induction s1 as [|a s1 IH]; intros s2 Hs.
  - apply sameUpToCase_nil_inv in Hs. subst s2. exact I.
  - apply sameUpToCase_cons_inv in Hs.
    destruct Hs as (b & s2' & -> & Hc & Hs). simpl.
    assert (Hd : Js.isDigit b = Js.isDigit a).
    { now rewrite <- isDigit_canonicalize, <- Hc, isDigit_canonicalize. }
    rewrite Hd. destruct (Js.isDigit a) eqn:Ha; [|exact I].
    pose proof (canonicalize_digit_inj a b Hc Ha) as <-.
    specialize (IH s2' Hs). specialize (Hrest s1 s2' Hs).
    destruct (RegExp.digitsThen rest s1) as [[ds1 r1]|],
             (RegExp.digitsThen rest s2') as [[ds2 r2]|];
      simpl in IH; try contradiction.
    + simpl. injection IH as -> ->. reflexivity.
    + destruct (rest s1) as [r1|], (rest s2') as [r2|];
        simpl in Hrest; try contradiction; simpl; [|exact I].
      now rewrite Hrest.
Qed.

Lemma matchHere_sameUpToCase (re : RegExp.t) :
  forall s1 s2, sameUpToCase s1 s2 ->
    sameGroups snd (RegExp.matchHere re s1) (RegExp.matchHere re s2).
Proof.
  induction re as [|[c|] re IH]; intros s1 s2 Hs.
  - reflexivity.
  - destruct s1 as [|a s1].
    + apply sameUpToCase_nil_inv in Hs. subst s2. exact I.
    + apply sameUpToCase_cons_inv in Hs.
      destruct Hs as (b & s2' & -> & Hc & Hs). simpl. rewrite <- Hc.
      destruct (Ascii.eqb (Js.canonicalize a) (Js.canonicalize c));
        [|exact I].
      specialize (IH s1 s2' Hs).
      destruct (RegExp.matchHere re s1) as [[m1 g1]|],
               (RegExp.matchHere re s2') as [[m2 g2]|];
        simpl in IH; try contradiction; simpl; auto.
  - simpl.
    pose proof (digitsThen_sameUpToCase (RegExp.matchHere re) IH s1 s2 Hs)
      as H.
    destruct (RegExp.digitsThen (RegExp.matchHere re) s1) as [[ds1 [m1 g1]]|],
             (RegExp.digitsThen (RegExp.matchHere re) s2) as [[ds2 [m2 g2]]|];
      simpl in H; try contradiction; simpl; auto.
Qed.

Lemma search_sameUpToCase (re : RegExp.t) :
  forall s1 s2, sameUpToCase s1 s2 ->
    sameGroups snd (RegExp.search re s1) (RegExp.search re s2).
Proof.
  induction s1 as [|a s1 IH]; intros s2 Hs.
  - apply sameUpToCase_nil_inv in Hs. subst s2. simpl.
    destruct (RegExp.matchHere re "") as [[m g]|]; simpl; auto.
  - pose proof (matchHere_sameUpToCase re _ _ Hs) as Hm.
    apply sameUpToCase_cons_inv in Hs.
    destruct Hs as (b & s2' & -> & Hc & Hs). simpl.
    destruct (RegExp.matchHere re (String a s1)) as [[m1 g1]|],
             (RegExp.matchHere re (String b s2')) as [[m2 g2]|];
      simpl in Hm; try contradiction; simpl; auto.
Qed.

(** The groups of [s.match(re)] do not depend on the case of [s]. *)
Lemma exec_sameUpToCase (re : RegExp.t) (s1 s2 : string) :
  sameUpToCase s1 s2 ->
  option_map (@tl string) (RegExp.exec s1 re)
  = option_map (@tl string) (RegExp.exec s2 re).
Proof.
  intro Hs. pose proof (search_sameUpToCase re s1 s2 Hs) as H.
  unfold RegExp.exec.
  destruct (RegExp.search re s1) as [[m1 g1]|],
           (RegExp.search re s2) as [[m2 g2]|];
    simpl in H; try contradiction; simpl; congruence.
Qed.

End Matcher.

(** ** The groups of a match *)

Section Groups.

Lemma digitsThen_numeral {R : Type} (rest : string -> option R) (s : string) :
  forall ds r, RegExp.digitsThen rest s = Some (ds, r) ->
    isNumeral ds /\ exists s', rest s' = Some r.
Proof.
  induction s as [|a s IH]; simpl; intros ds r H; [discriminate|].
  destruct (Js.isDigit a) eqn:Ha; [|discriminate].
  destruct (RegExp.digitsThen rest s) as [[ds' r']|] eqn:Hm.
  - injection H as <- <-. destruct (IH _ _ eq_refl) as [[_ Hds] Hr].
    split; [split; [discriminate|]|exact Hr]. simpl. now rewrite Ha, Hds.
  - destruct (rest s) as [r'|] eqn:Hr; [|discriminate].
    injection H as <- <-.
    split; [split; [discriminate|]|now exists s]. simpl. now rewrite Ha.
Qed.

Lemma matchHere_groups (re : RegExp.t) :
  forall s m groups, RegExp.matchHere re s = Some (m, groups) ->
    List.length groups = digitGroups re /\ Forall isNumeral groups.
Proof.
  induction re as [|[c|] re IH]; intros s m groups H.
  - injection H as <- <-. split; [reflexivity|constructor].
  - destruct s as [|a s]; simpl in H; [discriminate|].
    destruct (Ascii.eqb _ _); [|discriminate].
    destruct (RegExp.matchHere re s) as [[m' g']|] eqn:Hm; [|discriminate].
    injection H as <- <-. exact (IH _ _ _ Hm).
  - simpl in H.
    destruct (RegExp.digitsThen (RegExp.matchHere re) s)
      as [[ds [m' g']]|] eqn:Hd; [|discriminate].
    injection H as <- <-.
    destruct (digitsThen_numeral _ _ _ _ Hd) as [Hds [s' Hs']].
    destruct (IH _ _ _ Hs') as [Hlen Hall].
    split; [simpl; unfold digitGroups in *; simpl; now rewrite Hlen|].
    now constructor.
Qed.

Lemma search_matchHere (re : RegExp.t) (s : string) :
  forall r, RegExp.search re s = Some r ->
    exists s', RegExp.matchHere re s' = Some r.
Proof.
  induction s as [|a s IH]; simpl; intros r H.
  - destruct (RegExp.matchHere re "") eqn:Hm; [|discriminate].
    injection H as <-. now exists EmptyString.
  - destruct (RegExp.matchHere re (String a s)) eqn:Hm.
    + injection H as <-. now exists (String a s).
    + exact (IH _ H).
Qed.

(** [exec_groups_digits]: a match array of a pattern of the page is the
    matched text followed by two numerals, so [parseInt] is only applied to
    numerals. *)
Lemma exec_groups_digits (k : NutrientKey) (step : string) (m : list string) :
  RegExp.exec step (pattern k) = Some m ->
  List.length m = 3%nat /\ isNumeral (group m 1) /\ isNumeral (group m 2).
Proof.
  unfold RegExp.exec. intro H.
  destruct (RegExp.search (pattern k) step) as [[w groups]|] eqn:Hs;
    [|discriminate].
  injection H as <-.
  destruct (search_matchHere _ _ _ Hs) as [s' Hm].
  destruct (matchHere_groups _ _ _ _ Hm) as [Hlen Hall].
  assert (Hk : digitGroups (pattern k) = 2%nat) by (destruct k; reflexivity).
  rewrite Hk in Hlen.
  destruct groups as [|g1 [|g2 [|g3 groups]]]; try discriminate Hlen.
  inversion Hall as [|? ? H1 Hall']. inversion Hall' as [|? ? H2 _].
  simpl. auto.
Qed.

End Groups.

(** ** One step, then all the steps of a recipe *)

Section Extraction.

Lemma nutrients_ext (n1 n2 : Nutrients) :
  (forall k, field k n1 = field k n2) -> n1 = n2.
Proof.
  intro H.
  destruct n1 as [[a1 a2 a3 a4 a5 a6] [b1 b2 b3 b4]],
           n2 as [[c1 c2 c3 c4 c5 c6] [e1 e2 e3 e4]].
  pose proof (H VitaminA). pose proof (H VitaminC). pose proof (H Calcium).
  pose proof (H Iron). pose proof (H Potassium). pose proof (H Sodium).
  pose proof (H Protein). pose proof (H Carbs). pose proof (H Fat).
  pose proof (H Fiber). simpl in *. congruence.
Qed.

Lemma nutrients_eta (n : Nutrients) :
  {| micronutrients := n.(micronutrients);
     macronutrients := n.(macronutrients) |} = n.
Proof. now destruct n. Qed.

(** What a step does to the field of one key: the field of its match, or
    the field as it was. *)
Lemma processStep_field (k : NutrientKey) (acc : Nutrients) (step : string) :
  field k (processStep acc step)
  = match RegExp.exec step (pattern k) with
    | Some m => fieldOfMatch k m
    | None => field k acc
    end.
Proof.
  destruct k; unfold processStep, field, pattern, fieldOfMatch, canonicalUnit;
    cbv zeta;
    repeat match goal with
           | |- context [RegExp.exec step ?p] =>
               destruct (RegExp.exec step p)
           end;
    reflexivity.
Qed.

Lemma extract_snoc (l : list string) (step : string) :
  extractNutrients (l ++ [step]) = processStep (extractNutrients l) step.
Proof. unfold extractNutrients. now rewrite fold_left_app. Qed.

Lemma field_initial (k : NutrientKey) : field k initialNutrients = zeroField k.
Proof. now destruct k. Qed.

(** The steps after the last one that matches leave the field alone. *)
Lemma fold_processStep_no_match (k : NutrientKey) (post : list string) :
  (forall s, In s post -> RegExp.exec s (pattern k) = None) ->
  forall acc, field k (fold_left processStep post acc) = field k acc.
Proof.
  induction post as [|s post IH]; intros Hpost acc; [reflexivity|].
  simpl. rewrite IH by (intros; apply Hpost; now right).
  rewrite processStep_field, Hpost by now left. reflexivity.
Qed.

Lemma fold_processStep_congr (k : NutrientKey) (post : list string) :
  forall acc1 acc2, field k acc1 = field k acc2 ->
    field k (fold_left processStep post acc1)
    = field k (fold_left processStep post acc2).
Proof.
  induction post as [|s post IH]; intros acc1 acc2 H; [exact H|].
  simpl. apply IH. rewrite !processStep_field.
  now destruct (RegExp.exec s (pattern k)).
Qed.

Lemma extract_last_matching_step
  (k : NutrientKey) (pre post : list string) (step : string) (m : list string) :
  RegExp.exec step (pattern k) = Some m ->
  (forall s, In s post -> RegExp.exec s (pattern k) = None) ->
  field k (extractNutrients (pre ++ step :: post)) = fieldOfMatch k m.
Proof.
  intros Hm Hpost. unfold extractNutrients.
  rewrite fold_left_app. simpl.
  rewrite fold_processStep_no_match by exact Hpost.
  now rewrite processStep_field, Hm.
Qed.

(** The last match of the steps, one step more: the match of that step
    when it has one, the last match so far otherwise. *)
Lemma lastMatch_snoc (k : NutrientKey) (l : list string) (step : string) :
  lastMatchAcrossSteps k (l ++ [step])
  = match RegExp.exec step (pattern k) with
    | Some m => Some m
    | None => lastMatchAcrossSteps k l
    end.
Proof.
  unfold lastMatchAcrossSteps, matchesAcrossSteps.
  rewrite flat_map_app. simpl.
  destruct (RegExp.exec step (pattern k)) as [m|].
  - rewrite map_app. simpl. apply last_last.
  - now rewrite !app_nil_r.
Qed.

Lemma extract_no_match (k : NutrientKey) (l : list string) :
  (forall s, In s l -> RegExp.exec s (pattern k) = None) ->
  field k (extractNutrients l) = zeroField k.
Proof.
  intro H. unfold extractNutrients.
  rewrite fold_processStep_no_match by exact H. apply field_initial.
Qed.

(** Every field read from any steps is the zero field of its key or the
    field of a match of its pattern. *)
Lemma extract_field_cases (k : NutrientKey) (l : list string) :
  field k (extractNutrients l) = zeroField k
  \/ exists step m, In step l /\ RegExp.exec step (pattern k) = Some m
                    /\ field k (extractNutrients l) = fieldOfMatch k m.
Proof.
  induction l as [|step l IH] using rev_ind.
  - left. apply field_initial.
  - rewrite extract_snoc, processStep_field.
    destruct (RegExp.exec step (pattern k)) as [m|] eqn:Hm.
    + right. exists step, m. split; [apply in_or_app; right; now left|auto].
    + destruct IH as [IH | (s & m & Hin & Hs & IH)]; [now left|].
      right. exists s, m. split; [apply in_or_app; now left|auto].
Qed.

Lemma extract_unit (k : NutrientKey) (l : list string) :
  (field k (extractNutrients l)).(unit) = canonicalUnit k.
Proof.
  destruct (extract_field_cases k l) as [-> | (s & m & _ & _ & ->)];
    reflexivity.
Qed.

Lemma extract_nonneg (k : NutrientKey) (l : list string) :
  0 <= (field k (extractNutrients l)).(value)
  /\ 0 <= (field k (extractNutrients l)).(percentage).
Proof.
  destruct (extract_field_cases k l) as [-> | (s & m & _ & _ & ->)]; simpl.
  - lia.
  - split; apply parseInt_nonneg.
Qed.

Lemma hasNutrientData_spec (n : Nutrients) :
  hasNutrientData n = true <-> exists k, 0 < (field k n).(value).
Proof.
  unfold hasNutrientData. rewrite !orb_true_iff, !Z.ltb_lt. split.
  - intros [[[[[[[[[H|H]|H]|H]|H]|H]|H]|H]|H]|H];
      [ exists VitaminA | exists VitaminC | exists Calcium | exists Iron
      | exists Potassium | exists Sodium | exists Protein | exists Carbs
      | exists Fat | exists Fiber ]; exact H.
  - intros [k H]. destruct k; simpl in H; tauto.
Qed.

Lemma hasNutrientData_false (n : Nutrients) :
  hasNutrientData n = false <-> forall k, (field k n).(value) <= 0.
Proof.
  split.
  - intros H k. destruct (Z_lt_le_dec 0 (field k n).(value)) as [Hk|Hk];
      [|exact Hk].
    assert (hasNutrientData n = true) by (apply hasNutrientData_spec; eauto).
    congruence.
  - intro H. destruct (hasNutrientData n) eqn:E; [|reflexivity].
    apply hasNutrientData_spec in E. destruct E as [k Hk].
    specialize (H k). lia.
Qed.

End Extraction.

(** ** The map and the sort *)

Section MapFacts.
Context {V : Type}.
Implicit Types (m : JsMap.t V) (k : string) (v : V).

Lemma get_set_same k v m : JsMap.get k (JsMap.set k v m) = Some v.
Proof.
  induction m as [|[k' v'] m IH]; simpl.
  - now rewrite String.eqb_refl.
  - destruct (String.eqb k k') eqn:E; simpl.
    + now rewrite String.eqb_refl.
    + now rewrite E, IH.
Qed.

Lemma get_set_other k k' v m :
  k <> k' -> JsMap.get k' (JsMap.set k v m) = JsMap.get k' m.
Proof.
  intro Hne. induction m as [|[k0 v0] m IH]; simpl.
  - destruct (String.eqb k' k) eqn:E; [|reflexivity].
    apply String.eqb_eq in E. congruence.
  - destruct (String.eqb k k0) eqn:E; simpl.
    + apply String.eqb_eq in E. subst k0.
      destruct (String.eqb k' k) eqn:E'; [|reflexivity].
      apply String.eqb_eq in E'. congruence.
    + now rewrite IH.
Qed.

Lemma get_In k v m : JsMap.get k m = Some v -> In (k, v) m.
Proof.
  induction m as [|[k' v'] m IH]; simpl; [discriminate|].
  destruct (String.eqb k k') eqn:E.
  - apply String.eqb_eq in E. intros [= ->]. left. now subst.
  - intro H. right. now apply IH.
Qed.

Lemma get_None_keys k m : JsMap.get k m = None -> ~ In k (JsMap.keys m).
Proof.
  induction m as [|[k' v'] m IH]; simpl; [tauto|].
  destruct (String.eqb k k') eqn:E; [discriminate|].
  apply String.eqb_neq in E. intros H [Hk|Hk]; [congruence|].
  now apply IH.
Qed.

Lemma In_get k v m : NoDup (JsMap.keys m) -> In (k, v) m -> JsMap.get k m = Some v.
Proof.
  induction m as [|[k' v'] m IH]; simpl; [tauto|].
  intros Hnd [H|H].
  - injection H as -> ->. now rewrite String.eqb_refl.
  - inversion Hnd as [|? ? Hk' Hnd']. subst.
    destruct (String.eqb k k') eqn:E.
    + apply String.eqb_eq in E. subst k'. exfalso. apply Hk'.
      change k with (fst (k, v)). now apply in_map.
    + now apply IH.
Qed.

(** Assigning a present key changes no key; a new key is added last. *)
Lemma set_present k v v0 m :
  JsMap.get k m = Some v0 ->
  JsMap.keys (JsMap.set k v m) = JsMap.keys m
  /\ exists m1 m2, m = (m1 ++ (k, v0) :: m2)%list
                   /\ JsMap.set k v m = (m1 ++ (k, v) :: m2)%list.
Proof.
  induction m as [|[k' v'] m IH]; simpl; [discriminate|].
  destruct (String.eqb k k') eqn:E.
  - apply String.eqb_eq in E. subst k'. intros [= ->]. split; [reflexivity|].
    now exists [], m.
  - intro H. destruct (IH H) as (Hk & m1 & m2 & -> & Hs). simpl. split.
    + now rewrite Hk.
    + exists ((k', v') :: m1), m2. simpl. now rewrite Hs.
Qed.

Lemma set_absent k v m :
  JsMap.get k m = None -> JsMap.set k v m = (m ++ [(k, v)])%list.
Proof.
  induction m as [|[k' v'] m IH]; simpl; [reflexivity|].
  destruct (String.eqb k k'); [discriminate|]. intro H. now rewrite IH.
Qed.

End MapFacts.

Section SortFacts.
Context {A : Type} (compareFn : A -> A -> Z).

Lemma insert_perm (x : A) (l : list A) :
  Permutation (JsArray.insert compareFn x l) (x :: l).
Proof.
  induction l as [|y l IH]; simpl; [reflexivity|].
  destruct (compareFn x y <=? 0); [reflexivity|].
  rewrite IH. apply perm_swap.
Qed.

Lemma sort_perm (l : list A) : Permutation (JsArray.sort compareFn l) l.
Proof.
  induction l as [|x l IH]; simpl; [reflexivity|].
  rewrite insert_perm. now constructor.
Qed.

Lemma sort_In (l : list A) (x : A) :
  In x (JsArray.sort compareFn l) <-> In x l.
Proof.
  split; apply Permutation_in; [|symmetry]; apply sort_perm.
Qed.

End SortFacts.

(** ** Grouping by day *)

Section Grouping.

Lemma set_set {V : Type} (k : string) (v1 v2 : V) (m : JsMap.t V) :
  JsMap.set k v2 (JsMap.set k v1 m) = JsMap.set k v2 m.
Proof.
  induction m as [|[k' v'] m IH]; simpl.
  - now rewrite String.eqb_refl.
  - destruct (String.eqb k k') eqn:E; simpl.
    + now rewrite String.eqb_refl.
    + now rewrite E, IH.
Qed.

Lemma hasNutrientData_initial : hasNutrientData initialNutrients = false.
Proof. reflexivity. Qed.

Lemma qualifies_steps (r : Recipe) :
  qualifies r = true -> exists s l, r.(steps) = Some (s :: l).
Proof.
  unfold qualifies, nutrientsOf, stepsOf.
  destruct (steps r) as [[|s l]|]; intro H.
  - discriminate H.
  - now exists s, l.
  - discriminate H.
Qed.

(** The callback of the loop, by whether the recipe qualifies and whether
    its day is in the map already. *)
Lemma processRecipe_skip (dailyData : JsMap.t NutrientData) (r : Recipe) :
  qualifies r = false -> processRecipe dailyData r = dailyData.
Proof.
  unfold qualifies, nutrientsOf, stepsOf, processRecipe.
  destruct (steps r) as [[|s l]|]; intro H; try reflexivity.
  now rewrite H.
Qed.

Lemma processRecipe_new (dailyData : JsMap.t NutrientData) (r : Recipe) :
  qualifies r = true ->
  JsMap.get (dayKeyOf r) dailyData = None ->
  processRecipe dailyData r
  = (dailyData ++ [(dayKeyOf r, entryOf r [r])])%list.
Proof.
  intros Hq Hget. destruct (qualifies_steps r Hq) as (s & l & Hs).
  unfold qualifies, nutrientsOf, stepsOf in Hq. rewrite Hs in Hq.
  unfold processRecipe. rewrite Hs, Hq. cbn [negb].
  fold (dayKeyOf r). unfold JsMap.has. rewrite Hget. cbn [negb].
  rewrite get_set_same, set_set, (set_absent _ _ dailyData Hget).
  cbn [day averageData meals app]. unfold entryOf, dayLabelOf.
  cbn [map]. unfold mealOf, nutrientsOf, stepsOf. rewrite Hs.
  now rewrite nutrients_eta.
Qed.

Lemma processRecipe_more (dailyData : JsMap.t NutrientData) (r : Recipe)
  (dayData : NutrientData) :
  qualifies r = true ->
  JsMap.get (dayKeyOf r) dailyData = Some dayData ->
  processRecipe dailyData r
  = JsMap.set (dayKeyOf r)
      {| day := dayData.(day); averageData := dayData.(averageData);
         meals := dayData.(meals) ++ [mealOf r] |} dailyData.
Proof.
  intros Hq Hget. destruct (qualifies_steps r Hq) as (s & l & Hs).
  unfold qualifies, nutrientsOf, stepsOf in Hq. rewrite Hs in Hq.
  unfold processRecipe. rewrite Hs, Hq. cbn [negb].
  fold (dayKeyOf r). unfold JsMap.has. rewrite Hget. cbn [negb].
  rewrite Hget. unfold mealOf, nutrientsOf, stepsOf. now rewrite Hs.
Qed.

Lemma groupByDay_snoc (l : list Recipe) (r : Recipe) :
  groupByDay (l ++ [r]) = processRecipe (groupByDay l) r.
Proof. unfold groupByDay. now rewrite fold_left_app. Qed.

Lemma qualifyingOn_snoc (key : string) (l : list Recipe) (r : Recipe) :
  qualifyingOn key (l ++ [r])
  = (qualifyingOn key l
     ++ if qualifies r && String.eqb (dayKeyOf r) key then [r] else [])%list.
Proof. unfold qualifyingOn. now rewrite filter_app. Qed.

(** The map after the loop: the entry of a day is made of the first
    qualifying recipe of the day and lists the meals of all of them, in the
    order of the input; a day without a qualifying recipe has no entry. *)
Lemma groupByDay_get (recipes : list Recipe) (key : string) :
  JsMap.get key (groupByDay recipes)
  = match qualifyingOn key recipes with
    | [] => None
    | r0 :: rest => Some (entryOf r0 (r0 :: rest))
    end.
Proof.
  induction recipes as [|r l IH] using rev_ind; [reflexivity|].
  rewrite groupByDay_snoc, qualifyingOn_snoc.
  destruct (qualifies r) eqn:Hq; cbn [andb].
  2:{ rewrite processRecipe_skip, app_nil_r by exact Hq. exact IH. }
  destruct (String.eqb (dayKeyOf r) key) eqn:Hk.
  - apply String.eqb_eq in Hk. subst key.
    destruct (qualifyingOn (dayKeyOf r) l) as [|r0 rest] eqn:Hl.
    + rewrite (processRecipe_new _ _ Hq IH).
      rewrite <- (set_absent _ _ _ IH). apply get_set_same.
    + rewrite (processRecipe_more _ _ _ Hq IH), get_set_same.
      unfold entryOf. cbn [day averageData meals].
      now rewrite <- map_app with (l' := [r]).
  - apply String.eqb_neq in Hk. rewrite app_nil_r, <- IH.
    destruct (JsMap.get (dayKeyOf r) (groupByDay l)) as [dayData|] eqn:Hg.
    + rewrite (processRecipe_more _ _ _ Hq Hg). now apply get_set_other.
    + rewrite (processRecipe_new _ _ Hq Hg), <- (set_absent _ _ _ Hg).
      now apply get_set_other.
Qed.

Lemma groupByDay_keys_NoDup (recipes : list Recipe) :
  NoDup (JsMap.keys (groupByDay recipes)).
Proof.
  induction recipes as [|r l IH] using rev_ind; [constructor|].
  rewrite groupByDay_snoc.
  destruct (qualifies r) eqn:Hq.
  2:{ now rewrite processRecipe_skip. }
  destruct (JsMap.get (dayKeyOf r) (groupByDay l)) as [dayData|] eqn:Hg.
  - rewrite (processRecipe_more _ _ _ Hq Hg).
    now rewrite (proj1 (set_present _ _ _ _ Hg)).
  - rewrite (processRecipe_new _ _ Hq Hg). unfold JsMap.keys.
    rewrite map_app. simpl.
    apply NoDup_app; [exact IH| repeat constructor; simpl; tauto |].
    intros a Ha [<-|[]]. now apply (get_None_keys _ _ Hg).
Qed.

(** The meals of the map are those of the qualifying recipes. *)
Lemma groupByDay_meals (recipes : list Recipe) :
  Permutation (flat_map meals (JsMap.values (groupByDay recipes)))
              (map mealOf (filter qualifies recipes)).
Proof.
  induction recipes as [|r l IH] using rev_ind; [reflexivity|].
  rewrite groupByDay_snoc, filter_app. simpl.
  destruct (qualifies r) eqn:Hq.
  2:{ now rewrite processRecipe_skip, app_nil_r. }
  rewrite map_app. simpl. rewrite <- IH.
  destruct (JsMap.get (dayKeyOf r) (groupByDay l)) as [dayData|] eqn:Hg.
  - rewrite (processRecipe_more _ _ _ Hq Hg).
    destruct (set_present (dayKeyOf r)
                {| day := dayData.(day); averageData := dayData.(averageData);
                   meals := dayData.(meals) ++ [mealOf r] |} _ _ Hg)
      as (_ & m1 & m2 & E1 & E2).
    rewrite E2, E1. unfold JsMap.values.
    rewrite !map_app, !flat_map_app. simpl.
    rewrite <- !app_assoc. do 2 apply Permutation_app_head.
    apply Permutation_app_comm.
  - rewrite (processRecipe_new _ _ Hq Hg). unfold JsMap.values.
    rewrite map_app, flat_map_app. reflexivity.
Qed.

End Grouping.

(** ** From the map to the day list *)

Section DayList.

Lemma dayEntry_entryOf (r0 : Recipe) (rest : list Recipe) :
  dayEntry (entryOf r0 (r0 :: rest)) = [entryOf r0 (r0 :: rest)].
Proof.
  unfold dayEntry, entryOf. cbn [meals map day].
  unfold mealOf at 1, mealOfRecipe.
  cbn [mealMicronutrients mealMacronutrients].
  now rewrite nutrients_eta.
Qed.

Lemma dayEntry_meals (dayData : NutrientData) :
  flat_map meals (dayEntry dayData) = dayData.(meals).
Proof.
  unfold dayEntry. destruct dayData.(meals); simpl; [reflexivity|].
  now rewrite app_nil_r.
Qed.

Lemma buildHistory_meals (dailyData : JsMap.t NutrientData) :
  allMeals (buildHistory dailyData)
  = flat_map meals (JsMap.values dailyData).
Proof.
  unfold allMeals, buildHistory.
  induction (JsMap.values dailyData) as [|x l IH]; [reflexivity|].
  simpl. now rewrite flat_map_app, dayEntry_meals, IH.
Qed.

(** The days of the list are the days that have a qualifying recipe. *)
Lemma history_In (recipes : list Recipe) (dy : NutrientData) :
  In dy (nutrientHistoryData recipes)
  <-> exists key r0 rest,
        qualifyingOn key recipes = r0 :: rest
        /\ dy = entryOf r0 (r0 :: rest).
Proof.
  unfold nutrientHistoryData, buildHistory.
  rewrite sort_In, in_flat_map. split.
  - intros (dayData & Hin & Hdy).
    apply in_map_iff in Hin. destruct Hin as ([key v] & Hv & Hin).
    simpl in Hv. subst v.
    apply In_get in Hin; [|apply groupByDay_keys_NoDup].
    rewrite groupByDay_get in Hin.
    destruct (qualifyingOn key recipes) as [|r0 rest] eqn:Hq;
      [discriminate|].
    injection Hin as <-. rewrite dayEntry_entryOf in Hdy.
    destruct Hdy as [<-|[]]. now exists key, r0, rest.
  - intros (key & r0 & rest & Hq & ->).
    exists (entryOf r0 (r0 :: rest)). split.
    + change (entryOf r0 (r0 :: rest))
        with (snd (key, entryOf r0 (r0 :: rest))).
      apply in_map, get_In. now rewrite groupByDay_get, Hq.
    + rewrite dayEntry_entryOf. now left.
Qed.

Lemma qualifyingOn_In (key : string) (recipes : list Recipe) (r : Recipe) :
  In r (qualifyingOn key recipes) ->
  In r recipes /\ qualifies r = true /\ dayKeyOf r = key.
Proof.
  unfold qualifyingOn. rewrite filter_In, andb_true_iff, String.eqb_eq.
  tauto.
Qed.

Lemma mealNutrients_mealOf (r : Recipe) :
  mealNutrients (mealOf r) = nutrientsOf r.
Proof. unfold mealNutrients, mealOf, mealOfRecipe. apply nutrients_eta. Qed.

(** Every field of the day list is a field read from the steps of one of
    the recipes. *)
Lemma output_field_origin (recipes : list Recipe) (f : NutrientField) :
  In f (outputFields (nutrientHistoryData recipes)) ->
  exists r k, In r recipes /\ f = field k (nutrientsOf r).
Proof.
  unfold outputFields. rewrite in_flat_map.
  intros (dy & Hdy & Hf). apply history_In in Hdy.
  destruct Hdy as (key & r0 & rest & Hq & ->).
  assert (Hall : forall r, In r (r0 :: rest) -> In r recipes).
  { intros r Hr. rewrite <- Hq in Hr. now apply qualifyingOn_In in Hr. }
  apply in_app_or in Hf. destruct Hf as [Hf|Hf].
  - apply in_map_iff in Hf. destruct Hf as (k & <- & _).
    exists r0, k. split; [apply Hall; now left|reflexivity].
  - apply in_flat_map in Hf. destruct Hf as (m & Hm & Hf).
    cbn [entryOf meals] in Hm. apply in_map_iff in Hm.
    destruct Hm as (r & <- & Hr). rewrite mealNutrients_mealOf in Hf.
    apply in_map_iff in Hf. destruct Hf as (k & <- & _).
    exists r, k. split; [now apply Hall|reflexivity].
Qed.

End DayList.

(** ** The annotation of a nutrient is read back *)

Section Annotation.

Lemma string_app_assoc (a b c : string) : (a ++ b) ++ c = a ++ b ++ c.
Proof. induction a as [|x a IH]; simpl; [reflexivity|now rewrite IH]. Qed.

Lemma string_app_nil_r (a : string) : a ++ "" = a.
Proof. induction a as [|x a IH]; simpl; [reflexivity|now rewrite IH]. Qed.

Lemma matchHere_chars (lit : string) (re : RegExp.t) (s : string) :
  RegExp.matchHere (RegExp.chars lit ++ re)%list (lit ++ s)
  = match RegExp.matchHere re s with
    | Some (m, groups) => Some (lit ++ m, groups)
    | None => None
    end.
Proof.
  induction lit as [|c lit IH]; simpl.
  - now destruct (RegExp.matchHere re s) as [[m g]|].
  - rewrite Ascii.eqb_refl, IH.
    now destruct (RegExp.matchHere re s) as [[m g]|].
Qed.

(** When the rest of the pattern matches after all the digits, the group
    takes them all. *)
Lemma digitsThen_numeral_then {R : Type} (rest : string -> option R)
  (v : string) (c : ascii) (s : string) (r : R) :
  isNumeral v -> Js.isDigit c = false ->
  rest (String c s) = Some r ->
  RegExp.digitsThen rest (v ++ String c s) = Some (v, r).
Proof.
  intros [Hne Hv] Hc Hr. induction v as [|a v IH]; [now elim Hne|].
  simpl in Hv. apply andb_true_iff in Hv. destruct Hv as [Ha Hv].
  cbn [append RegExp.digitsThen]. rewrite Ha.
  destruct v as [|b v].
  - cbn [append RegExp.digitsThen]. now rewrite Hc, Hr.
  - now rewrite IH by (try discriminate; exact Hv).
Qed.

Lemma matchHere_digits_chars (re : RegExp.t) (v lit rest : string)
  (c : ascii) (u : string) (m : string) (groups : list string) :
  lit = String c u -> Js.isDigit c = false -> isNumeral v ->
  RegExp.matchHere re (lit ++ rest) = Some (m, groups) ->
  RegExp.matchHere (RegExp.Digits :: re) (v ++ lit ++ rest)
  = Some (v ++ m, v :: groups).
Proof.
  intros -> Hc Hv Hm. cbn [RegExp.matchHere append] in *.
  now rewrite (digitsThen_numeral_then _ v c _ _ Hv Hc Hm).
Qed.

(** A pattern of the shape of the ten, on a text of its own shape. *)
Lemma matchHere_shape (l1 l2 l3 v p after : string) (c2 c3 : ascii)
  (u2 u3 : string) :
  l2 = String c2 u2 -> Js.isDigit c2 = false ->
  l3 = String c3 u3 -> Js.isDigit c3 = false ->
  isNumeral v -> isNumeral p ->
  RegExp.matchHere
    (RegExp.chars l1
     ++ RegExp.Digits :: RegExp.chars l2
     ++ RegExp.Digits :: RegExp.chars l3)%list
    (l1 ++ v ++ l2 ++ p ++ l3 ++ after)
  = Some (l1 ++ v ++ l2 ++ p ++ l3, [v; p]).
Proof.
  intros E2 H2 E3 H3 Hv Hp.
  assert (M3 : RegExp.matchHere (RegExp.chars l3) (l3 ++ after)
               = Some (l3, [])).
  { rewrite <- (app_nil_r (RegExp.chars l3)), matchHere_chars.
    cbn [RegExp.matchHere]. now rewrite string_app_nil_r. }
  pose proof (matchHere_digits_chars _ p l3 after c3 u3 _ _ E3 H3 Hp M3)
    as Mp.
  assert (M2 : RegExp.matchHere
                 (RegExp.chars l2 ++ RegExp.Digits :: RegExp.chars l3)%list
                 (l2 ++ p ++ l3 ++ after)
               = Some (l2 ++ p ++ l3, [p])).
  { now rewrite matchHere_chars, Mp. }
  pose proof (matchHere_digits_chars _ v l2 _ c2 u2 _ _ E2 H2 Hv M2) as Mv.
  now rewrite matchHere_chars, Mv.
Qed.

Lemma pattern_shape (k : NutrientKey) :
  pattern k
  = (RegExp.chars (label k ++ ": ")
     ++ RegExp.Digits :: RegExp.chars (canonicalUnit k ++ " (")
     ++ RegExp.Digits :: RegExp.chars "%)")%list.
Proof. now destruct k. Qed.

Lemma annotation_shape (k : NutrientKey) (v p after : string) :
  annotation k v p ++ after
  = (label k ++ ": ") ++ v ++ (canonicalUnit k ++ " (") ++ p ++ "%)" ++ after.
Proof. unfold annotation. now rewrite !string_app_assoc. Qed.

Lemma matchHere_annotation (k : NutrientKey) (v p after : string) :
  isNumeral v -> isNumeral p ->
  RegExp.matchHere (pattern k) (annotation k v p ++ after)
  = Some (annotation k v p, [v; p]).
Proof.
  intros Hv Hp. rewrite pattern_shape, annotation_shape.
  assert (Hu : exists c u, canonicalUnit k ++ " (" = String c u
                           /\ Js.isDigit c = false).
  { destruct k; simpl; eexists _, _; split; reflexivity. }
  destruct Hu as (c & u & Hu & Hc).
  rewrite (matchHere_shape _ _ _ v p after c "%" u ")" Hu Hc
             eq_refl eq_refl Hv Hp).
  unfold annotation. now rewrite !string_app_assoc.
Qed.

Lemma search_matchHere_first (re : RegExp.t) (s : string)
  (r : string * list string) :
  RegExp.matchHere re s = Some r -> RegExp.search re s = Some r.
Proof. intro H. destruct s; simpl; now rewrite H. Qed.

Lemma exec_annotation (k : NutrientKey) (v p after : string) :
  isNumeral v -> isNumeral p ->
  RegExp.exec (annotation k v p ++ after) (pattern k)
  = Some [annotation k v p; v; p].
Proof.
  intros Hv Hp. unfold RegExp.exec.
  now rewrite (search_matchHere_first _ _ _
                 (matchHere_annotation k v p after Hv Hp)).
Qed.

Lemma fieldOfMatch_tl (k : NutrientKey) (m1 m2 : list string) :
  tl m1 = tl m2 -> fieldOfMatch k m1 = fieldOfMatch k m2.
Proof.
  unfold fieldOfMatch, group.
  destruct m1 as [|w1 g1], m2 as [|w2 g2]; simpl; intro H; subst;
    reflexivity.
Qed.

(** A step gives the same nutrients whatever the case of its letters. *)
Lemma processStep_sameUpToCase (acc : Nutrients) (s1 s2 : string) :
  sameUpToCase s1 s2 -> processStep acc s1 = processStep acc s2.
Proof.
  intro Hs. apply nutrients_ext. intro k. rewrite !processStep_field.
  pose proof (exec_sameUpToCase (pattern k) s1 s2 Hs) as H.
  destruct (RegExp.exec s1 (pattern k)) as [m1|],
           (RegExp.exec s2 (pattern k)) as [m2|];
    simpl in H; try discriminate; [|reflexivity].
  apply fieldOfMatch_tl. congruence.
Qed.

End Annotation.

(** ** The properties of the specification *)

(** C1 (the code departs from the claim).  The claim: the day list is in
    descending order of calendar date, and recipes dated 2025-01-01,
    2025-01-03 and 2024-12-31 give the days in the order 2025-01-03,
    2025-01-01, 2024-12-31.  The sort compares the labels of the days read
    with the year 2025 appended, so the year of a day plays no part: on these
    three recipes, one meal each, the day of 2024-12-31 comes first. *)
Theorem C1_sort_ignores_the_year :
  map dayKeyOf acrossNewYear = ["2025-01-03"; "2025-01-01"; "2024-12-31"]
  /\ map day (nutrientHistoryData acrossNewYear) = ["Dec 31"; "Jan 3"; "Jan 1"]
  /\ map (fun dy => map id dy.(meals)) (nutrientHistoryData acrossNewYear)
     = [["r0"]; ["r3"]; ["r1"]].
Proof. vm_compute. repeat split. Qed.

(** C2.  For every day that has a qualifying recipe, the day list holds an
    entry whose [averageData] is the nutrients read from the first qualifying
    recipe of the day in the order of the input, which is the first of its
    meals, and whose meals are those of all the qualifying recipes of the day
    in that order.  It is no mean of the meals: with meals of 10 g and 20 g
    of protein the [averageData] holds 10. *)
Theorem C2_average_is_first_meal
  (recipes : list Recipe) (key : string) (r0 : Recipe) (rest : list Recipe) :
  qualifyingOn key recipes = r0 :: rest ->
  (exists dy, In dy (nutrientHistoryData recipes)
              /\ dy.(day) = dayLabelOf r0
              /\ dy.(averageData) = nutrientsOf r0
              /\ nth_error dy.(meals) 0 = Some (mealOf r0)
              /\ mealNutrients (mealOf r0) = nutrientsOf r0
              /\ dy.(meals) = map mealOf (r0 :: rest))
  /\ (exists dy, In dy (nutrientHistoryData twoMealsOneDay)
                 /\ map (fun m => m.(mealMacronutrients).(protein).(value))
                        dy.(meals) = [10; 20]
                 /\ dy.(averageData).(macronutrients).(protein).(value) = 10).
Proof.
  intro Hq. split.
  - exists (entryOf r0 (r0 :: rest)). split.
    + apply history_In. now exists key, r0, rest.
    + repeat split. apply mealNutrients_mealOf.
  - eexists. split; [left; reflexivity|]. split; reflexivity.
Qed.

Lemma C2_average_is_first_meal_witness :
  qualifyingOn "2025-03-14" twoMealsOneDay = twoMealsOneDay
  /\ exists dy, In dy (nutrientHistoryData twoMealsOneDay)
                /\ dy.(averageData).(macronutrients).(protein).(value) = 10
                /\ map id dy.(meals) = ["first"; "second"].
Proof.
  split; [reflexivity|].
  destruct (proj1 (C2_average_is_first_meal twoMealsOneDay "2025-03-14"
                     (recipeAt "first" 2025 2 14 ["Protein: 10g (10%)"])
                     [recipeAt "second" 2025 2 14 ["Protein: 20g (20%)"]]
                     eq_refl))
    as (dy & Hin & _ & Havg & _ & _ & Hmeals).
  exists dy. split; [exact Hin|]. split.
  - rewrite Havg. reflexivity.
  - rewrite Hmeals. reflexivity.
Defined.

(** C3.  When the steps of a recipe hold matches of the pattern of a
    nutrient (one, two or more), the field of the nutrient is the value and
    the percentage of the last of them, with the unit of the nutrient:
    every match overwrites the field and nothing is added up.  Steps
    "Protein: 10g (10%)" then "Protein: 20g (20%)" give protein 20 g,
    20%. *)
Theorem C3_last_matching_step_wins
  (k : NutrientKey) (recipeSteps : list string) (m : list string) :
  lastMatchAcrossSteps k recipeSteps = Some m ->
  field k (extractNutrients recipeSteps) = fieldOfMatch k m
  /\ (extractNutrients ["Protein: 10g (10%)"; "Protein: 20g (20%)"])
       .(macronutrients).(protein)
     = {| value := 20; unit := "g"; percentage := 20 |}.
Proof.
  intro Hm. split; [|reflexivity].
  revert m Hm. induction recipeSteps as [|step l IH] using rev_ind;
    intros m Hm; [discriminate Hm|].
  rewrite extract_snoc, processStep_field.
  rewrite lastMatch_snoc in Hm.
  destruct (RegExp.exec step (pattern k)) as [m'|].
  - now injection Hm as ->.
  - now apply IH.
Qed.

Lemma C3_last_matching_step_wins_witness :
  matchCount Protein
    ["Protein: 10g (10%)";
     "Protein: 20g (20%) and Protein: 30g (30%)";
     "Serve warm"] = 2%nat
  /\ field Protein
       (extractNutrients
          ["Protein: 10g (10%)";
           "Protein: 20g (20%) and Protein: 30g (30%)";
           "Serve warm"])
     = {| value := 20; unit := "g"; percentage := 20 |}.
Proof.
  split; [reflexivity|].
  exact (proj1 (C3_last_matching_step_wins Protein
                  ["Protein: 10g (10%)";
                   "Protein: 20g (20%) and Protein: 30g (30%)";
                   "Serve warm"]
                  ["Protein: 20g (20%)"; "20"; "20"] eq_refl)).
Defined.

(** C4.  A step that starts with the annotation of a nutrient, written in
    any case, gives the field of that nutrient the value and the percentage
    of the annotation and the unit of the nutrient, for each of the ten
    nutrients; "Protein: 25g (40%)" and "protein: 25g (40%)" both give
    protein 25 g, 40%. *)
Theorem C4_annotation_read_back
  (k : NutrientKey) (v p after step : string) (acc : Nutrients) :
  isNumeral v -> isNumeral p ->
  sameUpToCase step (annotation k v p ++ after) ->
  field k (processStep acc step)
  = {| value := Js.parseInt v; unit := canonicalUnit k;
       percentage := Js.parseInt p |}
  /\ processStep acc step = processStep acc (annotation k v p ++ after).
Proof.
  intros Hv Hp Hs.
  rewrite (processStep_sameUpToCase acc _ _ Hs). split; [|reflexivity].
  now rewrite processStep_field, (exec_annotation k v p after Hv Hp).
Qed.

Lemma C4_annotation_read_back_witness :
  (processStep initialNutrients "protein: 25g (40%)")
    .(macronutrients).(protein)
  = {| value := 25; unit := "g"; percentage := 40 |}
  /\ processStep initialNutrients "protein: 25g (40%)"
     = processStep initialNutrients "Protein: 25g (40%)".
Proof.
  refine (C4_annotation_read_back Protein "25" "40" ""
            "protein: 25g (40%)" initialNutrients _ _ eq_refl);
    (split; [discriminate|reflexivity]).
Defined.

(** The annotations of the ten nutrients and their lower-case forms. *)
Example annotations_of_the_ten (k : NutrientKey) :
  field k (processStep initialNutrients (annotation k "25" "40"))
  = {| value := 25; unit := canonicalUnit k; percentage := 40 |}
  /\ processStep initialNutrients (annotation k "25" "40")
     = processStep initialNutrients
         (match k with
          | VitaminA => "vitamin a: 25mcg (40%)"
          | VitaminC => "vitamin c: 25mg (40%)"
          | Calcium => "calcium: 25mg (40%)"
          | Iron => "iron: 25mg (40%)"
          | Potassium => "potassium: 25mg (40%)"
          | Sodium => "sodium: 25mg (40%)"
          | Protein => "protein: 25g (40%)"
          | Carbs => "carbs: 25g (40%)"
          | Fat => "fat: 25g (40%)"
          | Fiber => "fiber: 25g (40%)"
          end).
Proof. destruct k; split; reflexivity. Qed.

(** C5.  The meals of the day list are the meals of the recipes that have a
    positive value among their ten, one meal for each such recipe; a recipe
    qualifies exactly when one of the ten values read from its steps is
    positive; a recipe without steps, with an empty list of steps, or whose
    steps match none of the patterns does not qualify, and a recipe that
    does not qualify leaves the map of the days as it is. *)
Theorem C5_meal_iff_positive_value (recipes : list Recipe) :
  Permutation (allMeals (nutrientHistoryData recipes))
              (map mealOf (filter qualifies recipes))
  /\ (forall r, qualifies r = true
                <-> exists k, 0 < (field k (nutrientsOf r)).(value))
  /\ (forall r, r.(steps) = None \/ r.(steps) = Some []
                \/ (forall s k, In s (stepsOf r)
                                -> RegExp.exec s (pattern k) = None)
                -> qualifies r = false)
  /\ (forall r dailyData, qualifies r = false
                          -> processRecipe dailyData r = dailyData).
Proof.
  split; [|split; [|split]].
  - unfold nutrientHistoryData, allMeals.
    rewrite (Permutation_flat_map meals (sort_perm compareDays _)).
    fold (allMeals (buildHistory (groupByDay recipes))).
    rewrite buildHistory_meals. apply groupByDay_meals.
  - intro r. apply hasNutrientData_spec.
  - intros r H. unfold qualifies. apply hasNutrientData_false. intro k.
    unfold nutrientsOf.
    rewrite extract_no_match; [simpl; lia|].
    unfold stepsOf in *.
    destruct H as [H|[H|H]]; try (rewrite H; intros s []).
    intros s Hs. now apply H.
  - intros r dailyData. apply processRecipe_skip.
Qed.

Lemma C5_meal_iff_positive_value_witness :
  map id (allMeals (nutrientHistoryData oneMealAmongFive)) = ["kept"]
  /\ Permutation (allMeals (nutrientHistoryData oneMealAmongFive))
                 [mealOf (recipeAt "kept" 2025 4 2 ["Boil"; "Iron: 3mg (17%)"])].
Proof.
  split; [reflexivity|].
  exact (proj1 (C5_meal_iff_positive_value oneMealAmongFive)).
Defined.

(** C6.  A step in which the pattern of a nutrient does not match as a
    whole gives nothing to the field of that nutrient: within a step and
    within a recipe the field is what it is without the step.  The matcher
    is a total function, so nothing is raised. *)
Theorem C6_no_partial_extraction
  (k : NutrientKey) (acc : Nutrients) (pre post : list string)
  (step : string) :
  RegExp.exec step (pattern k) = None ->
  field k (processStep acc step) = field k acc
  /\ field k (extractNutrients (pre ++ step :: post))
     = field k (extractNutrients (pre ++ post))
  /\ field k (extractNutrients [step]) = zeroField k.
Proof.
  intro H. split; [|split].
  - now rewrite processStep_field, H.
  - unfold extractNutrients. rewrite !fold_left_app. simpl.
    apply fold_processStep_congr. now rewrite processStep_field, H.
  - apply extract_no_match. intros s [<-|[]]. exact H.
Qed.

Lemma C6_no_partial_extraction_witness :
  (RegExp.exec "Protein: 25g" (pattern Protein) = None
   /\ field Protein (extractNutrients ["Protein: 25g"]) = zeroField Protein)
  /\ (RegExp.exec "Protein: lots g (40%)" (pattern Protein) = None
      /\ field Protein
           (extractNutrients
              ["Protein: 12g (24%)"; "Protein: lots g (40%)"])
         = field Protein (extractNutrients ["Protein: 12g (24%)"])).
Proof.
  split; (split; [reflexivity|]).
  - exact (proj2 (proj2 (C6_no_partial_extraction Protein initialNutrients
                           [] [] "Protein: 25g" eq_refl))).
  - exact (proj1 (proj2 (C6_no_partial_extraction Protein initialNutrients
                           ["Protein: 12g (24%)"] []
                           "Protein: lots g (40%)" eq_refl))).
Defined.

(** C7.  When the query fails, by a rejected promise or by the [error] of
    its response, the run ends with the nutrient history it started with,
    the error written to the console after the two messages of the start,
    and the loading indicator off. *)
Theorem C7_fetch_failure_keeps_history
  (user : string) (settled : Settled) (reason : string) (st : PageState) :
  failureOf settled = Some reason ->
  (fetchNutrientData (Some user) settled st).(nutrientHistory)
  = st.(nutrientHistory)
  /\ (fetchNutrientData (Some user) settled st).(loading) = false
  /\ (fetchNutrientData (Some user) settled st).(console)
     = (st.(console)
        ++ [Log "Running fetchNutrientData with refreshKey:";
            Log "Fetching nutrient data...";
            Error "Error fetching nutrient data:" reason])%list.
Proof.
  intro H. unfold fetchNutrientData, beforeAwait, afterAwait, tryAfterAwait.
  destruct settled as [why|response]; simpl in H.
  - injection H as ->. simpl. now rewrite <- !app_assoc.
  - rewrite H. simpl. now rewrite <- !app_assoc.
Qed.

Lemma C7_fetch_failure_keeps_history_witness :
  (fetchNutrientData (Some "u")
     (Fulfilled {| data := None; error := Some "timeout" |})
     {| loading := false;
        nutrientHistory := nutrientHistoryData twoMealsOneDay;
        console := [] |}).(nutrientHistory)
  = nutrientHistoryData twoMealsOneDay
  /\ (fetchNutrientData (Some "u")
        (Fulfilled {| data := None; error := Some "timeout" |})
        {| loading := false;
           nutrientHistory := nutrientHistoryData twoMealsOneDay;
           console := [] |}).(loading) = false.
Proof.
  pose proof (C7_fetch_failure_keeps_history "u"
                (Fulfilled {| data := None; error := Some "timeout" |})
                "timeout"
                {| loading := false;
                   nutrientHistory := nutrientHistoryData twoMealsOneDay;
                   console := [] |} eq_refl) as (H1 & H2 & _).
  split; [exact H1|exact H2].
Defined.

(** C8.  Every entry of the day list has a meal: it is the entry of a day
    that has a qualifying recipe, with the meals of the qualifying recipes
    of that day. *)
Theorem C8_every_day_has_a_meal
  (recipes : list Recipe) (dy : NutrientData) :
  In dy (nutrientHistoryData recipes) ->
  dy.(meals) <> []
  /\ exists key r0 rest,
       qualifyingOn key recipes = r0 :: rest
       /\ dy.(meals) = map mealOf (r0 :: rest).
Proof.
  intro H. apply history_In in H.
  destruct H as (key & r0 & rest & Hq & ->). split.
  - discriminate.
  - now exists key, r0, rest.
Qed.

Lemma C8_every_day_has_a_meal_witness :
  (hd {| day := ""; averageData := initialNutrients; meals := [] |}
      (nutrientHistoryData twoMealsOneDay)).(meals) <> [].
Proof.
  refine (proj1 (C8_every_day_has_a_meal twoMealsOneDay _ _)).
  left. reflexivity.
Defined.

(** C9 (as stated, refuted).  The percentage is the number written in the
    step: "Protein: 25g (150%)" gives a field of 150%. *)
Lemma C9_percentage_above_100 :
  ~ (forall f,
       In f (outputFields
               (nutrientHistoryData
                  [recipeAt "r" 2025 0 1 ["Protein: 25g (150%)"]])) ->
       withinDocumentedRange f).
Proof.
  intro H.
  assert (Hin : In {| value := 25; unit := "g"; percentage := 150 |}
                  (outputFields
                     (nutrientHistoryData
                        [recipeAt "r" 2025 0 1 ["Protein: 25g (150%)"]]))).
  { vm_compute. do 6 right. left. reflexivity. }
  destruct (H _ Hin) as [_ [_ Hp]]. simpl in Hp. lia.
Qed.

(** C9 (amended).  Every field of the day list, in an [averageData] or in a
    meal, has a value and a percentage that are not negative. *)
Theorem C9_fields_not_negative (recipes : list Recipe) (f : NutrientField) :
  In f (outputFields (nutrientHistoryData recipes)) ->
  0 <= f.(value) /\ 0 <= f.(percentage).
Proof.
  intro H. apply output_field_origin in H.
  destruct H as (r & k & _ & ->). apply extract_nonneg.
Qed.

Lemma C9_fields_not_negative_witness :
  In {| value := 25; unit := "g"; percentage := 150 |}
     (outputFields
        (nutrientHistoryData
           [recipeAt "r" 2025 0 1 ["Protein: 25g (150%)"]]))
  /\ 0 <= 25 /\ 0 <= 150.
Proof.
  assert (Hin : In {| value := 25; unit := "g"; percentage := 150 |}
                  (outputFields
                     (nutrientHistoryData
                        [recipeAt "r" 2025 0 1 ["Protein: 25g (150%)"]]))).
  { vm_compute. do 6 right. left. reflexivity. }
  split; [exact Hin|].
  exact (C9_fields_not_negative _ _ Hin).
Defined.

(** C10.  The unit of a field is the unit of its key, "mcg" for vitamin A,
    "mg" for vitamin C, calcium, iron, potassium and sodium, "g" for
    protein, carbs, fat and fiber: in what is read from any steps, and in
    every [averageData] and meal of the day list. *)
Theorem C10_units_are_canonical :
  map canonicalUnit allKeys
  = ["mcg"; "mg"; "mg"; "mg"; "mg"; "mg"; "g"; "g"; "g"; "g"]
  /\ (forall (recipeSteps : list string) k,
        (field k (extractNutrients recipeSteps)).(unit) = canonicalUnit k)
  /\ (forall recipes dy k,
        In dy (nutrientHistoryData recipes) ->
        (field k dy.(averageData)).(unit) = canonicalUnit k
        /\ forall m, In m dy.(meals) ->
                     (field k (mealNutrients m)).(unit) = canonicalUnit k).
Proof.
  split; [reflexivity|]. split.
  - intros recipeSteps k. apply extract_unit.
  - intros recipes dy k H. apply history_In in H.
    destruct H as (key & r0 & rest & _ & ->). split.
    + apply extract_unit.
    + intros m Hm. cbn [entryOf meals] in Hm. apply in_map_iff in Hm.
      destruct Hm as (r & <- & _). rewrite mealNutrients_mealOf.
      apply extract_unit.
Qed.

Lemma C10_units_are_canonical_witness :
  (field VitaminA
     (hd {| day := ""; averageData := initialNutrients; meals := [] |}
         (nutrientHistoryData twoMealsOneDay)).(averageData)).(unit)
  = "mcg".
Proof.
  refine (proj1 (proj2 (proj2 C10_units_are_canonical)
                   twoMealsOneDay _ VitaminA _)).
  left. reflexivity.
Defined.

(** * Properties of the rest of the code *)

Ltac listed := simpl; repeat (first [left; reflexivity | right]).

Ltac not_listed H :=
  simpl in H; repeat (destruct H as [H|H]; [discriminate H|]); destruct H.

(** * Further properties of the tracking page *)

Section SortOrder.

Lemma label_table :
  forallb (fun m => forallb (labelReadBack m) (seq 1 31)) (seq 0 12) = true.
Proof. vm_compute. reflexivity. Qed.

Lemma format_label_fields (x y : Date) :
  x.(month) = y.(month) -> x.(date) = y.(date) ->
  format x [TMMM; Tlit " "; Td] = format y [TMMM; Tlit " "; Td].
Proof. intros Hm Hd. simpl. now rewrite Hm, Hd. Qed.

(** The label of a day, with the year 2025 after it, is read as the day of
    2025 that has its month and its day of the month. *)
Lemma label_read_back (r : Recipe) :
  plausibleDay r ->
  JsDate.parse (dayLabelOf r ++ " 2025") = Some (timeIn2025 r).
Proof.
  intros [Hm Hd]. pose proof label_table as T.
  rewrite forallb_forall in T.
  specialize (T r.(created_at).(month)).
  rewrite forallb_forall in T.
  specialize (T ltac:(apply in_seq; lia) r.(created_at).(date)
                ltac:(apply in_seq; lia)).
  unfold labelReadBack in T. unfold dayLabelOf, timeIn2025.
  rewrite (format_label_fields r.(created_at)
             {| year := 0; month := r.(created_at).(month);
                date := r.(created_at).(date); hours := 0; minutes := 0 |}
             eq_refl eq_refl).
  destruct (JsDate.parse _) as [t|]; [|discriminate].
  apply Z.eqb_eq in T. now subst.
Qed.

Context {A : Type} (compareFn : A -> A -> Z) (time : A -> Z).

Lemma insert_sorted (x : A) (l : list A) :
  (forall y, In y l -> compareFn x y = time y - time x) ->
  StronglySorted (fun a b => time b <= time a) l ->
  StronglySorted (fun a b => time b <= time a) (JsArray.insert compareFn x l).
Proof.
  intros Hc Hs. induction Hs as [|y l Hs IH Hy]; simpl.
  - repeat constructor.
  - rewrite (Hc y) by now left.
    destruct (time y - time x <=? 0) eqn:E.
    + apply Z.leb_le in E. constructor; [now constructor|].
      constructor; [lia|].
      rewrite Forall_forall in *. intros z Hz. specialize (Hy z Hz).
      simpl in *. lia.
    + apply Z.leb_gt in E. constructor.
      * apply IH. intros z Hz. apply Hc. now right.
      * rewrite Forall_forall in *. intros z Hz.
        apply (Permutation_in _ (insert_perm compareFn x l)) in Hz.
        destruct Hz as [<-|Hz]; [lia|now apply Hy].
Qed.

Lemma sort_sorted (l : list A) :
  (forall x y, In x l -> In y l -> compareFn x y = time y - time x) ->
  StronglySorted (fun a b => time b <= time a) (JsArray.sort compareFn l).
Proof.
  induction l as [|x l IH]; intro Hc; simpl; [constructor|].
  apply insert_sorted.
  - intros y Hy. apply sort_In in Hy. apply Hc; [now left|now right].
  - apply IH. intros a b Ha Hb. apply Hc; now right.
Qed.

End SortOrder.

Section TrackingPage.

Lemma StronglySorted_weaken {A : Type} (R R' : A -> A -> Prop) (l : list A) :
  (forall x y, In x l -> In y l -> R x y -> R' x y) ->
  StronglySorted R l -> StronglySorted R' l.
Proof.
  intros H Hs. induction Hs as [|x l Hs IH Hx]; constructor.
  - apply IH. intros a b Ha Hb. apply H; now right.
  - rewrite Forall_forall in *. intros y Hy.
    apply H; [now left|now right|now apply Hx].
Qed.

Lemma entry_labelTime (r0 : Recipe) (rs : list Recipe) :
  plausibleDay r0 -> labelTime (entryOf r0 rs) = Some (timeIn2025 r0).
Proof. intro H. unfold labelTime, entryOf. simpl. now apply label_read_back. Qed.

Lemma qualifyingOn_head (key : string) (recipes : list Recipe)
  (r0 : Recipe) (rest : list Recipe) :
  qualifyingOn key recipes = r0 :: rest ->
  In r0 recipes /\ qualifies r0 = true /\ dayKeyOf r0 = key.
Proof.
  intro H. apply (qualifyingOn_In key recipes r0). rewrite H. now left.
Qed.

(** Among the days of 2025, a later time value means a later month, or the
    same month and a later day of the month. *)
Lemma timeIn2025_order (r1 r2 : Recipe) :
  inCalendar2025 r1 -> inCalendar2025 r2 ->
  timeIn2025 r1 <= timeIn2025 r2 -> monthDayNotAfter r1 r2.
Proof.
  unfold inCalendar2025, monthDayNotAfter, timeIn2025, JsDate.MakeDay.
  change (JsDate.InLeapYear 2025) with false. cbn [andb].
  unfold JsDate.msPerDay.
  destruct (created_at r1) as [y1 m1 d1 h1 n1].
  destruct (created_at r2) as [y2 m2 d2 h2 n2]. cbn [month date].
  intros [Hm1 Hd1] [Hm2 Hd2].
  destruct m1 as [|[|[|[|[|[|[|[|[|[|[|[|m1]]]]]]]]]]]]; [.. | lia];
    (destruct m2 as [|[|[|[|[|[|[|[|[|[|[|[|m2]]]]]]]]]]]]; [.. | lia]);
    cbn [nth daysInMonth2025 JsDate.daysBeforeMonth] in *; lia.
Qed.

(** X3.  the order of the days.  When the dates of the qualifying recipes have
    a month and a day of the month from 1 to 31, every day of the list is
    read by the sort as the day of 2025 with the month and the day of the
    month of its first qualifying recipe (a day past the end of the month
    counted into the next month), and the list is in descending order of
    these days of 2025.  When moreover each of these dates is a day of 2025
    (none is a 29 February), no day of the list has a month and a day of
    the month before those of a day listed after it, whatever the years.
    A 29 February is read as the 1 March and ties with it: recipes of
    2024-02-29 and 2023-03-01 are listed in the order of the input. *)
Theorem days_ordered_as_days_of_2025 (recipes : list Recipe) :
  (forall r, In r recipes -> qualifies r = true -> plausibleDay r) ->
  (forall dy, In dy (nutrientHistoryData recipes) ->
     exists key r0 rest,
       qualifyingOn key recipes = r0 :: rest
       /\ dy = entryOf r0 (r0 :: rest)
       /\ labelTime dy = Some (timeIn2025 r0))
  /\ StronglySorted
       (fun x y => exists tx ty, labelTime x = Some tx
                                 /\ labelTime y = Some ty /\ ty <= tx)
       (nutrientHistoryData recipes)
  /\ ((forall r, In r recipes -> qualifies r = true -> inCalendar2025 r) ->
      StronglySorted
        (fun x y => forall rx ry,
           In rx recipes -> qualifies rx = true -> x.(day) = dayLabelOf rx ->
           In ry recipes -> qualifies ry = true -> y.(day) = dayLabelOf ry ->
           monthDayNotAfter ry rx)
        (nutrientHistoryData recipes))
  /\ map day (nutrientHistoryData leapDayThenMarch) = ["Feb 29"; "Mar 1"]
  /\ map day (nutrientHistoryData (rev leapDayThenMarch))
     = ["Mar 1"; "Feb 29"]
  /\ map labelTime (nutrientHistoryData leapDayThenMarch)
     = [Some 1740787200000; Some 1740787200000].
Proof.
  intro Hvalid.
  assert (Hall : forall dy, In dy (nutrientHistoryData recipes) ->
            exists key r0 rest,
              qualifyingOn key recipes = r0 :: rest
              /\ dy = entryOf r0 (r0 :: rest)
              /\ labelTime dy = Some (timeIn2025 r0)).
  { intros dy Hdy. apply history_In in Hdy.
    destruct Hdy as (key & r0 & rest & Hq & ->).
    destruct (qualifyingOn_head _ _ _ _ Hq) as (Hin & Hqr & _).
    exists key, r0, rest. repeat split; try assumption.
    apply entry_labelTime. now apply Hvalid. }
  assert (Hsorted : StronglySorted
            (fun x y => exists tx ty, labelTime x = Some tx
                                      /\ labelTime y = Some ty /\ ty <= tx)
            (nutrientHistoryData recipes)).
  { set (time := fun dy => match labelTime dy with Some t => t | None => 0 end).
    apply (StronglySorted_weaken (fun a b => time b <= time a)).
    - intros x y Hx Hy Hxy.
      destruct (Hall x Hx) as (kx & rx & restx & _ & _ & Ex).
      destruct (Hall y Hy) as (ky & ry & resty & _ & _ & Ey).
      exists (timeIn2025 rx), (timeIn2025 ry). repeat split; try assumption.
      unfold time in Hxy. now rewrite Ex, Ey in Hxy.
    - unfold nutrientHistoryData. apply sort_sorted.
      intros x y Hx Hy.
      assert (Hx' : In x (nutrientHistoryData recipes))
        by (unfold nutrientHistoryData; now apply sort_In).
      assert (Hy' : In y (nutrientHistoryData recipes))
        by (unfold nutrientHistoryData; now apply sort_In).
      destruct (Hall x Hx') as (kx & rx & restx & _ & _ & Ex).
      destruct (Hall y Hy') as (ky & ry & resty & _ & _ & Ey).
      unfold compareDays, time. fold (labelTime x). fold (labelTime y).
      now rewrite Ex, Ey. }
  split; [exact Hall|]. split; [exact Hsorted|].
  split; [|repeat split; reflexivity].
  intro Hcal. revert Hsorted. apply StronglySorted_weaken.
  intros x y _ _ (tx & ty & Ex & Ey & Hle)
         rx ry Hrx Hqx Hlx Hry Hqy Hly.
  unfold labelTime in Ex, Ey. rewrite Hlx in Ex. rewrite Hly in Ey.
  rewrite (label_read_back rx (Hvalid rx Hrx Hqx)) in Ex.
  rewrite (label_read_back ry (Hvalid ry Hry Hqy)) in Ey.
  injection Ex as <-. injection Ey as <-.
  apply timeIn2025_order; [now apply Hcal|now apply Hcal|exact Hle].
Qed.

Lemma days_ordered_as_days_of_2025_witness :
  map labelTime (nutrientHistoryData acrossNewYear)
  = [Some 1767139200000; Some 1735862400000; Some 1735689600000]
  /\ StronglySorted
       (fun x y => exists tx ty, labelTime x = Some tx
                                 /\ labelTime y = Some ty /\ ty <= tx)
       (nutrientHistoryData acrossNewYear).
Proof.
  split; [reflexivity|].
  refine (proj1 (proj2 (days_ordered_as_days_of_2025 acrossNewYear _))).
  intros r Hr _. unfold plausibleDay.
  destruct Hr as [<-|[<-|[<-|[]]]]; simpl; lia.
Defined.

(** The keys of the map are the day keys of the qualifying recipes. *)
Lemma groupByDay_keys_In (recipes : list Recipe) (key : string) :
  In key (JsMap.keys (groupByDay recipes))
  <-> In key (map dayKeyOf (filter qualifies recipes)).
Proof.
  split.
  - intro H. unfold JsMap.keys in H. apply in_map_iff in H.
    destruct H as ([k v] & <- & Hin). simpl.
    apply In_get in Hin; [|apply groupByDay_keys_NoDup].
    rewrite groupByDay_get in Hin.
    destruct (qualifyingOn k recipes) as [|r0 rest] eqn:Hq; [discriminate|].
    destruct (qualifyingOn_head _ _ _ _ Hq) as (Hr & Hqr & <-).
    apply in_map, filter_In. now split.
  - intro H. apply in_map_iff in H. destruct H as (r & <- & Hr).
    apply filter_In in Hr. destruct Hr as [Hr Hq].
    destruct (JsMap.get (dayKeyOf r) (groupByDay recipes)) as [v|] eqn:Hg.
    + apply get_In in Hg. unfold JsMap.keys.
      change (dayKeyOf r) with (fst (dayKeyOf r, v)). now apply in_map.
    + rewrite groupByDay_get in Hg.
      assert (Hin : In r (qualifyingOn (dayKeyOf r) recipes)).
      { unfold qualifyingOn. apply filter_In. split; [exact Hr|].
        now rewrite Hq, String.eqb_refl. }
      destruct (qualifyingOn (dayKeyOf r) recipes); [destruct Hin|discriminate].
Qed.

Lemma groupByDay_entries_have_meals (recipes : list Recipe) (v : NutrientData) :
  In v (JsMap.values (groupByDay recipes)) ->
  exists dy, dayEntry v = [dy].
Proof.
  intro H. unfold JsMap.values in H. apply in_map_iff in H.
  destruct H as ([k v'] & <- & Hin). simpl.
  apply In_get in Hin; [|apply groupByDay_keys_NoDup].
  rewrite groupByDay_get in Hin.
  destruct (qualifyingOn k recipes) as [|r0 rest]; [discriminate|].
  injection Hin as <-. rewrite dayEntry_entryOf. eauto.
Qed.

Lemma flat_map_singletons {A B : Type} (f : A -> list B) (l : list A) :
  (forall x, In x l -> exists y, f x = [y]) ->
  List.length (flat_map f l) = List.length l.
Proof.
  induction l as [|x l IH]; intro H; [reflexivity|].
  simpl. rewrite length_app, IH by (intros; apply H; now right).
  destruct (H x (or_introl eq_refl)) as [y ->]. reflexivity.
Qed.

(** X2.  one day for each day key.  The day list has as many entries as there
    are different day keys among the qualifying recipes. *)
Theorem one_day_per_day_key (recipes : list Recipe) :
  List.length (nutrientHistoryData recipes)
  = List.length (nodup string_dec (map dayKeyOf (filter qualifies recipes))).
Proof.
  unfold nutrientHistoryData.
  rewrite (Permutation_length (sort_perm compareDays _)).
  unfold buildHistory.
  rewrite flat_map_singletons by apply groupByDay_entries_have_meals.
  unfold JsMap.values. rewrite length_map.
  rewrite <- (length_map fst). fold (JsMap.keys (groupByDay recipes)).
  apply Permutation_length, NoDup_Permutation.
  - apply groupByDay_keys_NoDup.
  - apply NoDup_nodup.
  - intro key. rewrite nodup_In. apply groupByDay_keys_In.
Qed.

Lemma history_nil_iff (recipes : list Recipe) :
  nutrientHistoryData recipes = []
  <-> forall r, In r recipes -> qualifies r = false.
Proof.
  split.
  - intros H r Hr. destruct (qualifies r) eqn:Hq; [|reflexivity].
    exfalso.
    assert (Hin : In r (qualifyingOn (dayKeyOf r) recipes)).
    { unfold qualifyingOn. apply filter_In. split; [exact Hr|].
      now rewrite Hq, String.eqb_refl. }
    destruct (qualifyingOn (dayKeyOf r) recipes) as [|r0 rest] eqn:E;
      [destruct Hin|].
    assert (Hd : In (entryOf r0 (r0 :: rest)) (nutrientHistoryData recipes)).
    { apply history_In. now exists (dayKeyOf r), r0, rest. }
    rewrite H in Hd. destruct Hd.
  - intro H. destruct (nutrientHistoryData recipes) as [|dy l] eqn:E;
      [reflexivity|].
    assert (Hd : In dy (nutrientHistoryData recipes))
      by (rewrite E; now left).
    apply history_In in Hd. destruct Hd as (key & r0 & rest & Hq & _).
    destruct (qualifyingOn_head _ _ _ _ Hq) as (Hr & Hqr & _).
    rewrite (H r0 Hr) in Hqr. discriminate.
Qed.

Lemma logs_keep_state {A : Type} (message : string) (l : list A) :
  forall st,
    (fold_left (fun st _ => consoleLog message st) l st).(loading)
    = st.(loading)
    /\ (fold_left (fun st _ => consoleLog message st) l st).(nutrientHistory)
       = st.(nutrientHistory).
Proof.
  induction l as [|x l IH]; intro st; simpl; [auto|].
  destruct (IH (consoleLog message st)) as [-> ->]. auto.
Qed.

Lemma fetch_success_state (user : string) (response : Response)
  (st : PageState) :
  response.(error) = None ->
  (fetchNutrientData (Some user) (Fulfilled response) st).(nutrientHistory)
  = nutrientHistoryData (recipesOf response)
  /\ (fetchNutrientData (Some user) (Fulfilled response) st).(loading)
     = false.
Proof.
  intro He.
  unfold fetchNutrientData, beforeAwait, afterAwait, tryAfterAwait, recipesOf.
  rewrite He. destruct response.(data) as [[|r l]|]; try (split; reflexivity).
  cbv zeta.
  destruct (nutrientHistoryData (r :: l)); split; reflexivity.
Qed.

(** X5.  what the history tab shows after a fetch that did not fail.  The
    history is the day list of the recipes of the response, whatever it was
    before; the tab shows no spinner; it shows the message of
    [renderNoDataMessage] exactly when no recipe of the response qualifies;
    otherwise it shows one card for each day of the list, and the line of a
    card counts at least one meal, as many as the card has meal cards. *)
Theorem history_tab_after_fetch (user : string) (response : Response)
  (st : PageState) :
  response.(error) = None ->
  (fetchNutrientData (Some user) (Fulfilled response) st).(nutrientHistory)
  = nutrientHistoryData (recipesOf response)
  /\ renderHistoryTab (fetchNutrientData (Some user) (Fulfilled response) st)
     <> Spinner
  /\ (renderHistoryTab (fetchNutrientData (Some user) (Fulfilled response) st)
      = NoDataMessage
      <-> forall r, In r (recipesOf response) -> qualifies r = false)
  /\ ((exists r, In r (recipesOf response) /\ qualifies r = true) ->
      renderHistoryTab (fetchNutrientData (Some user) (Fulfilled response) st)
      = DayCards (map dayCard (nutrientHistoryData (recipesOf response)))
      /\ Forall (fun c => exists n, (1 <= n)%nat
                                    /\ c.(card_description) = mealsTracked n
                                    /\ List.length c.(meal_cards) = n)
                (map dayCard (nutrientHistoryData (recipesOf response)))).
Proof.
  intro He. destruct (fetch_success_state user response st He) as [Hh Hl].
  unfold renderHistoryTab. rewrite Hl, Hh.
  split; [reflexivity|]. split; [|split].
  - now destruct (nutrientHistoryData (recipesOf response)).
  - rewrite <- history_nil_iff.
    destruct (nutrientHistoryData (recipesOf response)); split;
      intro H; try reflexivity; discriminate H.
  - intros (r & Hr & Hq).
    destruct (nutrientHistoryData (recipesOf response)) as [|dy l] eqn:E.
    + pose proof (proj1 (history_nil_iff _) E r Hr) as E'.
      rewrite E' in Hq. discriminate.
    + split; [reflexivity|]. rewrite <- E. apply Forall_forall.
      intros c Hc. apply in_map_iff in Hc. destruct Hc as (d & <- & Hd).
      apply history_In in Hd. destruct Hd as (key & r0 & rest & _ & ->).
      exists (S (List.length rest)). simpl.
      rewrite !length_map. repeat split. lia.
Qed.

Lemma history_tab_after_fetch_witness :
  renderHistoryTab
    (fetchNutrientData (Some "u")
       (Fulfilled {| data := Some oneMealAmongFive; error := None |})
       {| loading := true; nutrientHistory := []; console := [] |})
  = DayCards
      [ {| card_title := "May 2";
           card_description := "1 meal tracked";
           summary_chart :=
             [ {| slice_name := "Protein"; slice_value := 0;
                  slice_percentage := 0; slice_color := "#4ade80" |};
               {| slice_name := "Carbs"; slice_value := 0;
                  slice_percentage := 0; slice_color := "#facc15" |};
               {| slice_name := "Fat"; slice_value := 0;
                  slice_percentage := 0; slice_color := "#60a5fa" |} ];
           meal_cards :=
             [ {| meal_title := "Meal at 12:30 PM";
                  meal_chart :=
                    [ {| slice_name := "Protein"; slice_value := 0;
                         slice_percentage := 0; slice_color := "#4ade80" |};
                      {| slice_name := "Carbs"; slice_value := 0;
                         slice_percentage := 0; slice_color := "#facc15" |};
                      {| slice_name := "Fat"; slice_value := 0;
                         slice_percentage := 0;
                         slice_color := "#60a5fa" |} ] |} ] |} ].
Proof.
  refine (proj1 (proj2 (proj2 (proj2
            (history_tab_after_fetch "u"
               {| data := Some oneMealAmongFive; error := None |}
               {| loading := true; nutrientHistory := []; console := [] |}
               eq_refl))) _)).
  exists (recipeAt "kept" 2025 4 2 ["Boil"; "Iron: 3mg (17%)"]).
  split; [|reflexivity]. simpl. tauto.
Defined.

(** X6.  the summary chart of a day.  Every day of the list is the day of
    the qualifying recipes of one day key, and the chart of its
    [averageData] is the chart of the first of them (the first meal of the
    day): the slices Protein, Carbs and Fat, then a slice Fiber exactly when
    that first recipe has a positive value of fiber; no slice has a negative
    value or percentage.  A day whose first meal has no fiber and whose
    second meal has fiber shows no slice Fiber. *)
Theorem summary_chart_of_a_day (recipes : list Recipe) (dy : NutrientData) :
  In dy (nutrientHistoryData recipes) ->
  exists key r0 rest,
    qualifyingOn key recipes = r0 :: rest
    /\ dy.(day) = dayLabelOf r0
    /\ dy.(meals) = map mealOf (r0 :: rest)
    /\ (dayCard dy).(summary_chart)
       = chartData (pieDataOf (nutrientsOf r0).(macronutrients))
    /\ map slice_name (dayCard dy).(summary_chart)
       = (if 0 <? (field Fiber (nutrientsOf r0)).(value)
          then ["Protein"; "Carbs"; "Fat"; "Fiber"]
          else ["Protein"; "Carbs"; "Fat"])
    /\ Forall (fun s => 0 <= s.(slice_value) /\ 0 <= s.(slice_percentage))
              (dayCard dy).(summary_chart).
Proof.
  intro H. apply history_In in H. destruct H as (key & r0 & rest & Hq & ->).
  exists key, r0, rest. repeat split; try assumption.
  - unfold dayCard, chartData, pieDataOf, entryOf. simpl.
    now destruct (0 <? _).
  - pose proof (extract_nonneg Protein (stepsOf r0)) as Hp.
    pose proof (extract_nonneg Carbs (stepsOf r0)) as Hc.
    pose proof (extract_nonneg Fat (stepsOf r0)) as Hf.
    pose proof (extract_nonneg Fiber (stepsOf r0)) as Hb.
    unfold dayCard, chartData, pieDataOf, entryOf, nutrientsOf. simpl in *.
    destruct (0 <? _); repeat constructor; tauto.
Qed.

Lemma summary_chart_of_a_day_witness :
  map id
    (hd {| day := ""; averageData := initialNutrients; meals := [] |}
        (nutrientHistoryData proteinThenFiber)).(meals)
  = ["eggs"; "oats"]
  /\ map (fun s => (s.(slice_name), s.(slice_value)))
       (dayCard (hd {| day := ""; averageData := initialNutrients;
                       meals := [] |}
                    (nutrientHistoryData proteinThenFiber)))
         .(summary_chart)
     = [("Protein", 12); ("Carbs", 0); ("Fat", 0)].
Proof.
  split; [reflexivity|].
  destruct (summary_chart_of_a_day proteinThenFiber
              (hd {| day := ""; averageData := initialNutrients;
                     meals := [] |}
                  (nutrientHistoryData proteinThenFiber))
              (or_introl eq_refl))
    as (key & r0 & rest & _ & _ & Hmeals & Hchart & _).
  rewrite Hchart, <- (mealNutrients_mealOf r0).
  change (mealNutrients (mealOf r0))
    with (match map mealOf (r0 :: rest) with
          | m :: _ => mealNutrients m
          | [] => initialNutrients
          end).
  rewrite <- Hmeals. reflexivity.
Defined.

End TrackingPage.

Section OtherKeys.

Lemma search_cons_None (re : RegExp.t) (c : ascii) (s : string) :
  RegExp.matchHere re (String c s) = None ->
  RegExp.search re (String c s) = RegExp.search re s.
Proof. intro H. simpl. now rewrite H. Qed.

(** A pattern that starts with a character that is no digit matches
    nowhere inside a run of digits. *)
Lemma search_digits_skip (c : ascii) (re : RegExp.t) (v s : string) :
  Js.isDigit c = false -> Js.allDigits v = true ->
  RegExp.search (RegExp.Char c :: re) (v ++ s)
  = RegExp.search (RegExp.Char c :: re) s.
Proof.
  intros Hc. induction v as [|a v IH]; intro Hv; [reflexivity|].
  simpl in Hv. apply andb_true_iff in Hv. destruct Hv as [Ha Hv].
  cbn [append]. rewrite search_cons_None; [now apply IH|].
  cbn [RegExp.matchHere].
  destruct (Ascii.eqb (Js.canonicalize a) (Js.canonicalize c)) eqn:E;
    [|reflexivity].
  apply Ascii.eqb_eq in E.
  rewrite <- isDigit_canonicalize, <- E, isDigit_canonicalize in Hc.
  congruence.
Qed.

Ltac skip_text :=
  repeat (rewrite search_cons_None by reflexivity).

(** The annotation of one nutrient holds no match of the pattern of
    another. *)
Lemma exec_other_key (k k' : NutrientKey) (v p : string) :
  k' <> k -> isNumeral v -> isNumeral p ->
  RegExp.exec (annotation k v p) (pattern k') = None.
Proof.
  intros Hk [_ Hv] [_ Hp]. unfold RegExp.exec.
  enough (E : RegExp.search (pattern k') (annotation k v p) = None)
    by now rewrite E.
  rewrite pattern_shape.
  destruct k, k'; try congruence; clear Hk;
    unfold annotation;
    cbn [label canonicalUnit append RegExp.chars app];
    skip_text;
    (rewrite search_digits_skip by (reflexivity || assumption));
    skip_text;
    (rewrite search_digits_skip by (reflexivity || assumption));
    skip_text; reflexivity.
Qed.

(** X4.  the fields are read apart.  A step that is the annotation of one
    nutrient, in any case of its letters, leaves the field of every other
    nutrient as it was; a recipe with this step alone has every other field
    at its zero default. *)
Theorem annotation_leaves_other_fields
  (k k' : NutrientKey) (v p step : string) (acc : Nutrients) :
  k' <> k -> isNumeral v -> isNumeral p ->
  sameUpToCase step (annotation k v p) ->
  field k' (processStep acc step) = field k' acc
  /\ field k' (extractNutrients [step]) = zeroField k'.
Proof.
  intros Hk Hv Hp Hs.
  assert (E : field k' (processStep acc step) = field k' acc).
  { rewrite (processStep_sameUpToCase acc _ _ Hs), processStep_field.
    now rewrite (exec_other_key k k' v p Hk Hv Hp). }
  split; [exact E|].
  unfold extractNutrients. simpl.
  rewrite (processStep_sameUpToCase _ _ _ Hs), processStep_field.
  rewrite (exec_other_key k k' v p Hk Hv Hp). apply field_initial.
Qed.

Lemma annotation_leaves_other_fields_witness :
  field Sodium (processStep initialNutrients "IRON: 3mg (17%)")
  = field Sodium initialNutrients
  /\ field Sodium (extractNutrients ["IRON: 3mg (17%)"]) = zeroField Sodium.
Proof.
  refine (annotation_leaves_other_fields Iron Sodium "3" "17"
            "IRON: 3mg (17%)" initialNutrients _ _ _ eq_refl).
  - discriminate.
  - split; [discriminate|reflexivity].
  - split; [discriminate|reflexivity].
Defined.

End OtherKeys.

(** * The day key *)

Section DayKey.

Lemma decimal_allDigits (n : nat) : Js.allDigits (decimal n) = true.
Proof.
  unfold decimal. induction (Nat.to_uint n); simpl; auto.
Qed.

Lemma zeros_allDigits (k : nat) (s : string) :
  Js.allDigits s = true -> Js.allDigits (zeros k s) = true.
Proof. intro H. induction k as [|k IH]; simpl; auto. Qed.

Lemma addLeadingZeros_allDigits (n w : nat) :
  Js.allDigits (addLeadingZeros n w) = true.
Proof. apply zeros_allDigits, decimal_allDigits. Qed.

Lemma readNat_decimal (n : nat) : readNat (decimal n) = Some n.
Proof.
  unfold readNat, decimal. rewrite NilEmpty.usu. simpl.
  now rewrite DecimalNat.Unsigned.of_to.
Qed.

Lemma readNat_zeros (k : nat) (s : string) (n : nat) :
  readNat s = Some n -> readNat (zeros k s) = Some n.
Proof.
  intro H. induction k as [|k IH]; [exact H|].
  unfold readNat in *. cbn [zeros NilEmpty.uint_of_string].
  destruct (NilEmpty.uint_of_string (zeros k s)) as [d|]; [|discriminate].
  simpl in *. exact IH.
Qed.

(** A number is read back from its text, padded or not. *)
Lemma readNat_addLeadingZeros (n w : nat) :
  readNat (addLeadingZeros n w) = Some n.
Proof. apply readNat_zeros, readNat_decimal. Qed.

Lemma addLeadingZeros_inj (a b w : nat) :
  addLeadingZeros a w = addLeadingZeros b w -> a = b.
Proof.
  intro H. pose proof (readNat_addLeadingZeros a w) as Ha.
  rewrite H, readNat_addLeadingZeros in Ha. congruence.
Qed.

(** Two texts of digits followed by a hyphen and more agree part by
    part. *)
Lemma digits_hyphen_inj (s1 s2 t1 t2 : string) :
  Js.allDigits s1 = true -> Js.allDigits s2 = true ->
  s1 ++ String "-" t1 = s2 ++ String "-" t2 -> s1 = s2 /\ t1 = t2.
Proof.
  revert s2. induction s1 as [|a s1 IH]; intros [|b s2] H1 H2 E;
    simpl in *.
  - injection E as ->. auto.
  - injection E as <- _. discriminate H2.
  - injection E as -> _. discriminate H1.
  - injection E as -> E.
    apply andb_true_iff in H1, H2.
    destruct (IH s2 (proj2 H1) (proj2 H2) E) as [-> ->]. auto.
Qed.

(** The day key determines the year, the month and the day of the
    month. *)
Lemma dayKeyOf_inj (r1 r2 : Recipe) :
  dayKeyOf r1 = dayKeyOf r2 <-> sameDate r1 r2 = true.
Proof.
  unfold sameDate. rewrite !andb_true_iff, !Nat.eqb_eq. split.
  - unfold dayKeyOf. cbn [format formatToken]. intro E.
    apply digits_hyphen_inj in E; try apply addLeadingZeros_allDigits.
    destruct E as [Ey E].
    apply digits_hyphen_inj in E; try apply addLeadingZeros_allDigits.
    destruct E as [Em Ed].
    rewrite !string_app_nil_r in Ed.
    apply addLeadingZeros_inj in Ey, Em, Ed. lia.
  - intros [[Ey Em] Ed]. unfold dayKeyOf. cbn [format formatToken].
    now rewrite Ey, Em, Ed.
Qed.

End DayKey.

(** X1.  a day of the list is a calendar day.  The meals of every day of
    the list are the meals of the qualifying recipes created on one and the
    same calendar day (year, month and day of the month), all of them, in
    the order of the input. *)
Theorem days_are_calendar_days (recipes : list Recipe) (dy : NutrientData) :
  In dy (nutrientHistoryData recipes) ->
  exists r0,
    In r0 recipes /\ qualifies r0 = true
    /\ dy.(meals)
       = map mealOf
           (filter (fun r => qualifies r && sameDate r r0) recipes).
Proof.
  intro H. apply history_In in H. destruct H as (key & r0 & rest & Hq & ->).
  destruct (qualifyingOn_head _ _ _ _ Hq) as (Hr & Hqr & Hk).
  exists r0. repeat split; try assumption.
  cbn [entryOf meals]. f_equal. rewrite <- Hq. unfold qualifyingOn.
  apply filter_ext. intro r. f_equal. subst key.
  destruct (sameDate r r0) eqn:E.
  - apply String.eqb_eq. now apply dayKeyOf_inj.
  - apply String.eqb_neq. intro K. apply dayKeyOf_inj in K. congruence.
Qed.

Lemma days_are_calendar_days_witness :
  map id
    (hd {| day := ""; averageData := initialNutrients; meals := [] |}
        (nutrientHistoryData twoMealsOneDay)).(meals)
  = ["first"; "second"].
Proof.
  assert (Hin : In (hd {| day := ""; averageData := initialNutrients;
                          meals := [] |}
                       (nutrientHistoryData twoMealsOneDay))
                   (nutrientHistoryData twoMealsOneDay))
    by (left; reflexivity).
  destruct (days_are_calendar_days _ _ Hin) as (r0 & Hr & _ & Hm).
  rewrite Hm.
  destruct Hr as [<-|[<-|[]]]; reflexivity.
Defined.

(** * The flash cards *)

Section FlashCardFacts.
Import FlashCards.
Variable recipeCards : list RecipeCard.

Lemma click_in_range (i : Z) (c : Click) :
  0 <= i < totalCards recipeCards ->
  0 <= click recipeCards i c < totalCards recipeCards.
Proof.
  intro H. destruct c; unfold click, handleNext, handlePrevious.
  - destruct (i <? totalCards recipeCards - 1) eqn:E; [|exact H].
    apply Z.ltb_lt in E. lia.
  - destruct (0 <? i) eqn:E; [|exact H]. apply Z.ltb_lt in E. lia.
Qed.

Lemma clicks_in_range (clicks : list Click) :
  forall i, 0 <= i < totalCards recipeCards ->
    0 <= fold_left (click recipeCards) clicks i < totalCards recipeCards.
Proof.
  induction clicks as [|c clicks IH]; intros i H; [exact H|].
  simpl. apply IH. now apply click_in_range.
Qed.

Lemma clicks_without_cards (clicks : list Click) :
  recipeCards = [] -> afterClicks recipeCards clicks = 0.
Proof.
  intros ->. unfold afterClicks.
  induction clicks as [|c clicks IH]; [reflexivity|].
  simpl. now destruct c.
Qed.

Lemma at_index_in_range {A : Type} (l : list A) (i : Z) :
  0 <= i < Z.of_nat (List.length l) -> exists x, at_index l i = Some x.
Proof.
  intro H. unfold at_index.
  destruct (i <? 0) eqn:E; [apply Z.ltb_lt in E; lia|].
  destruct (nth_error l (Z.to_nat i)) as [x|] eqn:N; [now exists x|].
  apply nth_error_None in N. lia.
Qed.

Lemma render_defined (recipeImage : string) (i : Z) :
  0 <= i < totalCards recipeCards -> render recipeCards recipeImage i <> None.
Proof.
  intro H. unfold render.
  destruct (at_index_in_range recipeCards i H) as [x ->]. discriminate.
Qed.

End FlashCardFacts.

(** X7.  the index never leaves the cards.  After any run of clicks on the
    two buttons the card of the index exists, so the component renders,
    unless there is no card at all, in which case it cannot render even
    once. *)
Theorem flash_cards_render_iff_some_card
  (recipeCards : list FlashCards.RecipeCard) (recipeImage : string)
  (clicks : list FlashCards.Click) :
  (recipeCards <> [] ->
   0 <= FlashCards.afterClicks recipeCards clicks
     < FlashCards.totalCards recipeCards)
  /\ (FlashCards.render recipeCards recipeImage
        (FlashCards.afterClicks recipeCards clicks) = None
      <-> recipeCards = []).
Proof.
  assert (R : recipeCards <> [] ->
              0 <= FlashCards.afterClicks recipeCards clicks
                < FlashCards.totalCards recipeCards).
  { intro H. apply clicks_in_range. unfold FlashCards.totalCards.
    destruct recipeCards; [congruence|]. simpl. lia. }
  split; [exact R|]. split.
  - intro H. destruct recipeCards as [|c l]; [reflexivity|].
    exfalso. apply (render_defined (c :: l) recipeImage _ (R ltac:(discriminate))).
    exact H.
  - intros ->. now rewrite clicks_without_cards.
Qed.

Section FlashCardView.
Import FlashCards.

Lemma at_index_Some_range {A : Type} (l : list A) (i : Z) (x : A) :
  at_index l i = Some x -> 0 <= i < Z.of_nat (List.length l).
Proof.
  unfold at_index. destruct (i <? 0) eqn:E; [discriminate|].
  apply Z.ltb_ge in E. intro H.
  assert (N : nth_error l (Z.to_nat i) <> None) by congruence.
  apply nth_error_Some in N. lia.
Qed.

Lemma dots_length {A : Type} (f : A -> Z -> bool) (l : list A) :
  forall k, List.length (mapi f l k) = List.length l.
Proof. induction l as [|x l IH]; intro k; simpl; [reflexivity|now rewrite IH]. Qed.

Lemma dots_before {A : Type} (i : Z) (l : list A) :
  forall k, i < k ->
    count_occ Bool.bool_dec (mapi (fun _ index => index =? i) l k) true = 0%nat.
Proof.
  induction l as [|x l IH]; intros k H; simpl; [reflexivity|].
  destruct (k =? i) eqn:E; [apply Z.eqb_eq in E; lia|].
  destruct (Bool.bool_dec false true); [discriminate|]. apply IH. lia.
Qed.

Lemma dots_one {A : Type} (i : Z) (l : list A) :
  forall k, k <= i < k + Z.of_nat (List.length l) ->
    count_occ Bool.bool_dec (mapi (fun _ index => index =? i) l k) true = 1%nat
    /\ nth_error (mapi (fun _ index => index =? i) l k) (Z.to_nat (i - k))
       = Some true.
Proof.
  induction l as [|x l IH]; intros k H; [simpl in H; lia|].
  cbn [mapi]. destruct (k =? i) eqn:E.
  - apply Z.eqb_eq in E. subst k. rewrite Z.sub_diag. split; [|reflexivity].
    rewrite count_occ_cons_eq by reflexivity.
    now rewrite dots_before by lia.
  - apply Z.eqb_neq in E.
    assert (H' : k + 1 <= i < k + 1 + Z.of_nat (List.length l))
      by (simpl List.length in H; lia).
    destruct (IH (k + 1) H') as [Hc Hn]. split.
    + now rewrite count_occ_cons_neq by discriminate.
    + replace (Z.to_nat (i - k)) with (S (Z.to_nat (i - (k + 1)))) by lia.
      exact Hn.
Qed.

End FlashCardView.

(** X8.  the buttons and the dots agree with the index.  Whenever the
    component renders, a button is disabled exactly when a click on it would
    leave the index as it is, there is one dot for each card, and exactly one
    dot is highlighted, the one of the index. *)
Theorem flash_cards_view_matches_index
  (recipeCards : list FlashCards.RecipeCard) (recipeImage : string)
  (i : Z) (v : FlashCards.View) :
  FlashCards.render recipeCards recipeImage i = Some v ->
  (v.(FlashCards.previousDisabled) = true
   <-> FlashCards.handlePrevious i = i)
  /\ (v.(FlashCards.nextDisabled) = true
      <-> FlashCards.handleNext recipeCards i = i)
  /\ List.length v.(FlashCards.dots) = List.length recipeCards
  /\ count_occ Bool.bool_dec v.(FlashCards.dots) true = 1%nat
  /\ nth_error v.(FlashCards.dots) (Z.to_nat i) = Some true.
Proof.
  unfold FlashCards.render.
  destruct (FlashCards.at_index recipeCards i) as [c|] eqn:E; [|discriminate].
  apply at_index_Some_range in E. intros [= <-]. simpl.
  unfold FlashCards.handlePrevious, FlashCards.handleNext,
    FlashCards.totalCards.
  repeat split.
  - intro H. apply Z.eqb_eq in H. subst i. reflexivity.
  - intro H. apply Z.eqb_eq. destruct (0 <? i) eqn:L; [lia|].
    apply Z.ltb_ge in L. lia.
  - intro H. apply Z.eqb_eq in H.
    destruct (i <? _) eqn:L; [apply Z.ltb_lt in L; lia|reflexivity].
  - intro H. apply Z.eqb_eq.
    destruct (i <? _) eqn:L; [lia|]. apply Z.ltb_ge in L. lia.
  - apply dots_length.
  - apply (dots_one i recipeCards 0). lia.
  - replace (Z.to_nat i) with (Z.to_nat (i - 0)) by (f_equal; lia).
    apply (dots_one i recipeCards 0). lia.
Qed.

Lemma flash_cards_view_matches_index_witness :
  FlashCards.handlePrevious 0 = 0
  /\ FlashCards.handleNext
       [ {| FlashCards.card := 1; FlashCards.content := "Lentil soup" |};
         {| FlashCards.card := 2; FlashCards.content := "Rinse the lentils" |} ]
       0 <> 0.
Proof.
  pose proof (flash_cards_view_matches_index
                [ {| FlashCards.card := 1; FlashCards.content := "Lentil soup" |};
                  {| FlashCards.card := 2;
                     FlashCards.content := "Rinse the lentils" |} ]
                "soup.jpg" 0 _ eq_refl) as (Hp & Hn & _).
  split.
  - apply Hp. reflexivity.
  - intro H. apply Hn in H. discriminate H.
Defined.

(** X9.  a run of clicks on one button.  From a card of the deck, [n] clicks
    on Next go [n] cards on and stop at the last card; [n] clicks on
    Previous go [n] cards back and stop at the first. *)
Theorem flash_cards_runs_saturate
  (recipeCards : list FlashCards.RecipeCard) (i : Z) (n : nat) :
  0 <= i < FlashCards.totalCards recipeCards ->
  fold_left (FlashCards.click recipeCards) (repeat FlashCards.Next n) i
  = Z.min (i + Z.of_nat n) (FlashCards.totalCards recipeCards - 1)
  /\ fold_left (FlashCards.click recipeCards) (repeat FlashCards.Previous n) i
     = Z.max (i - Z.of_nat n) 0.
Proof.
  revert i. induction n as [|n IH]; intros i H.
  - simpl. lia.
  - cbn [repeat fold_left].
    pose proof (click_in_range recipeCards i FlashCards.Next H) as Hn.
    pose proof (click_in_range recipeCards i FlashCards.Previous H) as Hp.
    destruct (IH _ Hn) as [-> _]. destruct (IH _ Hp) as [_ ->].
    unfold FlashCards.click, FlashCards.handleNext, FlashCards.handlePrevious.
    destruct (i <? _) eqn:A; destruct (0 <? i) eqn:B;
      try apply Z.ltb_lt in A; try apply Z.ltb_ge in A;
      try apply Z.ltb_lt in B; try apply Z.ltb_ge in B; lia.
Qed.

Lemma flash_cards_runs_saturate_witness :
  fold_left
    (FlashCards.click
       [ {| FlashCards.card := 1; FlashCards.content := "Lentil soup" |};
         {| FlashCards.card := 2; FlashCards.content := "Rinse the lentils" |};
         {| FlashCards.card := 3; FlashCards.content := "Simmer" |} ])
    (repeat FlashCards.Next 5) 0
  = 2.
Proof.
  refine (proj1 (flash_cards_runs_saturate _ 0 5 _)).
  vm_compute. split; [discriminate|reflexivity].
Defined.

(** * The goals wizard *)

Section GoalsFacts.
Import Goals.
Context {JsNumber : Type} {MealPlan : Type}.
Variable numberText : JsNumber -> string.
Variable weightDifference : string -> string -> string.

Lemma truthy_true (s : string) : truthy s = true <-> s <> EmptyString.
Proof.
  unfold truthy. rewrite negb_true_iff. apply String.eqb_neq.
Qed.

Lemma wizardInvariant_mount (user : string) (fetched : Settled GoalResponse) :
  wizardInvariant
    (fst (mount (Some user) fetched (@initialState JsNumber MealPlan))).
Proof.
  destruct fetched as [|[rows [e|]]]; simpl;
    repeat split; intros; simpl in *; congruence.
Qed.

(** The guards of the buttons, read as facts about the answers. *)
Lemma guard_basic_info (a h : string) :
  negb (negb (truthy a) || negb (truthy h)) = true ->
  a <> EmptyString /\ h <> EmptyString.
Proof.
  rewrite negb_true_iff, orb_false_iff, !negb_false_iff, !truthy_true. tauto.
Qed.

Lemma guard_weight_details (t : GoalType) (c tw tf : string) :
  negb (negb (truthy c)
        || (negb (isMaintain t) && (negb (truthy tw) || negb (truthy tf))))
  = true ->
  c <> EmptyString
  /\ (t = maintain \/ (tw <> EmptyString /\ tf <> EmptyString)).
Proof.
  rewrite negb_true_iff, orb_false_iff, negb_false_iff, truthy_true.
  intros [Hc H]. split; [exact Hc|].
  destruct t; simpl in H; try (left; reflexivity); right;
    apply orb_false_iff in H; rewrite !negb_false_iff, !truthy_true in H;
    exact H.
Qed.

Lemma guard_calculate (busy : bool) (m : string) :
  negb (busy || negb (truthy m)) = true ->
  busy = false /\ m <> EmptyString.
Proof.
  rewrite negb_true_iff, orb_false_iff, negb_false_iff, truthy_true. tauto.
Qed.

Ltac use_invariant :=
  repeat match goal with
         | H : ?a <> ?b -> _ |- _ =>
             lazymatch type of a with
             | FormStep =>
                 first [ specialize (H ltac:(discriminate)) | clear H ]
             end
         | H : ?a = ?b -> _ |- _ =>
             lazymatch type of a with
             | FormStep => first [ specialize (H eq_refl) | clear H ]
             end
         end.

Ltac settle :=
  simpl; repeat split; intros; simpl in *; try congruence; try tauto.

Lemma wizardInvariant_action (user : string)
  (st : @State JsNumber MealPlan) (a : @Action JsNumber MealPlan) :
  wizardInvariant st -> offered st a = true ->
  wizardInvariant
    (fst (perform numberText weightDifference (Some user) st a)).
Proof.
  destruct st as [ld ca ge step [gt cw tw tf ag he al mp dr] cr pl sid].
  unfold wizardInvariant, offered. cbn [loading calculating generatingMealPlan
    currentStep userGoal calorieResults mealPlan goalType age height
    currentWeight targetWeight timeframe mealsPerDay].
  intros (-> & -> & -> & Hg & Hb & Hw & Hr & Hm) Hoff.
  destruct step, a; try discriminate Hoff; use_invariant.
  - (* goal selection: a goal is chosen *)
    destruct t; try discriminate Hoff; settle.
  - (* basic info *)
    destruct name; try discriminate Hoff; settle.
  - settle.
  - apply guard_basic_info in Hoff. settle.
  - (* weight details *)
    destruct name; try discriminate Hoff; settle.
  - settle.
  - apply guard_weight_details in Hoff. settle.
  - (* activity details *)
    destruct name; try discriminate Hoff; settle.
  - settle.
  - settle.
  - (* dietary details *)
    destruct name; try discriminate Hoff; settle.
  - settle.
  - destruct calculated as [|r];
      [|destruct saved as [|[rows [e|]]]; [| |destruct rows as [[|row l]|]]];
      settle.
  - (* results *)
    settle.
  - destruct generated as [|p]; settle.
  - (* meal plan *)
    settle.
  - settle.
  - settle.
Qed.

Lemma reachable_invariant (user : string) (st : @State JsNumber MealPlan) :
  reachable numberText weightDifference user st -> wizardInvariant st.
Proof.
  induction 1 as [fetched | st a _ IH Hoff].
  - apply wizardInvariant_mount.
  - now apply wizardInvariant_action.
Qed.

Lemma runActions_reachable (user : string) (l : list (@Action JsNumber MealPlan)) :
  forall st st',
    reachable numberText weightDifference user st ->
    runActions numberText weightDifference user st l = Some st' ->
    reachable numberText weightDifference user st'.
Proof.
  induction l as [|a l IH]; intros st st' Hr H; simpl in H.
  - injection H as <-. exact Hr.
  - destruct (offered st a) eqn:Hoff; [|discriminate].
    apply (IH _ _ (reach_action _ _ _ _ _ Hr Hoff) H).
Qed.

(** X12.  the description of a goal is made of answers that were given.
    Along any run of actions the page offers (each handler running to its
    end before the next action), the button that calculates the calories is
    offered only when the goal is chosen and the age, the height, the
    current weight and the meals per day are filled in, and also the target
    weight and the time frame unless the goal is to maintain; the first
    thing the click does is to send the description of these answers. *)
Theorem calculate_sends_complete_answers (user : string)
  (st : @State JsNumber MealPlan) (today : string)
  (calculated : Settled CalorieResults) (saved : Settled SaveResponse) :
  reachable numberText weightDifference user st ->
  offered st (ClickCalculate today calculated saved) = true ->
  st.(currentStep) = dietary_details
  /\ answersComplete st.(userGoal)
  /\ hd_error (snd (perform numberText weightDifference (Some user) st
                      (ClickCalculate today calculated saved)))
     = Some (CalorieRequest (goalDescription weightDifference st.(userGoal))).
Proof.
  intros Hr Hoff. apply reachable_invariant in Hr.
  destruct Hr as (Hl & Hc & _ & Hg & Hb & Hw & _).
  unfold offered in Hoff. rewrite Hl in Hoff.
  destruct st.(currentStep) eqn:Hs; try discriminate Hoff.
  apply guard_calculate in Hoff. destruct Hoff as [_ Hm].
  split; [reflexivity|]. split.
  - unfold answersComplete.
    specialize (Hg ltac:(discriminate)).
    specialize (Hb ltac:(discriminate) ltac:(discriminate)).
    specialize (Hw ltac:(discriminate) ltac:(discriminate)
                  ltac:(discriminate)).
    tauto.
  - simpl. unfold handleSubmitGoal.
    destruct calculated as [|r]; [reflexivity|].
    destruct saved as [|[rows [e|]]]; try reflexivity.
    destruct rows as [[|row l]|]; reflexivity.
Qed.

(** X13.  the page always shows a card.  Along any run of actions the page
    offers, the page is past its spinner and shows the card of its step: on
    the step of the results the results are there, and on the step of the
    meal plan both the meal plan and the results are there. *)
Theorem wizard_always_shows_a_card (user : string)
  (st : @State JsNumber MealPlan) :
  reachable numberText weightDifference user st ->
  st.(loading) = false
  /\ showsCard st = true
  /\ (st.(currentStep) = meal_plan -> st.(calorieResults) <> None).
Proof.
  intro Hr. apply reachable_invariant in Hr.
  destruct Hr as (Hl & _ & _ & _ & _ & _ & Hres & Hmp).
  split; [exact Hl|]. split; [|intro H; now apply Hmp].
  unfold showsCard. destruct st.(currentStep); try reflexivity.
  - destruct st.(calorieResults); [reflexivity|]. now elim Hres.
  - destruct st.(mealPlan); [reflexivity|]. now elim (proj1 (Hmp eq_refl)).
Qed.

(** X14.  the request of a meal plan names the calories.  Along any run of
    actions the page offers, the button that generates the meal plan is
    offered only on the results with the results stored, and the first thing
    the click does is to send the requirements, which name the daily
    calories of the stored results. *)
Theorem meal_plan_request_names_calories (user : string)
  (st : @State JsNumber MealPlan) (generated : Settled MealPlan) :
  reachable numberText weightDifference user st ->
  offered st (ClickGenerateMealPlan generated) = true ->
  exists r,
    st.(calorieResults) = Some r
    /\ hd_error (snd (perform numberText weightDifference (Some user) st
                        (ClickGenerateMealPlan generated)))
       = Some (MealPlanRequest (mealPlanRequirements numberText st))
    /\ exists rest,
         mealPlanRequirements numberText st
         = "I need a " ++ numberText r.(daily_calories) ++ rest.
Proof.
  intros Hr Hoff. apply reachable_invariant in Hr.
  destruct Hr as (Hl & _ & _ & _ & _ & _ & _).
  unfold offered in Hoff. rewrite Hl in Hoff.
  destruct st.(currentStep) eqn:Hs; try discriminate Hoff.
  destruct st.(calorieResults) as [r|] eqn:Hc; [|discriminate Hoff].
  exists r. split; [reflexivity|]. split.
  - simpl. unfold handleGenerateMealPlan. now destruct generated.
  - unfold mealPlanRequirements. rewrite Hc. eexists. reflexivity.
Qed.

End GoalsFacts.

Lemma afterSampleRun_reachable :
  Goals.reachable numberToString sampleDifference "u" afterSampleRun.
Proof.
  apply (runActions_reachable numberToString sampleDifference "u" sampleRun
           (fst (Goals.mount (Some "u") Goals.Rejected Goals.initialState))).
  - apply Goals.reach_mount.
  - reflexivity.
Qed.

Lemma calculate_sends_complete_answers_witness :
  hd_error
    (snd (Goals.perform numberToString sampleDifference (Some "u")
            afterSampleRun
            (Goals.ClickCalculate "2025-05-02" Goals.Rejected Goals.Rejected)))
  = Some (Goals.CalorieRequest
            "I currently weigh 81kg and want to lose 6kg in 4 months. I am 34 years old and 172cm tall. My activity level is light and I prefer 3 meals per day.").
Proof.
  exact (proj2 (proj2 (calculate_sends_complete_answers
                         numberToString sampleDifference "u" afterSampleRun
                         "2025-05-02" Goals.Rejected Goals.Rejected
                         afterSampleRun_reachable eq_refl))).
Defined.

Lemma wizard_always_shows_a_card_witness :
  Goals.showsCard afterSampleRun = true.
Proof.
  exact (proj1 (proj2 (wizard_always_shows_a_card
                         numberToString sampleDifference "u" afterSampleRun
                         afterSampleRun_reachable))).
Defined.

(** X10.  the steps of the form.  For a step of the form other than the
    last, Next then Previous comes back to it; Next on the last step and
    Previous on the first change nothing; for a name that is no step of the
    form (the results, the meal plan) [indexOf] gives -1, so Next goes to
    the first step and Previous changes nothing.  The two handlers change
    the step only, and never to the results or the meal plan. *)
Theorem wizard_steps_navigation {JsNumber MealPlan : Type}
  (st : @Goals.State JsNumber MealPlan) :
  (forall s, In s Goals.steps -> s <> Goals.dietary_details ->
     (Goals.handlePreviousStep
        (Goals.handleNextStep s st).(Goals.currentStep)
        (Goals.handleNextStep s st)).(Goals.currentStep) = s)
  /\ Goals.handleNextStep Goals.dietary_details st = st
  /\ Goals.handlePreviousStep Goals.goal_selection st = st
  /\ (forall s, ~ In s Goals.steps ->
        (Goals.handleNextStep s st).(Goals.currentStep)
        = Goals.goal_selection
        /\ Goals.handlePreviousStep s st = st)
  /\ (forall s,
        Goals.handleNextStep s st
        = Goals.setCurrentStep
            (Goals.handleNextStep s st).(Goals.currentStep) st
        /\ Goals.handlePreviousStep s st
           = Goals.setCurrentStep
               (Goals.handlePreviousStep s st).(Goals.currentStep) st
        /\ In (Goals.handleNextStep s st).(Goals.currentStep)
              (st.(Goals.currentStep) :: Goals.steps)
        /\ In (Goals.handlePreviousStep s st).(Goals.currentStep)
              (st.(Goals.currentStep) :: Goals.steps)).
Proof.
  destruct st as [ld ca ge step g cr pl sid].
  split; [|split; [|split; [|split]]].
  - intros s Hs Hd. destruct s; try reflexivity; try congruence;
      simpl in Hs; intuition discriminate.
  - reflexivity.
  - reflexivity.
  - intros s Hs. destruct s; try (split; reflexivity);
      exfalso; apply Hs; simpl; tauto.
  - intro s. destruct s; repeat split; simpl; tauto.
Qed.

(** X11.  what a submission leaves behind.  Whatever the two services
    answer, the click first sends the description of the answers, ends with
    [calculating] off and leaves the answers and the meal plan as they were.
    The step becomes the results exactly when the calculation is fulfilled
    and the update is not rejected, and otherwise stays, with the toast of a
    failed calculation; the results are stored as soon as the calculation
    is fulfilled, even when a rejected update keeps the step; an update that
    answers with an error still leads to the results, with the toast of a
    failed save. *)
Theorem submit_goal_outcomes {JsNumber MealPlan : Type}
  (weightDifference : string -> string -> string)
  (user : option string) (today : string)
  (calculated : Goals.Settled (@Goals.CalorieResults JsNumber))
  (saved : Goals.Settled Goals.SaveResponse)
  (st : @Goals.State JsNumber MealPlan) :
  (fst (Goals.handleSubmitGoal weightDifference user today calculated saved st))
    .(Goals.calculating) = false
  /\ (fst (Goals.handleSubmitGoal weightDifference user today calculated
            saved st)).(Goals.userGoal) = st.(Goals.userGoal)
  /\ (fst (Goals.handleSubmitGoal weightDifference user today calculated
            saved st)).(Goals.mealPlan) = st.(Goals.mealPlan)
  /\ hd_error (snd (Goals.handleSubmitGoal weightDifference user today
                      calculated saved st))
     = Some (Goals.CalorieRequest
               (Goals.goalDescription weightDifference st.(Goals.userGoal)))
  /\ (fst (Goals.handleSubmitGoal weightDifference user today calculated
            saved st)).(Goals.currentStep)
     = (if Goals.submissionSucceeds user calculated saved
        then Goals.results else st.(Goals.currentStep))
  /\ (fst (Goals.handleSubmitGoal weightDifference user today calculated
            saved st)).(Goals.calorieResults)
     = match calculated with
       | Goals.Fulfilled r => Some r
       | Goals.Rejected => st.(Goals.calorieResults)
       end
  /\ (In (Goals.Toast "Error" "Failed to calculate your calorie intake" true)
         (snd (Goals.handleSubmitGoal weightDifference user today calculated
                 saved st))
      <-> Goals.submissionSucceeds user calculated saved = false)
  /\ (In (Goals.Toast "Error" "Failed to save your nutrition goals" true)
         (snd (Goals.handleSubmitGoal weightDifference user today calculated
                 saved st))
      <-> exists r userId response e,
            calculated = Goals.Fulfilled r /\ user = Some userId
            /\ saved = Goals.Fulfilled response
            /\ response.(Goals.save_error) = Some e).
Proof.
  destruct st as [ld ca ge step g cr pl sid].
  destruct calculated as [|r]; [|destruct user as [u|]];
    [| destruct saved as [|[rows [e|]]];
       [| |destruct rows as [[|row l]|]] |];
    (split; [reflexivity|]); (split; [reflexivity|]);
    (split; [reflexivity|]); (split; [reflexivity|]);
    (split; [reflexivity|]); (split; [reflexivity|]);
    cbn [Goals.submissionSucceeds];
    (split;
     [ first
         [ split; [intros _; reflexivity | intros _; listed]
         | split; [intro H; not_listed H | discriminate] ]
     | first
         [ split;
           [ intros _; do 4 eexists; repeat split; reflexivity
           | intros _; listed ]
         | split;
           [ intro H; not_listed H
           | intros (r0 & u0 & p0 & e0 & H1 & H2 & H3 & H4);
             try discriminate H1; try discriminate H2; try discriminate H3;
             injection H3 as <-; discriminate H4 ] ] ]).
Qed.


Lemma afterSampleResults_reachable :
  Goals.reachable numberToString sampleDifference "u" afterSampleResults.
Proof.
  apply (runActions_reachable numberToString sampleDifference "u"
           [Goals.ClickCalculate "2025-05-02" (Goals.Fulfilled sampleResults)
              (Goals.Fulfilled {| Goals.saved_rows := Some [];
                                  Goals.save_error := None |})]
           afterSampleRun afterSampleResults afterSampleRun_reachable).
  reflexivity.
Qed.

Lemma meal_plan_request_names_calories_witness :
  hd_error
    (snd (Goals.perform numberToString sampleDifference (Some "u")
            afterSampleResults (Goals.ClickGenerateMealPlan Goals.Rejected)))
  = Some (Goals.MealPlanRequest
            "I need a 2150 calorie meal plan with 3 meals throughout the day. I am trying to lose weight. ").
Proof.
  destruct (meal_plan_request_names_calories
              numberToString sampleDifference "u" afterSampleResults
              Goals.Rejected afterSampleResults_reachable eq_refl)
    as (r & _ & H & _).
  exact H.
Defined.

(** * The landing page *)

Section LandingFacts.
Import Landing.

Ltac landing_cases demo api st :=
  destruct st as [ld [f|] [u|] rd sf ix];
  try (destruct (String.eqb u EmptyString) eqn:Eu);
  destruct demo;
  destruct api as [[m|]|[| |e]|[[m|]|d]];
  try (destruct (String.eqb e EmptyString) eqn:Ee).

(** X15.  how a submission ends.  With an image to send, the click ends with
    the loading off and leaves the file, the preview and the index of the
    card as they were.  Either the answer of the service was parsed, the
    recipe is stored, the cards are shown and the last toast announces the
    recipe; or the recipe and the cards are as they were and the last thing
    done is a destructive toast titled "Error".  Without an image the click
    only shows a destructive toast and changes nothing. *)
Theorem landing_submit_ends (demo : DemoOutcome) (api : ApiOutcome)
  (st : State) :
  (hasImage st = false ->
   handleSubmit demo api st
   = (st, [Toast "No image selected"
             "Please upload a photo of your fridge or use our demo image."
             true]))
  /\ (hasImage st = true ->
      (fst (handleSubmit demo api st)).(isLoading) = false
      /\ (fst (handleSubmit demo api st)).(file) = st.(file)
      /\ (fst (handleSubmit demo api st)).(previewUrl) = st.(previewUrl)
      /\ (fst (handleSubmit demo api st)).(currentCardIndex)
         = st.(currentCardIndex)
      /\ ((exists d,
             api = ApiOk (ParsedData d)
             /\ (fst (handleSubmit demo api st)).(recipeData) = Some d
             /\ (fst (handleSubmit demo api st)).(showFlashcards) = true
             /\ last (snd (handleSubmit demo api st)) (ConsoleLog "")
                = Toast "Recipe generated!"
                        "Check out your personalized recipe cards." false)
          \/ ((fst (handleSubmit demo api st)).(recipeData) = st.(recipeData)
              /\ (fst (handleSubmit demo api st)).(showFlashcards)
                 = st.(showFlashcards)
              /\ exists description,
                   last (snd (handleSubmit demo api st)) (ConsoleLog "")
                   = Toast "Error" description true))).
Proof.
  split; intro H.
  - unfold handleSubmit, hasImage in *.
    destruct st.(file); [discriminate|]. now rewrite H.
  - landing_cases demo api st;
      unfold hasImage, truthyUrl in H; cbn [file previewUrl] in H;
      rewrite ?Eu in H; try discriminate H;
      unfold handleSubmit, trySubmit, postImage, truthyUrl;
      simpl; rewrite ?Eu; simpl; rewrite ?Ee; simpl;
      (split; [reflexivity|]); (split; [reflexivity|]);
      (split; [reflexivity|]); (split; [reflexivity|]);
      first [ left; eexists; repeat split; reflexivity
            | right; split; [reflexivity|]; split; [reflexivity|];
              eexists; reflexivity ].
Qed.

Ltac unfold_submit Eu :=
  unfold handleSubmit, trySubmit, postImage, truthyUrl;
  simpl; rewrite ?Eu; simpl.

(** X16.  the text of the error toast.  When the demo image cannot be
    fetched the toast reads "Failed to process demo image" and nothing is
    posted.  When the request is posted: a refusal whose body has an
    [error] shows that text; a refusal whose body cannot be read, is [null]
    or has no [error] shows "Failed to generate recipe"; a rejected request
    or a rejected parse shows the message of the error, and the general
    message when what was thrown is no error. *)
Theorem landing_error_texts (demo : DemoOutcome) (api : ApiOutcome)
  (st : State) :
  hasImage st = true ->
  (st.(file) = None -> demo = DemoFailed ->
   last (snd (handleSubmit demo api st)) (ConsoleLog "")
   = Toast "Error" "Failed to process demo image" true
   /\ forall image, ~ In (PostRecipe image) (snd (handleSubmit demo api st)))
  /\ (st.(file) <> None \/ demo = DemoFetched ->
      (forall e, api = ApiNotOk (BodyObject e) -> e <> EmptyString ->
         last (snd (handleSubmit demo api st)) (ConsoleLog "")
         = Toast "Error" e true)
      /\ (api = ApiNotOk BodyUnreadable \/ api = ApiNotOk BodyNull
          \/ api = ApiNotOk (BodyObject "") ->
          last (snd (handleSubmit demo api st)) (ConsoleLog "")
          = Toast "Error" "Failed to generate recipe" true)
      /\ (forall m,
            api = ApiRejected (ErrorInstance m)
            \/ api = ApiOk (ParseRejected (ErrorInstance m)) ->
            last (snd (handleSubmit demo api st)) (ConsoleLog "")
            = Toast "Error" m true)
      /\ (api = ApiRejected OtherValue
          \/ api = ApiOk (ParseRejected OtherValue) ->
          last (snd (handleSubmit demo api st)) (ConsoleLog "")
          = Toast "Error" "Failed to process your image. Please try again."
                  true)).
Proof.
  intro H. destruct st as [ld [f|] [u|] rd sf ix];
    unfold hasImage, truthyUrl in H; cbn [file previewUrl] in H;
    try discriminate H;
    try (destruct (String.eqb u EmptyString) eqn:Eu; [discriminate H|]);
    (split;
     [ intros Hf Hd;
       first [ discriminate Hf
             | subst demo; unfold_submit Eu;
               split; [reflexivity | intros image Hin; not_listed Hin] ]
     | intros Hsend;
       assert (Hdemo : demo = DemoFetched \/ True) by (right; exact I);
       try (destruct Hsend as [Hsend|Hsend]; [now elim Hsend|]; subst demo);
       repeat split;
       [ intros e -> He; apply String.eqb_neq in He; unfold_submit Eu;
         try destruct demo; simpl; rewrite ?He; reflexivity
       | intros [-> | [-> | ->]]; unfold_submit Eu; try destruct demo; reflexivity
       | intros m [-> | ->]; unfold_submit Eu; try destruct demo; reflexivity
       | intros [-> | ->]; unfold_submit Eu; try destruct demo; reflexivity ] ]).
Qed.

Lemma landing_error_texts_witness :
  last (snd (handleSubmit DemoFetched
               (ApiNotOk (BodyObject "No food found in the photo"))
               (fst (handleDemoImage initialState))))
       (ConsoleLog "")
  = Toast "Error" "No food found in the photo" true.
Proof.
  refine (proj1 (proj2 (landing_error_texts DemoFetched
                          (ApiNotOk (BodyObject "No food found in the photo"))
                          (fst (handleDemoImage initialState)) eq_refl)
                   (or_intror eq_refl))
            "No food found in the photo" eq_refl _).
  discriminate.
Defined.

(** X17.  the chosen file is what is sent.  Once a file is chosen, a click
    on the demo image changes the preview but not the file, and a
    submission posts the file: the demo image is neither fetched nor
    posted. *)
Theorem chosen_file_is_sent (name : string) (demo : DemoOutcome)
  (api : ApiOutcome) (st : State) :
  (fst (handleDemoImage (handleFileChange (Some name) st))).(previewUrl)
  = Some demoImageUrl
  /\ (fst (handleDemoImage (handleFileChange (Some name) st))).(file)
     = Some name
  /\ In (PostRecipe (Some (UploadedFile name)))
        (snd (handleSubmit demo api
                (fst (handleDemoImage (handleFileChange (Some name) st)))))
  /\ (forall e,
        In e (snd (handleSubmit demo api
                     (fst (handleDemoImage
                             (handleFileChange (Some name) st))))) ->
        e <> PostRecipe (Some DemoBlob) /\ forall url, e <> FetchImage url).
Proof.
  destruct st as [ld f u rd sf ix].
  split; [reflexivity|]. split; [reflexivity|].
  destruct api as [[m|]|[| |e]|[[m|]|d]];
    unfold handleSubmit, trySubmit, postImage; simpl;
    (split; [listed|]);
    intros x Hx;
    repeat (destruct Hx as [<-|Hx];
            [split; [discriminate|intro; discriminate]|]);
    destruct Hx.
Qed.

End LandingFacts.
